(** * Customer profile and cart consistency engine

    A shallow embedding of the profile managers of the storefront
    ([BaseProfileManager], [FirebaseProfileManager] and
    [OfflineProfileManager]) and the proofs of their specified properties.

    Modelling conventions.
    - JavaScript numbers are IEEE 754 doubles.  Prices and totals, which the
      catalog gives in fractional currency units, are primitive binary64
      floats, and the code's [+] and [*] on them are the float operations.
      Quantities and counters are whole numbers ([Z]); [number] gives the
      double that holds one.
    - A profile document is a record; free-form JavaScript objects
      (personal information, preferences, payloads) are finite maps from
      property names to [JsVal].
    - The manager object, the browser stores, the remote collection and the
      identity provider form one [World]; every method is a function in the
      monad [M], which threads the world and may throw.  A thrown error keeps
      the mutations made before it, as in JavaScript.
    - What the code reads from outside (the clock, generated identifiers,
      whether a remote call resolves, the catalog) is an [Env] of oracles
      indexed by how many reads were made before.
    - [localStorage] holds [JSON.stringify] images of profiles; parsing is
      taken to give the profile back, so the store maps keys to profiles.
      Web Storage is taken to be available: its calls do not throw.
    - Calls run one at a time, each to its end, as on the cooperative queue
      of the browser; the debounced write is a callback of its own
      ([batchUpdateCallback]) that runs between calls. *)

From Stdlib Require Import Floats.
From Stdlib Require Import ZArith QArith String List Lia.
From stdpp Require Import base option list gmap strings.

Local Open Scope Z_scope.
Set Warnings "-inexact-float".

(** ** Data model *)

(** The double that holds the whole number [z] (the nearest one, beyond
    2^53). *)
Definition number (z : Z) : float :=
  SF2Prim (binary_normalize prec emax z 0 false).

Arguments number : simpl never.

#[warnings="-register-all"]
Inductive JsVal :=
  | JUndefined
  | JNull
  | JBool (b : bool)
  | JNum (n : Z)
  | JDouble (x : float)
  | JStr (s : string)
  | JArr (l : list JsVal)
  | JObj (o : gmap string JsVal).

Abbreviation JsObj := (gmap string JsVal).
Abbreviation Timestamp := string (only parsing).

Inductive ProfileType := guest | registered.

#[global] Instance ProfileType_eq_dec : EqDecision ProfileType.
Proof. solve_decision. Defined.

Record CartItem := mkCartItem {
  product_id : string;
  quantity : Z;
  added_at : Timestamp;
  item_updated_at : Timestamp }.

Record Cart := mkCart {
  items : list CartItem;
  total : float;
  cart_updated_at : option Timestamp }.

(** [{...cart, abandoned_at: now}] *)
Record AbandonedCart := mkAbandonedCart {
  abandoned_cart : Cart;
  abandoned_at : Timestamp }.

Record WishlistItem := mkWishlistItem {
  wish_product_id : string;
  wish_product_data : JsObj;
  wish_added_at : Timestamp }.

Record Shopping := mkShopping {
  cart : Cart;
  wishlist : list WishlistItem;
  purchase_history : list JsObj;
  abandoned_carts : list AbandonedCart }.

Record PageView := mkPageView {
  page : string;
  page_data : JsObj;
  page_timestamp : Timestamp;
  url : string }.

Record ProductView := mkProductView {
  view_product_id : string;
  view_product_data : JsObj;
  view_timestamp : Timestamp }.

Record Browsing := mkBrowsing {
  page_views : list PageView;
  product_views : list ProductView;
  categories_visited : list string;
  search_queries : list string;
  time_spent : Z;
  last_active : Timestamp }.

Record Event := mkEvent {
  action : string;
  data : JsObj;
  timestamp : Timestamp;
  page_url : string;
  user_agent : string }.

Record Analytics := mkAnalytics {
  events : list Event;
  filters_used : list JsVal;
  actions_taken : list JsVal }.

Record Metadata := mkMetadata {
  device : JsObj;
  first_visit : Timestamp;
  visit_count : Z }.

Record ConvertedFromGuest := mkConvertedFromGuest {
  original_guest_id : string;
  converted_at : Timestamp;
  guest_session_id : string }.

Record Profile := mkProfile {
  profile_id : string;
  profile_type : ProfileType;
  created_at : Timestamp;
  updated_at : Timestamp;
  session_id : string;
  personal_info : JsObj;
  shopping : Shopping;
  browsing : Browsing;
  analytics : Analytics;
  preferences : JsObj;
  metadata : Metadata;
  converted_from_guest : option ConvertedFromGuest }.

Record Product := mkProduct {
  prod_id : string;
  price : float }.

(** The identity provider's user object. *)
Record User := mkUser {
  uid : string;
  user_email : JsVal;
  displayName : JsVal }.

(** The argument of [convertGuestToRegistered]; an absent property is
    [None]. *)
Record UserInfo := mkUserInfo {
  info_email : string;
  info_name : option string;
  info_phone : option string;
  info_marketing_emails : option bool }.

(** The argument of [updateProfile]; an absent property is [None]. *)
Record Updates := mkUpdates {
  upd_personal_info : option JsObj;
  upd_preferences : option JsObj }.

(** ** Field updates *)

Definition set_items (f : list CartItem -> list CartItem) (c : Cart) : Cart :=
  mkCart (f (items c)) (total c) (cart_updated_at c).
Definition set_total (t : float) (c : Cart) : Cart :=
  mkCart (items c) t (cart_updated_at c).
Definition set_cart_updated_at (t : Timestamp) (c : Cart) : Cart :=
  mkCart (items c) (total c) (Some t).

Definition set_cart (f : Cart -> Cart) (s : Shopping) : Shopping :=
  mkShopping (f (cart s)) (wishlist s) (purchase_history s) (abandoned_carts s).
Definition set_wishlist (f : list WishlistItem -> list WishlistItem) (s : Shopping) : Shopping :=
  mkShopping (cart s) (f (wishlist s)) (purchase_history s) (abandoned_carts s).
Definition set_purchase_history (f : list JsObj -> list JsObj) (s : Shopping) : Shopping :=
  mkShopping (cart s) (wishlist s) (f (purchase_history s)) (abandoned_carts s).
Definition set_abandoned_carts (f : list AbandonedCart -> list AbandonedCart) (s : Shopping) : Shopping :=
  mkShopping (cart s) (wishlist s) (purchase_history s) (f (abandoned_carts s)).

Definition set_page_views (f : list PageView -> list PageView) (b : Browsing) : Browsing :=
  mkBrowsing (f (page_views b)) (product_views b) (categories_visited b)
             (search_queries b) (time_spent b) (last_active b).
Definition set_product_views (f : list ProductView -> list ProductView) (b : Browsing) : Browsing :=
  mkBrowsing (page_views b) (f (product_views b)) (categories_visited b)
             (search_queries b) (time_spent b) (last_active b).
Definition set_last_active (t : Timestamp) (b : Browsing) : Browsing :=
  mkBrowsing (page_views b) (product_views b) (categories_visited b)
             (search_queries b) (time_spent b) t.

Definition set_events (f : list Event -> list Event) (a : Analytics) : Analytics :=
  mkAnalytics (f (events a)) (filters_used a) (actions_taken a).

Definition set_visit_count (f : Z -> Z) (m : Metadata) : Metadata :=
  mkMetadata (device m) (first_visit m) (f (visit_count m)).

Definition set_updated_at (t : Timestamp) (p : Profile) : Profile :=
  mkProfile (profile_id p) (profile_type p) (created_at p) t (session_id p)
            (personal_info p) (shopping p) (browsing p) (analytics p)
            (preferences p) (metadata p) (converted_from_guest p).
Definition set_personal_info (f : JsObj -> JsObj) (p : Profile) : Profile :=
  mkProfile (profile_id p) (profile_type p) (created_at p) (updated_at p) (session_id p)
            (f (personal_info p)) (shopping p) (browsing p) (analytics p)
            (preferences p) (metadata p) (converted_from_guest p).
Definition set_preferences (f : JsObj -> JsObj) (p : Profile) : Profile :=
  mkProfile (profile_id p) (profile_type p) (created_at p) (updated_at p) (session_id p)
            (personal_info p) (shopping p) (browsing p) (analytics p)
            (f (preferences p)) (metadata p) (converted_from_guest p).
Definition set_shopping (f : Shopping -> Shopping) (p : Profile) : Profile :=
  mkProfile (profile_id p) (profile_type p) (created_at p) (updated_at p) (session_id p)
            (personal_info p) (f (shopping p)) (browsing p) (analytics p)
            (preferences p) (metadata p) (converted_from_guest p).
Definition set_browsing (f : Browsing -> Browsing) (p : Profile) : Profile :=
  mkProfile (profile_id p) (profile_type p) (created_at p) (updated_at p) (session_id p)
            (personal_info p) (shopping p) (f (browsing p)) (analytics p)
            (preferences p) (metadata p) (converted_from_guest p).
Definition set_analytics (f : Analytics -> Analytics) (p : Profile) : Profile :=
  mkProfile (profile_id p) (profile_type p) (created_at p) (updated_at p) (session_id p)
            (personal_info p) (shopping p) (browsing p) (f (analytics p))
            (preferences p) (metadata p) (converted_from_guest p).
Definition set_metadata (f : Metadata -> Metadata) (p : Profile) : Profile :=
  mkProfile (profile_id p) (profile_type p) (created_at p) (updated_at p) (session_id p)
            (personal_info p) (shopping p) (browsing p) (analytics p)
            (preferences p) (f (metadata p)) (converted_from_guest p).

(** Shorthands for the paths the code reads. *)
Definition cart_items (p : Profile) : list CartItem := items (cart (shopping p)).
Definition cart_total (p : Profile) : float := total (cart (shopping p)).
Definition profile_events (p : Profile) : list Event := events (analytics p).
Definition profile_abandoned (p : Profile) : list AbandonedCart :=
  abandoned_carts (shopping p).

(** ** JavaScript array helpers *)

(** [arr.slice(-n)]: the last [n] entries (all of them when there are
    fewer). *)
Definition slice_last {A} (n : nat) (l : list A) : list A :=
  drop (length l - n)%nat l.

(** [if (arr.length > n) arr = arr.slice(-n)] *)
Definition keep_last {A} (n : nat) (l : list A) : list A :=
  if (n <? length l)%nat then slice_last n l else l.

(** An in-place change of the element that [find] returns: the first one
    that satisfies [P]. *)
Fixpoint update_first {A} (P : A -> bool) (f : A -> A) (l : list A) : list A :=
  match l with
  | [] => []
  | x :: r => if P x then f x :: r else x :: update_first P f r
  end.

(** JavaScript truthiness of a possibly absent string. *)
Definition truthy (s : option string) : bool :=
  match s with
  | Some s => negb (String.eqb s "")
  | None => false
  end.

(** ** The world and the environment *)

Inductive Error :=
  | NoGuestProfile   (* [new Error('No guest profile to convert')] *)
  | IdentityError    (* the identity provider rejected the call *)
  | RemoteError      (* the remote profile store rejected the call *)
  | TypeError.       (* a property read on [null] *)

Inductive Outcome (A : Type) :=
  | Returned (a : A)
  | Thrown (e : Error).
Arguments Returned {A} a.
Arguments Thrown {A} e.

(** What the code reads from its surroundings. *)
Record Env := mkEnv {
  clock : nat -> Timestamp;      (* the k-th [new Date().toISOString()] *)
  fresh : nat -> string;         (* the k-th [Date.now()] and random suffix *)
  remote_ok : nat -> bool;       (* does the k-th remote call resolve *)
  db : bool;                     (* is [this.db] set *)
  createUserWithEmailAndPassword : string -> string -> option User;
  href : string;                 (* [window.location.href] *)
  userAgent : string;            (* [navigator.userAgent] *)
  device_info : JsObj;           (* the other environment fields of [metadata] *)
  products : option (list Product) (* the global catalog, [None] when undefined *)
}.

Record World := mkWorld {
  currentProfile : option Profile;
  batchUpdateScheduled : bool;
  batchTimers : nat;                   (* [setTimeout] callbacks handed over *)
  localStorage : gmap string Profile;
  sessionStorage : option string;      (* the entry ['session_id'] *)
  user_profiles : gmap string Profile; (* the remote collection *)
  auth_currentUser : option User;
  date_reads : nat;
  ids_drawn : nat;
  remote_calls : nat }.

Definition set_currentProfile (p : option Profile) (w : World) : World :=
  mkWorld p (batchUpdateScheduled w) (batchTimers w) (localStorage w)
          (sessionStorage w) (user_profiles w) (auth_currentUser w)
          (date_reads w) (ids_drawn w) (remote_calls w).
Definition set_batchUpdateScheduled (b : bool) (w : World) : World :=
  mkWorld (currentProfile w) b (batchTimers w) (localStorage w)
          (sessionStorage w) (user_profiles w) (auth_currentUser w)
          (date_reads w) (ids_drawn w) (remote_calls w).
Definition set_batchTimers (f : nat -> nat) (w : World) : World :=
  mkWorld (currentProfile w) (batchUpdateScheduled w) (f (batchTimers w)) (localStorage w)
          (sessionStorage w) (user_profiles w) (auth_currentUser w)
          (date_reads w) (ids_drawn w) (remote_calls w).
Definition set_localStorage (f : gmap string Profile -> gmap string Profile) (w : World) : World :=
  mkWorld (currentProfile w) (batchUpdateScheduled w) (batchTimers w) (f (localStorage w))
          (sessionStorage w) (user_profiles w) (auth_currentUser w)
          (date_reads w) (ids_drawn w) (remote_calls w).
Definition set_sessionStorage (s : option string) (w : World) : World :=
  mkWorld (currentProfile w) (batchUpdateScheduled w) (batchTimers w) (localStorage w)
          s (user_profiles w) (auth_currentUser w)
          (date_reads w) (ids_drawn w) (remote_calls w).
Definition set_user_profiles (f : gmap string Profile -> gmap string Profile) (w : World) : World :=
  mkWorld (currentProfile w) (batchUpdateScheduled w) (batchTimers w) (localStorage w)
          (sessionStorage w) (f (user_profiles w)) (auth_currentUser w)
          (date_reads w) (ids_drawn w) (remote_calls w).
Definition set_auth_currentUser (u : option User) (w : World) : World :=
  mkWorld (currentProfile w) (batchUpdateScheduled w) (batchTimers w) (localStorage w)
          (sessionStorage w) (user_profiles w) u
          (date_reads w) (ids_drawn w) (remote_calls w).
Definition set_date_reads (f : nat -> nat) (w : World) : World :=
  mkWorld (currentProfile w) (batchUpdateScheduled w) (batchTimers w) (localStorage w)
          (sessionStorage w) (user_profiles w) (auth_currentUser w)
          (f (date_reads w)) (ids_drawn w) (remote_calls w).
Definition set_ids_drawn (f : nat -> nat) (w : World) : World :=
  mkWorld (currentProfile w) (batchUpdateScheduled w) (batchTimers w) (localStorage w)
          (sessionStorage w) (user_profiles w) (auth_currentUser w)
          (date_reads w) (f (ids_drawn w)) (remote_calls w).
Definition set_remote_calls (f : nat -> nat) (w : World) : World :=
  mkWorld (currentProfile w) (batchUpdateScheduled w) (batchTimers w) (localStorage w)
          (sessionStorage w) (user_profiles w) (auth_currentUser w)
          (date_reads w) (ids_drawn w) (f (remote_calls w)).

(** ** The monad of methods *)

Definition M (A : Type) : Type := World -> Outcome A * World.

Definition ret {A} (a : A) : M A := fun w => (Returned a, w).

Definition bind {A B} (m : M A) (k : A -> M B) : M B := fun w =>
  match m w with
  | (Returned a, w') => k a w'
  | (Thrown e, w') => (Thrown e, w')
  end.

Declare Scope method_scope.
Delimit Scope method_scope with method.
Notation "x ← y ; z" := (bind y (fun x => z))
  (at level 20, y at level 100, z at level 200, only parsing) : method_scope.
Notation "x ;; z" := (bind x (fun _ => z))
  (at level 100, z at level 200, only parsing, right associativity) : method_scope.
Local Open Scope method_scope.

Definition throw {A} (e : Error) : M A := fun w => (Thrown e, w).

(** [try { m } catch (error) { h error }] *)
Definition try_catch {A} (m : M A) (h : Error -> M A) : M A := fun w =>
  match m w with
  | (Returned a, w') => (Returned a, w')
  | (Thrown e, w') => h e w'
  end.

(** [try { m } finally { f }], for an [f] that does not throw. *)
Definition try_finally {A} (m : M A) (f : World -> World) : M A := fun w =>
  let '(r, w') := m w in (r, f w').

Definition gets {A} (f : World -> A) : M A := fun w => (Returned (f w), w).
Definition modify (f : World -> World) : M unit := fun w => (Returned tt, f w).

(** [try { m } catch (error) { console.warn(...) }] *)
Definition warn_on_error (m : M unit) : M unit := try_catch m (fun _ => ret tt).

(** The state a call leaves and what it returns. *)
Definition exec {A} (m : M A) (w : World) : World := snd (m w).
Definition result {A} (m : M A) (w : World) : Outcome A := fst (m w).

(** ** BaseProfileManager *)

Module BaseProfileManager.
Section Methods.
Context (env : Env).

(** [new Date().toISOString()] *)
Definition now : M Timestamp := fun w =>
  (Returned (clock env (date_reads w)), set_date_reads S w).

(** [Date.now() + '_' + Math.random().toString(36).substr(2, 9)] *)
Definition draw : M string := fun w =>
  (Returned (fresh env (ids_drawn w)), set_ids_drawn S w).

(** [this.currentProfile.<path> = ...]; the callers have checked that the
    profile is not [null]. *)
Definition mutate (f : Profile -> Profile) : M unit :=
  modify (fun w => set_currentProfile (f <$> currentProfile w) w).

(** A read of [this.currentProfile.<path>]. *)
Definition this_profile : M Profile := fun w =>
  match currentProfile w with
  | Some p => (Returned p, w)
  | None => (Thrown TypeError, w)
  end.

Definition getCurrentProfile : M (option Profile) := gets currentProfile.

Definition generateProfileId : M string :=
  suffix ← draw; ret ("profile_" +:+ suffix).

Definition generateSessionId : M string :=
  stored ← gets sessionStorage;
  if truthy stored then ret (default "" stored)
  else
    suffix ← draw;
    let sessionId := "session_" +:+ suffix in
    modify (set_sessionStorage (Some sessionId));;
    ret sessionId.

Definition createBaseProfile (profileId : string) (profileType : ProfileType)
    : M Profile :=
  created ← now;
  updated ← now;
  sessionId ← generateSessionId;
  active ← now;
  first ← now;
  ret {|
    profile_id := profileId;
    profile_type := profileType;
    created_at := created;
    updated_at := updated;
    session_id := sessionId;
    personal_info :=
      list_to_map [("email", JNull); ("name", JNull); ("phone", JNull);
                   ("addresses", JArr [])];
    shopping :=
      {| cart := {| items := []; total := 0%float; cart_updated_at := None |};
         wishlist := [];
         purchase_history := [];
         abandoned_carts := [] |};
    browsing :=
      {| page_views := [];
         product_views := [];
         categories_visited := [];
         search_queries := [];
         time_spent := 0;
         last_active := active |};
    analytics := {| events := []; filters_used := []; actions_taken := [] |};
    preferences :=
      list_to_map [("currency", JStr "USD"); ("notifications", JBool true);
                   ("marketing_emails", JBool false);
                   ("size_preferences", JObj ∅);
                   ("favorite_categories", JArr [])];
    metadata :=
      {| device := <["user_agent" := JStr (userAgent env)]> (device_info env);
         first_visit := first;
         visit_count := 1 |};
    converted_from_guest := None
  |}.

(** The catalog line for a cart item: [products.find(p => p.id === id)]. *)
Definition find_product (catalog : list Product) (id : string) : option Product :=
  find (fun p => bool_decide (prod_id p = id)) catalog.

(** The [forEach] loop of [updateCartTotal]: [let total = 0] and, for each
    item in cart order, [total += product.price * item.quantity] in double
    arithmetic. *)
Definition sum_cart (catalog : list Product) (its : list CartItem) : float :=
  fold_left
    (fun total item =>
       match find_product catalog (product_id item) with
       | Some product => (total + price product * number (quantity item))%float
       | None => total
       end)
    its 0%float.

Definition guest_profile_key (sessionId : string) : string :=
  "guest_profile_" +:+ sessionId.

End Methods.
End BaseProfileManager.

(** ** The remote profile store *)

Module Firestore.
Section Calls.
Context (env : Env).

(** Every call on [this.db] either resolves or rejects; with no [db] the
    property read throws. *)
Definition call : M unit := fun w =>
  if db env then
    if remote_ok env (remote_calls w)
    then (Returned tt, set_remote_calls S w)
    else (Thrown RemoteError, set_remote_calls S w)
  else (Thrown TypeError, w).

(** [doc(id).get()]: [None] when [!profileDoc.exists]. *)
Definition get (id : string) : M (option Profile) :=
  call;; gets (fun w => user_profiles w !! id).

(** [doc(id).set(profile)] *)
Definition set (id : string) (profile : Profile) : M unit :=
  call;; modify (set_user_profiles <[id := profile]>).

(** A merge write of a whole profile: nested objects are merged key by
    key, every other field is replaced, a field the write does not carry
    is kept. *)
Definition merge_doc (new old : Profile) : Profile :=
  {| profile_id := profile_id new;
     profile_type := profile_type new;
     created_at := created_at new;
     updated_at := updated_at new;
     session_id := session_id new;
     personal_info := personal_info new ∪ personal_info old;
     shopping := shopping new;
     browsing := browsing new;
     analytics := analytics new;
     preferences := preferences new ∪ preferences old;
     metadata :=
       {| device := device (metadata new) ∪ device (metadata old);
          first_visit := first_visit (metadata new);
          visit_count := visit_count (metadata new) |};
     converted_from_guest :=
       match converted_from_guest new with
       | Some c => Some c
       | None => converted_from_guest old
       end |}.

(** [doc(id).set(profile, { merge: true })] *)
Definition set_merge (id : string) (profile : Profile) : M unit :=
  call;;
  modify (set_user_profiles (fun docs =>
    <[id := match docs !! id with
            | Some old => merge_doc profile old
            | None => profile
            end]> docs)).

(** [doc(id).update(fields)]: rejects when the document does not exist. *)
Definition update (id : string) (fields : Profile -> Profile) : M unit :=
  call;;
  docs ← gets user_profiles;
  match docs !! id with
  | Some _ => modify (set_user_profiles (alter fields id))
  | None => throw RemoteError
  end.

(** [doc(id).delete()] *)
Definition delete (id : string) : M unit :=
  call;; modify (set_user_profiles (base.delete id)).

End Calls.
End Firestore.

(** ** FirebaseProfileManager *)

Module FirebaseProfileManager.
Import BaseProfileManager.
Section Methods.
Context (env : Env).

(** [this.auth.createUserWithEmailAndPassword(email, password)]: on success
    the new account is also the signed-in one. *)
Definition createAccount (email password : string) : M User := fun w =>
  match createUserWithEmailAndPassword env email password with
  | Some user => (Returned user, set_auth_currentUser (Some user) w)
  | None => (Thrown IdentityError, w)
  end.

(** [user.updateProfile({ displayName: name })] *)
Definition setDisplayName (name : string) : M unit := fun w =>
  if remote_ok env (remote_calls w) then
    (Returned tt,
     set_remote_calls S
       (set_auth_currentUser
          ((fun u => mkUser (uid u) (user_email u) (JStr name)) <$> auth_currentUser w) w))
  else (Thrown IdentityError, set_remote_calls S w).

Definition createFallbackProfile : M Profile :=
  stamp ← draw env;
  createBaseProfile env ("fallback_" +:+ stamp) guest.

(** Batched updates: one pending write at a time. *)
Definition batchUpdateProfile : M unit :=
  scheduled ← gets batchUpdateScheduled;
  if scheduled then ret tt
  else modify (fun w => set_batchTimers S (set_batchUpdateScheduled true w)).

(** The callback that [batchUpdateProfile] hands to [setTimeout]. *)
Definition batchUpdateCallback : M unit :=
  try_finally
    (warn_on_error (
       current ← gets currentProfile;
       match current with
       | Some profile =>
           (if db env then Firestore.set_merge env (profile_id profile) profile
            else ret tt);;
           if decide (profile_type profile = guest) then
             sessionId ← generateSessionId env;
             modify (set_localStorage <[guest_profile_key sessionId := profile]>)
           else ret tt
       | None => ret tt
       end))
    (set_batchUpdateScheduled false).

Definition updateCartTotal : M unit :=
  current ← gets currentProfile;
  match current, products env with
  | Some profile, Some catalog =>
      let total := sum_cart catalog (cart_items profile) in
      mutate (set_shopping (set_cart (set_total total)));;
      t ← now env;
      mutate (set_shopping (set_cart (set_cart_updated_at t)))
  | _, _ => ret tt
  end.

Definition updateLastActive (profileId : string) : M unit :=
  if db env then
    warn_on_error (
      t ← now env;
      Firestore.update env profileId
        (fun doc => set_metadata (set_visit_count (fun n => n + 1))
                      (set_browsing (set_last_active t) doc)))
  else ret tt.

Definition syncGuestProfileToFirebase (profile : Profile) : M unit :=
  if db env then
    warn_on_error (Firestore.set_merge env (profile_id profile) profile)
  else ret tt.

(** The guest wishlist entries that [mergeGuestData] appends. *)
Definition new_wishes (registered guests : list WishlistItem) : list WishlistItem :=
  List.filter
    (fun item =>
       negb (bool_decide (is_Some
         (find (fun existing =>
                  bool_decide (wish_product_id existing = wish_product_id item))
               registered))))
    guests.

(** The fields that [update(registeredProfile)] writes: all the profile
    carries. *)
Definition overwrite_doc (profile old : Profile) : Profile :=
  {| profile_id := profile_id profile;
     profile_type := profile_type profile;
     created_at := created_at profile;
     updated_at := updated_at profile;
     session_id := session_id profile;
     personal_info := personal_info profile;
     shopping := shopping profile;
     browsing := browsing profile;
     analytics := analytics profile;
     preferences := preferences profile;
     metadata := metadata profile;
     converted_from_guest :=
       match converted_from_guest profile with
       | Some c => Some c
       | None => converted_from_guest old
       end |}.

(** [mergeGuestData] changes the object it is given; the changed object is
    the result here. *)
Definition mergeGuestData (registeredProfile : Profile) : M Profile :=
  sessionId ← generateSessionId env;
  let guestProfileKey := guest_profile_key sessionId in
  guestData ← gets (fun w => localStorage w !! guestProfileKey);
  match guestData with
  | None => ret registeredProfile
  | Some guestProfile =>
      let merged_cart :=
        if (0 <? length (cart_items guestProfile))%nat
        then set_shopping (set_cart (fun _ => cart (shopping guestProfile)))
               registeredProfile
        else registeredProfile in
      let merged_wishlist :=
        if (0 <? length (wishlist (shopping guestProfile)))%nat
        then set_shopping
               (set_wishlist (fun registered =>
                  registered ++ new_wishes registered (wishlist (shopping guestProfile))))
               merged_cart
        else merged_cart in
      let merged_browsing :=
        set_browsing
          (set_product_views (fun views =>
             views ++ product_views (browsing guestProfile)))
          (set_browsing
             (set_page_views (fun views =>
                views ++ page_views (browsing guestProfile)))
             merged_wishlist) in
      let merged_events :=
        set_analytics
          (set_events (fun registered => registered ++ profile_events guestProfile))
          merged_browsing in
      let merged :=
        set_metadata
          (set_visit_count (fun n => n + visit_count (metadata guestProfile)))
          merged_events in
      modify (set_localStorage (base.delete guestProfileKey));;
      warn_on_error
        (Firestore.update env (profile_id merged) (overwrite_doc merged));;
      ret merged
  end.

Definition createRegisteredProfile (user : User) : M Profile :=
  let profileId := uid user in
  base ← createBaseProfile env profileId registered;
  let profile :=
    set_personal_info
      (fun info => <["name" := displayName user]> (<["email" := user_email user]> info))
      base in
  profile ← mergeGuestData profile;
  Firestore.set env profileId profile;;
  ret profile.

Definition loadRegisteredProfile (user : User) : M Profile :=
  profileDoc ← Firestore.get env (uid user);
  match profileDoc with
  | Some profile =>
      profile ← mergeGuestData profile;
      updateLastActive (uid user);;
      ret profile
  | None => createRegisteredProfile user
  end.

Definition loadGuestProfile : M Profile :=
  try_catch (
    sessionId ← generateSessionId env;
    let guestProfileKey := guest_profile_key sessionId in
    localProfile ← gets (fun w => localStorage w !! guestProfileKey);
    match localProfile with
    | Some profile =>
        warn_on_error (syncGuestProfileToFirebase profile);;
        ret profile
    | None =>
        let profileId := "guest_" +:+ sessionId in
        profile ← createBaseProfile env profileId guest;
        modify (set_localStorage <[guestProfileKey := profile]>);;
        warn_on_error (Firestore.set env profileId profile);;
        ret profile
    end)
    (fun _ => createFallbackProfile).

Definition initializeProfile : M Profile :=
  try_catch (
    user ← gets auth_currentUser;
    profile ← match user with
              | Some user => loadRegisteredProfile user
              | None => loadGuestProfile
              end;
    modify (set_currentProfile (Some profile));;
    ret profile)
    (fun _ =>
       profile ← createFallbackProfile;
       modify (set_currentProfile (Some profile));;
       ret profile).

Definition trackAction (action : string) (data : JsObj) : M unit :=
  current ← gets currentProfile;
  match current with
  | None => ret tt
  | Some _ =>
      warn_on_error (
        t ← now env;
        let event := mkEvent action data t (href env) (userAgent env) in
        mutate (set_analytics (set_events (fun es => es ++ [event])));;
        active ← now env;
        mutate (set_browsing (set_last_active active));;
        updated ← now env;
        mutate (set_updated_at updated);;
        mutate (set_analytics (set_events (keep_last 1000)));;
        batchUpdateProfile)
  end.

Definition updateProfile (updates : Updates) : M (option Profile) :=
  current ← gets currentProfile;
  match current with
  | None => ret None
  | Some _ =>
      try_catch (
        (* [Object.assign(target, source)]: the source's properties win *)
        mutate (set_personal_info (fun info =>
          default ∅ (upd_personal_info updates) ∪ info));;
        mutate (set_preferences (fun prefs =>
          default ∅ (upd_preferences updates) ∪ prefs));;
        t ← now env;
        mutate (set_updated_at t);;
        (if db env then
           profile ← this_profile;
           Firestore.update env (profile_id profile)
             (fun doc =>
                set_updated_at (updated_at profile)
                  (set_preferences (fun _ => preferences profile)
                     (set_personal_info (fun _ => personal_info profile) doc)))
         else ret tt);;
        profile ← this_profile;
        (if decide (profile_type profile = guest) then
           sessionId ← generateSessionId env;
           modify (set_localStorage <[guest_profile_key sessionId := profile]>)
         else ret tt);;
        gets currentProfile)
        (fun error => throw error)
  end.

Definition trackPageView (pageName : string) (data : JsObj) : M unit :=
  current ← gets currentProfile;
  match current with
  | None => ret tt
  | Some _ =>
      t ← now env;
      let pageView := mkPageView pageName data t (href env) in
      mutate (set_browsing (set_page_views (fun views => views ++ [pageView])));;
      active ← now env;
      mutate (set_browsing (set_last_active active));;
      mutate (set_browsing (set_page_views (keep_last 500)));;
      batchUpdateProfile
  end.

Definition trackProductView (productId : string) (productData : JsObj) : M unit :=
  current ← gets currentProfile;
  match current with
  | None => ret tt
  | Some _ =>
      t ← now env;
      let productView := mkProductView productId productData t in
      mutate (set_browsing (set_product_views (fun views => views ++ [productView])));;
      mutate (set_browsing (set_product_views (keep_last 100)));;
      batchUpdateProfile
  end.

Definition addToCart (productId : string) (qty : Z) : M unit :=
  current ← gets currentProfile;
  match current with
  | None => ret tt
  | Some profile =>
      let is_line := fun item => bool_decide (product_id item = productId) in
      match find is_line (cart_items profile) with
      | Some existingItem =>
          t ← now env;
          mutate (set_shopping (set_cart (set_items (update_first is_line
            (fun item =>
               mkCartItem (product_id item) (quantity item + qty) (added_at item) t)))))
      | None =>
          added ← now env;
          updated ← now env;
          mutate (set_shopping (set_cart (set_items (fun its =>
            its ++ [mkCartItem productId qty added updated]))))
      end;;
      updateCartTotal;;
      batchUpdateProfile
  end.

Definition removeFromCart (productId : string) : M unit :=
  current ← gets currentProfile;
  match current with
  | None => ret tt
  | Some _ =>
      mutate (set_shopping (set_cart (set_items
        (filter (fun item => product_id item ≠ productId)))));;
      updateCartTotal;;
      batchUpdateProfile
  end.

Definition updateCartQuantity (productId : string) (qty : Z) : M unit :=
  current ← gets currentProfile;
  match current with
  | None => ret tt
  | Some profile =>
      let is_line := fun item => bool_decide (product_id item = productId) in
      match find is_line (cart_items profile) with
      | Some item =>
          if qty <=? 0 then removeFromCart productId
          else
            t ← now env;
            mutate (set_shopping (set_cart (set_items (update_first is_line
              (fun item => mkCartItem (product_id item) qty (added_at item) t)))));;
            updateCartTotal;;
            batchUpdateProfile
      | None => ret tt
      end
  end.

Definition clearCart : M unit :=
  current ← gets currentProfile;
  match current with
  | None => ret tt
  | Some profile =>
      (if (0 <? length (cart_items profile))%nat then
         t ← now env;
         mutate (set_shopping (set_abandoned_carts (fun carts =>
           carts ++ [mkAbandonedCart (cart (shopping profile)) t])));;
         mutate (set_shopping (set_abandoned_carts (keep_last 10)))
       else ret tt);;
      t ← now env;
      mutate (set_shopping (set_cart (fun _ => mkCart [] 0%float (Some t))));;
      batchUpdateProfile
  end.

Definition addToWishlist (productId : string) (productData : JsObj) : M unit :=
  current ← gets currentProfile;
  match current with
  | None => ret tt
  | Some profile =>
      match find (fun item => bool_decide (wish_product_id item = productId))
                 (wishlist (shopping profile)) with
      | Some existingItem => ret tt
      | None =>
          t ← now env;
          mutate (set_shopping (set_wishlist (fun wishes =>
            wishes ++ [mkWishlistItem productId productData t])));;
          batchUpdateProfile
      end
  end.

Definition removeFromWishlist (productId : string) : M unit :=
  current ← gets currentProfile;
  match current with
  | None => ret tt
  | Some _ =>
      mutate (set_shopping (set_wishlist
        (filter (fun item => wish_product_id item ≠ productId))));;
      batchUpdateProfile
  end.

Definition addPurchase (orderData : JsObj) : M unit :=
  current ← gets currentProfile;
  match current with
  | None => ret tt
  | Some _ =>
      t ← now env;
      let purchase := <["purchased_at" := JStr t]> orderData in
      mutate (set_shopping (set_purchase_history (fun history =>
        history ++ [purchase])));;
      clearCart;;
      batchUpdateProfile
  end.

(** The registered image of a guest profile, built by
    [convertGuestToRegistered]. *)
Definition registered_copy (guestProfile : Profile) (user : User)
    (userInfo : UserInfo) (sessionId : string) (updated converted : Timestamp)
    : Profile :=
  {| profile_id := uid user;
     profile_type := registered;
     created_at := created_at guestProfile;
     updated_at := updated;
     session_id := session_id guestProfile;
     personal_info :=
       <["phone" := if truthy (info_phone userInfo)
                    then JStr (default "" (info_phone userInfo)) else JNull]>
         (<["name" := from_option JStr JUndefined (info_name userInfo)]>
            (<["email" := JStr (info_email userInfo)]>
               (personal_info guestProfile)));
     shopping := shopping guestProfile;
     browsing := browsing guestProfile;
     analytics := analytics guestProfile;
     preferences :=
       <["marketing_emails" := JBool (default false (info_marketing_emails userInfo))]>
         (preferences guestProfile);
     metadata := metadata guestProfile;
     converted_from_guest :=
       Some {| original_guest_id := profile_id guestProfile;
               converted_at := converted;
               guest_session_id := sessionId |} |}.

Definition convertGuestToRegistered (userInfo : UserInfo) (password : string)
    : M Profile :=
  current ← gets currentProfile;
  match current with
  | Some profile =>
      if decide (profile_type profile = guest) then
        try_catch (
          user ← createAccount (info_email userInfo) password;
          (if truthy (info_name userInfo)
           then setDisplayName (default "" (info_name userInfo))
           else ret tt);;
          guestProfile ← this_profile;
          sessionId ← generateSessionId env;
          let guestProfileKey := guest_profile_key sessionId in
          updated ← now env;
          converted ← now env;
          let registeredProfile :=
            registered_copy guestProfile user userInfo sessionId updated converted in
          warn_on_error (Firestore.delete env (profile_id guestProfile));;
          Firestore.set env (uid user) registeredProfile;;
          modify (set_localStorage (base.delete guestProfileKey));;
          modify (set_currentProfile (Some registeredProfile));;
          trackAction "guest_converted_to_registered"
            (list_to_map
               [("original_guest_id", JStr (profile_id guestProfile));
                ("new_user_id", JStr (uid user));
                ("cart_items", JNum (Z.of_nat (length (cart_items registeredProfile))));
                ("cart_value", JDouble (cart_total registeredProfile))]);;
          (* the returned object is the one [trackAction] has just changed *)
          this_profile)
          (fun error => throw error)
      else throw NoGuestProfile
  | None => throw NoGuestProfile
  end.

Definition handleAuthChange (user : option User) : M unit :=
  current ← gets currentProfile;
  match user, profile_type <$> current with
  | Some user, Some guest =>
      profile ← loadRegisteredProfile user;
      modify (set_currentProfile (Some profile))
  | None, Some registered =>
      profile ← loadGuestProfile;
      modify (set_currentProfile (Some profile))
  | _, _ => ret tt
  end.

End Methods.
End FirebaseProfileManager.

(** ** OfflineProfileManager *)

Module OfflineProfileManager.
Import BaseProfileManager.
Section Methods.
Context (env : Env).

Definition storageKey : string := "offline_profile".

(** [localStorage.setItem(this.storageKey, JSON.stringify(this.currentProfile))];
    the text written for [null] reads back as no profile. *)
Definition saveProfile : M unit :=
  current ← gets currentProfile;
  match current with
  | Some profile => modify (set_localStorage <[storageKey := profile]>)
  | None => modify (set_localStorage (base.delete storageKey))
  end.

Definition initializeProfile : M Profile :=
  try_catch (
    storedProfile ← gets (fun w => localStorage w !! storageKey);
    match storedProfile with
    | Some profile =>
        modify (set_currentProfile (Some profile));;
        mutate (set_metadata (set_visit_count (fun n => n + 1)));;
        active ← now env;
        mutate (set_browsing (set_last_active active));;
        updated ← now env;
        mutate (set_updated_at updated);;
        saveProfile;;
        this_profile
    | None =>
        profileId ← generateProfileId env;
        profile ← createBaseProfile env profileId guest;
        modify (set_currentProfile (Some profile));;
        saveProfile;;
        this_profile
    end)
    (fun _ =>
       profileId ← generateProfileId env;
       profile ← createBaseProfile env profileId guest;
       modify (set_currentProfile (Some profile));;
       ret profile).

Definition updateCartTotal : M unit :=
  current ← gets currentProfile;
  match current, products env with
  | Some profile, Some catalog =>
      let total := sum_cart catalog (cart_items profile) in
      mutate (set_shopping (set_cart (set_total total)));;
      t ← now env;
      mutate (set_shopping (set_cart (set_cart_updated_at t)))
  | _, _ => ret tt
  end.

Definition updateProfile (updates : Updates) : M (option Profile) :=
  current ← gets currentProfile;
  match current with
  | None => ret None
  | Some _ =>
      mutate (set_personal_info (fun info =>
        default ∅ (upd_personal_info updates) ∪ info));;
      mutate (set_preferences (fun prefs =>
        default ∅ (upd_preferences updates) ∪ prefs));;
      t ← now env;
      mutate (set_updated_at t);;
      saveProfile;;
      gets currentProfile
  end.

Definition trackAction (action : string) (data : JsObj) : M unit :=
  current ← gets currentProfile;
  match current with
  | None => ret tt
  | Some _ =>
      t ← now env;
      let event := mkEvent action data t (href env) (userAgent env) in
      mutate (set_analytics (set_events (fun es => es ++ [event])));;
      active ← now env;
      mutate (set_browsing (set_last_active active));;
      updated ← now env;
      mutate (set_updated_at updated);;
      mutate (set_analytics (set_events (keep_last 1000)));;
      saveProfile
  end.

Definition trackPageView (pageName : string) (data : JsObj) : M unit :=
  current ← gets currentProfile;
  match current with
  | None => ret tt
  | Some _ =>
      t ← now env;
      let pageView := mkPageView pageName data t (href env) in
      mutate (set_browsing (set_page_views (fun views => views ++ [pageView])));;
      active ← now env;
      mutate (set_browsing (set_last_active active));;
      mutate (set_browsing (set_page_views (keep_last 500)));;
      saveProfile
  end.

Definition trackProductView (productId : string) (productData : JsObj) : M unit :=
  current ← gets currentProfile;
  match current with
  | None => ret tt
  | Some _ =>
      t ← now env;
      let productView := mkProductView productId productData t in
      mutate (set_browsing (set_product_views (fun views => views ++ [productView])));;
      mutate (set_browsing (set_product_views (keep_last 100)));;
      saveProfile
  end.

Definition addToCart (productId : string) (qty : Z) : M unit :=
  current ← gets currentProfile;
  match current with
  | None => ret tt
  | Some profile =>
      let is_line := fun item => bool_decide (product_id item = productId) in
      match find is_line (cart_items profile) with
      | Some existingItem =>
          t ← now env;
          mutate (set_shopping (set_cart (set_items (update_first is_line
            (fun item =>
               mkCartItem (product_id item) (quantity item + qty) (added_at item) t)))))
      | None =>
          added ← now env;
          updated ← now env;
          mutate (set_shopping (set_cart (set_items (fun its =>
            its ++ [mkCartItem productId qty added updated]))))
      end;;
      updateCartTotal;;
      saveProfile
  end.

Definition removeFromCart (productId : string) : M unit :=
  current ← gets currentProfile;
  match current with
  | None => ret tt
  | Some _ =>
      mutate (set_shopping (set_cart (set_items
        (filter (fun item => product_id item ≠ productId)))));;
      updateCartTotal;;
      saveProfile
  end.

Definition updateCartQuantity (productId : string) (qty : Z) : M unit :=
  current ← gets currentProfile;
  match current with
  | None => ret tt
  | Some profile =>
      let is_line := fun item => bool_decide (product_id item = productId) in
      match find is_line (cart_items profile) with
      | Some item =>
          if qty <=? 0 then removeFromCart productId
          else
            t ← now env;
            mutate (set_shopping (set_cart (set_items (update_first is_line
              (fun item => mkCartItem (product_id item) qty (added_at item) t)))));;
            updateCartTotal;;
            saveProfile
      | None => ret tt
      end
  end.

Definition clearCart : M unit :=
  current ← gets currentProfile;
  match current with
  | None => ret tt
  | Some profile =>
      (if (0 <? length (cart_items profile))%nat then
         t ← now env;
         mutate (set_shopping (set_abandoned_carts (fun carts =>
           carts ++ [mkAbandonedCart (cart (shopping profile)) t])));;
         mutate (set_shopping (set_abandoned_carts (keep_last 10)))
       else ret tt);;
      t ← now env;
      mutate (set_shopping (set_cart (fun _ => mkCart [] 0%float (Some t))));;
      saveProfile
  end.

Definition addToWishlist (productId : string) (productData : JsObj) : M unit :=
  current ← gets currentProfile;
  match current with
  | None => ret tt
  | Some profile =>
      match find (fun item => bool_decide (wish_product_id item = productId))
                 (wishlist (shopping profile)) with
      | Some existingItem => ret tt
      | None =>
          t ← now env;
          mutate (set_shopping (set_wishlist (fun wishes =>
            wishes ++ [mkWishlistItem productId productData t])));;
          saveProfile
      end
  end.

Definition removeFromWishlist (productId : string) : M unit :=
  current ← gets currentProfile;
  match current with
  | None => ret tt
  | Some _ =>
      mutate (set_shopping (set_wishlist
        (filter (fun item => wish_product_id item ≠ productId))));;
      saveProfile
  end.

Definition addPurchase (orderData : JsObj) : M unit :=
  current ← gets currentProfile;
  match current with
  | None => ret tt
  | Some _ =>
      t ← now env;
      let purchase := <["purchased_at" := JStr t]> orderData in
      mutate (set_shopping (set_purchase_history (fun history =>
        history ++ [purchase])));;
      clearCart;;
      saveProfile
  end.

(** In offline mode an identity change is only logged. *)
Definition handleAuthChange (user : option User) : M unit := ret tt.

End Methods.
End OfflineProfileManager.

(** ** The shared contract *)

(** The mutation operations that both managers implement; the callers hold
    a manager and never ask which one it is. *)
Record ProfileManager := mkProfileManager {
  pm_updateProfile : Updates -> M (option Profile);
  pm_trackAction : string -> JsObj -> M unit;
  pm_trackPageView : string -> JsObj -> M unit;
  pm_trackProductView : string -> JsObj -> M unit;
  pm_addToCart : string -> Z -> M unit;
  pm_removeFromCart : string -> M unit;
  pm_updateCartQuantity : string -> Z -> M unit;
  pm_clearCart : M unit;
  pm_addToWishlist : string -> JsObj -> M unit;
  pm_removeFromWishlist : string -> M unit;
  pm_addPurchase : JsObj -> M unit }.

Definition firebase (env : Env) : ProfileManager :=
  {| pm_updateProfile := FirebaseProfileManager.updateProfile env;
     pm_trackAction := FirebaseProfileManager.trackAction env;
     pm_trackPageView := FirebaseProfileManager.trackPageView env;
     pm_trackProductView := FirebaseProfileManager.trackProductView env;
     pm_addToCart := FirebaseProfileManager.addToCart env;
     pm_removeFromCart := FirebaseProfileManager.removeFromCart env;
     pm_updateCartQuantity := FirebaseProfileManager.updateCartQuantity env;
     pm_clearCart := FirebaseProfileManager.clearCart env;
     pm_addToWishlist := FirebaseProfileManager.addToWishlist env;
     pm_removeFromWishlist := FirebaseProfileManager.removeFromWishlist;
     pm_addPurchase := FirebaseProfileManager.addPurchase env |}.

Definition offline (env : Env) : ProfileManager :=
  {| pm_updateProfile := OfflineProfileManager.updateProfile env;
     pm_trackAction := OfflineProfileManager.trackAction env;
     pm_trackPageView := OfflineProfileManager.trackPageView env;
     pm_trackProductView := OfflineProfileManager.trackProductView env;
     pm_addToCart := OfflineProfileManager.addToCart env;
     pm_removeFromCart := OfflineProfileManager.removeFromCart env;
     pm_updateCartQuantity := OfflineProfileManager.updateCartQuantity env;
     pm_clearCart := OfflineProfileManager.clearCart env;
     pm_addToWishlist := OfflineProfileManager.addToWishlist env;
     pm_removeFromWishlist := OfflineProfileManager.removeFromWishlist;
     pm_addPurchase := OfflineProfileManager.addPurchase env |}.

(** A call a client can issue, with its arguments. *)
Inductive Call :=
  | UpdateProfile (updates : Updates)
  | TrackAction (action : string) (data : JsObj)
  | TrackPageView (pageName : string) (data : JsObj)
  | TrackProductView (productId : string) (productData : JsObj)
  | AddToCart (productId : string) (qty : Z)
  | RemoveFromCart (productId : string)
  | UpdateCartQuantity (productId : string) (qty : Z)
  | ClearCart
  | AddToWishlist (productId : string) (productData : JsObj)
  | RemoveFromWishlist (productId : string)
  | AddPurchase (orderData : JsObj).

Definition perform (pm : ProfileManager) (call : Call) : M unit :=
  match call with
  | UpdateProfile updates => pm_updateProfile pm updates;; ret tt
  | TrackAction action data => pm_trackAction pm action data
  | TrackPageView pageName data => pm_trackPageView pm pageName data
  | TrackProductView productId productData =>
      pm_trackProductView pm productId productData
  | AddToCart productId qty => pm_addToCart pm productId qty
  | RemoveFromCart productId => pm_removeFromCart pm productId
  | UpdateCartQuantity productId qty => pm_updateCartQuantity pm productId qty
  | ClearCart => pm_clearCart pm
  | AddToWishlist productId productData => pm_addToWishlist pm productId productData
  | RemoveFromWishlist productId => pm_removeFromWishlist pm productId
  | AddPurchase orderData => pm_addPurchase pm orderData
  end.

(** The calls are issued one after the other; a caller that sees one of
    them throw goes on with the next. *)
Definition run (pm : ProfileManager) (calls : list Call) (w : World) : World :=
  fold_left (fun w call => exec (perform pm call) w) calls w.

(** The four cart mutations. *)
Inductive CartMutation :=
  | addToCart (productId : string) (qty : Z)
  | removeFromCart (productId : string)
  | updateCartQuantity (productId : string) (qty : Z)
  | clearCart.

Definition cart_call (mutation : CartMutation) : Call :=
  match mutation with
  | addToCart productId qty => AddToCart productId qty
  | removeFromCart productId => RemoveFromCart productId
  | updateCartQuantity productId qty => UpdateCartQuantity productId qty
  | clearCart => ClearCart
  end.

Inductive Variant := RemoteBacked | Fallback.

Definition manager (env : Env) (v : Variant) : ProfileManager :=
  match v with
  | RemoteBacked => firebase env
  | Fallback => offline env
  end.

(** ** The field-level meaning of the calls

    What a call does to the profile in memory, as a function of that profile
    and of the number [k] of clock reads made so far.  Both managers are
    shown below to follow it; the stores they write to do not enter it. *)

Module InMemory.
Import BaseProfileManager.
Section Steps.
Context (env : Env).

Definition is_line (productId : string) (item : CartItem) : bool :=
  bool_decide (product_id item = productId).

Definition is_wish (productId : string) (item : WishlistItem) : bool :=
  bool_decide (wish_product_id item = productId).

Definition retotal (s : nat * Profile) : nat * Profile :=
  let '(k, p) := s in
  match products env with
  | Some catalog =>
      (S k,
       set_shopping (set_cart (fun c =>
         mkCart (items c) (sum_cart catalog (items c)) (Some (clock env k)))) p)
  | None => (k, p)
  end.

Definition remove_line (productId : string) (s : nat * Profile) : nat * Profile :=
  let '(k, p) := s in
  retotal (k, set_shopping (set_cart (set_items
             (filter (fun item => product_id item ≠ productId)))) p).

Definition clear (s : nat * Profile) : nat * Profile :=
  let '(k, p) := s in
  let '(k1, p1) :=
    if (0 <? length (cart_items p))%nat
    then (S k,
          set_shopping (set_abandoned_carts (fun carts =>
            keep_last 10 (carts ++ [mkAbandonedCart (cart (shopping p)) (clock env k)]))) p)
    else (k, p) in
  (S k1, set_shopping (set_cart (fun _ => mkCart [] 0%float (Some (clock env k1)))) p1).

Definition step (call : Call) (s : nat * Profile) : nat * Profile :=
  let '(k, p) := s in
  match call with
  | UpdateProfile updates =>
      (S k,
       set_updated_at (clock env k)
         (set_preferences (fun prefs => default ∅ (upd_preferences updates) ∪ prefs)
            (set_personal_info (fun info => default ∅ (upd_personal_info updates) ∪ info)
               p)))
  | TrackAction action data =>
      (S (S (S k)),
       set_updated_at (clock env (S (S k)))
         (set_browsing (set_last_active (clock env (S k)))
            (set_analytics (set_events (fun es =>
               keep_last 1000
                 (es ++ [mkEvent action data (clock env k) (href env) (userAgent env)])))
               p)))
  | TrackPageView pageName data =>
      (S (S k),
       set_browsing (fun b =>
         mkBrowsing
           (keep_last 500 (page_views b ++ [mkPageView pageName data (clock env k) (href env)]))
           (product_views b) (categories_visited b) (search_queries b)
           (time_spent b) (clock env (S k))) p)
  | TrackProductView productId productData =>
      (S k,
       set_browsing (set_product_views (fun views =>
         keep_last 100 (views ++ [mkProductView productId productData (clock env k)]))) p)
  | AddToCart productId qty =>
      match find (is_line productId) (cart_items p) with
      | Some _ =>
          retotal
            (S k,
             set_shopping (set_cart (set_items (update_first (is_line productId)
               (fun item =>
                  mkCartItem (product_id item) (quantity item + qty) (added_at item)
                             (clock env k))))) p)
      | None =>
          retotal
            (S (S k),
             set_shopping (set_cart (set_items (fun its =>
               its ++ [mkCartItem productId qty (clock env k) (clock env (S k))]))) p)
      end
  | RemoveFromCart productId => remove_line productId (k, p)
  | UpdateCartQuantity productId qty =>
      match find (is_line productId) (cart_items p) with
      | Some _ =>
          if qty <=? 0 then remove_line productId (k, p)
          else
            retotal
              (S k,
               set_shopping (set_cart (set_items (update_first (is_line productId)
                 (fun item =>
                    mkCartItem (product_id item) qty (added_at item) (clock env k))))) p)
      | None => (k, p)
      end
  | ClearCart => clear (k, p)
  | AddToWishlist productId productData =>
      match find (is_wish productId) (wishlist (shopping p)) with
      | Some _ => (k, p)
      | None =>
          (S k,
           set_shopping (set_wishlist (fun wishes =>
             wishes ++ [mkWishlistItem productId productData (clock env k)])) p)
      end
  | RemoveFromWishlist productId =>
      (k,
       set_shopping (set_wishlist
         (filter (fun item => wish_product_id item ≠ productId))) p)
  | AddPurchase orderData =>
      clear
        (S k,
         set_shopping (set_purchase_history (fun history =>
           history ++ [<["purchased_at" := JStr (clock env k)]> orderData])) p)
  end.

Definition steps (calls : list Call) (s : nat * Profile) : nat * Profile :=
  fold_left (fun s call => step call s) calls s.

End Steps.
End InMemory.

Arguments InMemory.retotal : simpl never.
Arguments InMemory.remove_line : simpl never.
Arguments InMemory.clear : simpl never.

(** The part of the world that the calls read and change in memory. *)
Definition memory (w : World) : option (nat * Profile) :=
  (fun p => (date_reads w, p)) <$> currentProfile w.


Module F := FirebaseProfileManager.
Module O := OfflineProfileManager.
Import BaseProfileManager.

(** ** Vocabulary of the specification *)

(** The cart line that [find] returns for a product. *)
Definition cart_line (productId : string) (p : Profile) : option CartItem :=
  find (InMemory.is_line productId) (cart_items p).

(** The product identifiers of the cart lines, in order. *)
Definition cart_product_ids (p : Profile) : list string :=
  product_id <$> cart_items p.

(** The total in the arithmetic of the code: over the cart items whose
    [product_id] resolves in the catalog ([omap] keeps those only), the
    catalog price times the item's quantity, a product of doubles, added up
    from 0 in cart order, each addition rounding to a double. *)
Definition line_amount (catalog : list Product) (item : CartItem) : option float :=
  (fun product => (price product * number (quantity item))%float)
    <$> BaseProfileManager.find_product catalog (product_id item).

Definition expected_total (catalog : list Product) (its : list CartItem) : float :=
  fold_left PrimFloat.add (omap (line_amount catalog) its) 0%float.

(** The total invariant of a profile. *)
Definition total_consistent (catalog : list Product) (p : Profile) : Prop :=
  cart_total p = expected_total catalog (cart_items p).

(** The total as the specification writes it, a sum of products in exact
    arithmetic.  [exact x] is the rational that the double [x] stands for
    (there is none for an infinity or NaN), and [exact_total] adds up, over
    the resolving items, the exact price times the quantity. *)
Definition exact (x : float) : option Q :=
  match Prim2SF x with
  | S754_zero _ => Some 0%Q
  | S754_finite negative m e =>
      Some (inject_Z (if negative then Z.neg m else Z.pos m) * Qpower 2 e)%Q
  | S754_infinity _ | S754_nan => None
  end.

Definition exact_total (catalog : list Product) (its : list CartItem) : option Q :=
  foldr
    (fun item sum =>
       match BaseProfileManager.find_product catalog (product_id item) with
       | Some product =>
           match exact (price product), sum with
           | Some unit_price, Some rest =>
               Some (unit_price * inject_Z (quantity item) + rest)%Q
           | _, _ => None
           end
       | None => sum
       end)
    (Some 0%Q) its.

(** The double [x] holds exactly the number [q]. *)
Definition holds_exactly (x : float) (q : option Q) : Prop :=
  match exact x, q with
  | Some a, Some b => (a == b)%Q
  | _, _ => False
  end.

(** The session identifier that [generateSessionId] returns in a world. *)
Definition session_of (env : Env) (w : World) : string :=
  if truthy (sessionStorage w) then default "" (sessionStorage w)
  else "session_" +:+ fresh env (ids_drawn w).

(** The guest profile that the Local Cache holds for the session. *)
Definition cached_guest (env : Env) (w : World) : option Profile :=
  localStorage w !! BaseProfileManager.guest_profile_key (session_of env w).

(** The events that a run of [trackAction] calls appends, the first call
    reading the clock for the [k]-th time. *)
Fixpoint tracked (env : Env) (k : nat) (calls : list (string * JsObj)) : list Event :=
  match calls with
  | [] => []
  | (action, data) :: calls =>
      mkEvent action data (clock env k) (href env) (userAgent env)
      :: tracked env (S (S (S k))) calls
  end.

Definition track_calls (calls : list (string * JsObj)) : list Call :=
  (fun c => TrackAction c.1 c.2) <$> calls.

(** ** The states the storefront can be in *)







(** The shopping data of a created profile. *)
Definition empty_shopping : Shopping :=
  {| cart := {| items := []; total := 0%float; cart_updated_at := None |};
     wishlist := [];
     purchase_history := [];
     abandoned_carts := [] |}.

(** A call that reaches [updateCartTotal] or resets the cart. *)
Definition recomputes (call : Call) (p : Profile) : Prop :=
  match call with
  | AddToCart _ _ | RemoveFromCart _ | ClearCart | AddPurchase _ => True
  | UpdateCartQuantity productId _ => is_Some (cart_line productId p)
  | _ => False
  end.

(** ** A concrete storefront, for the examples *)

Module Sample.

Definition env : Env :=
  {| clock := fun _ => "2025-01-01T00:00:00.000Z";
     fresh := fun _ => "1735689600000_k3x9q2m1z";
     remote_ok := fun _ => true;
     db := true;
     createUserWithEmailAndPassword := fun _ _ => None;
     href := "https://shop.example/";
     userAgent := "Mozilla/5.0";
     device_info := ∅;
     products := Some [mkProduct "sku-1" 9.99; mkProduct "sku-2" 25] |}.

(** The same storefront with the fallback catalog of the facade
    ([getFallbackProducts]: one product at 29.99). *)
Definition outlet : Env :=
  {| clock := fun _ => "2025-01-01T00:00:00.000Z";
     fresh := fun _ => "1735689600000_k3x9q2m1z";
     remote_ok := fun _ => true;
     db := true;
     createUserWithEmailAndPassword := fun _ _ => None;
     href := "https://shop.example/";
     userAgent := "Mozilla/5.0";
     device_info := ∅;
     products := Some [mkProduct "fallback-1" 29.99] |}.

(** A world before any profile is initialised. *)
Definition blank : World :=
  {| currentProfile := None;
     batchUpdateScheduled := false;
     batchTimers := 0;
     localStorage := ∅;
     sessionStorage := Some "session_1";
     user_profiles := ∅;
     auth_currentUser := None;
     date_reads := 0;
     ids_drawn := 0;
     remote_calls := 0 |}.

Definition line (productId : string) (qty : Z) : CartItem :=
  mkCartItem productId qty "2024-12-31T10:00:00.000Z" "2024-12-31T10:00:00.000Z".

(** A profile of the given type with the given cart. *)
Definition profile (id : string) (type : ProfileType) (its : list CartItem)
    (sum : float) : Profile :=
  {| profile_id := id;
     profile_type := type;
     created_at := "2024-12-31T09:00:00.000Z";
     updated_at := "2024-12-31T10:00:00.000Z";
     session_id := "session_1";
     personal_info := ∅;
     shopping :=
       {| cart := mkCart its sum (Some "2024-12-31T10:00:00.000Z");
          wishlist := [];
          purchase_history := [];
          abandoned_carts := [] |};
     browsing := mkBrowsing [] [] [] [] 0 "2024-12-31T10:00:00.000Z";
     analytics := mkAnalytics [] [] [];
     preferences := ∅;
     metadata := mkMetadata ∅ "2024-12-31T09:00:00.000Z" 1;
     converted_from_guest := None |}.

(** The world in which [p] is the current profile. *)
Definition world_with (p : Profile) : World := set_currentProfile (Some p) blank.

(** A registered customer with three cart lines, and a guest profile that
    the Local Cache holds for the session.  [signed_in] puts the two side by
    side to try out the merge; the storefront itself removes the cached
    profile before a registered one becomes current. *)
Definition registered_profile : Profile :=
  profile "uid-1" registered [line "sku-1" 1; line "sku-2" 1; line "sku-3" 1]
    34.990000000000002.

Definition cached_profile : Profile :=
  profile "guest_session_1" guest [line "sku-2" 2] 50.

Definition signed_in : World :=
  set_localStorage <["guest_profile_session_1" := cached_profile]>
    (world_with registered_profile).

Definition customer : User := mkUser "uid-1" (JStr "bob@shop.example") (JStr "Bob").



End Sample.


(** ** Vocabulary of the further properties *)

(** [updateProfile] is the one call of the remote-backed manager that writes
    at once. *)
Definition is_updateProfile (call : Call) : bool :=
  match call with UpdateProfile _ => true | _ => false end.

(** The product identifiers of the wishlist, in order. *)
Definition wishlist_ids (p : Profile) : list string :=
  wish_product_id <$> wishlist (shopping p).


(** ** The page's cart

    The page does not call a profile manager itself.  It holds a
    [ProfileAwareCartManager], which keeps its own list of cart lines
    ([localCart], also assigned to the script's global [cart]) and hands
    every change to the [FirebaseManager] facade, which hands it to the
    profile manager it holds, when it holds one. *)

(** An entry of [localCart]: [{ ...product, quantity }]. *)
Record LocalItem := mkLocalItem {
  item_product : Product;
  item_quantity : Z }.

(** [item.id] and [item.price] are those of the product that was spread. *)
Definition item_id (item : LocalItem) : string := prod_id (item_product item).
Definition item_price (item : LocalItem) : float := price (item_product item).

(** What the cart manager works on: the state behind the facade, its own
    [localCart], and the global [cart] of the script. *)
Record Page := mkPage {
  page_world : World;
  localCart : list LocalItem;
  page_cart : list LocalItem }.

Module FirebaseManager.
Section Facade.
Context (env : Env).

(** [this.profileManager]: [null], or one of the two managers. *)
Context (profileManager : option Variant).

Definition addToCart (productId : string) (quantity : Z) : M unit :=
  match profileManager with
  | Some v => pm_addToCart (manager env v) productId quantity
  | None => ret tt
  end.

Definition removeFromCart (productId : string) : M unit :=
  match profileManager with
  | Some v => pm_removeFromCart (manager env v) productId
  | None => ret tt
  end.

Definition updateCartQuantity (productId : string) (quantity : Z) : M unit :=
  match profileManager with
  | Some v => pm_updateCartQuantity (manager env v) productId quantity
  | None => ret tt
  end.

Definition clearCart : M unit :=
  match profileManager with
  | Some v => pm_clearCart (manager env v)
  | None => ret tt
  end.

(** [this.currentProfile] of the facade.  The facade assigns it from
    [initializeProfile], [getCurrentProfile], [convertGuestToRegistered] and
    [updateProfile] of its profile manager only, and each of them returns the
    object the manager holds as its own [currentProfile]; so the two names
    denote one object, which is read here.  Without a profile manager the
    field keeps the [null] of the constructor. *)
Definition facade_currentProfile (w : World) : option Profile :=
  match profileManager with
  | Some _ => currentProfile w
  | None => None
  end.

End Facade.
End FirebaseManager.

Module ProfileAwareCartManager.
Section Methods.
Context (env : Env).

(** The script's global [products]. *)
Context (catalog : list Product).

(** [this.firebaseManager]: absent, or a facade with its [profileManager]. *)
Context (firebaseManager : option (option Variant)).

Definition P (A : Type) : Type := Page -> Outcome A * Page.

Definition and_then {A B} (m : P A) (k : A -> P B) : P B := fun s =>
  match m s with
  | (Returned a, s') => k a s'
  | (Thrown e, s') => (Thrown e, s')
  end.

(** [if (this.firebaseManager) { await this.firebaseManager.m(...) }] *)
Definition on_facade (m : option Variant -> M unit) : P unit := fun s =>
  match firebaseManager with
  | Some profileManager =>
      let '(o, w) := m profileManager (page_world s) in
      (o, mkPage w (localCart s) (page_cart s))
  | None => (Returned tt, s)
  end.

(** [this.localCart = l; cart = this.localCart] *)
Definition assign (l : list LocalItem) (s : Page) : Page :=
  mkPage (page_world s) l l.

Definition is_item (productId : string) (item : LocalItem) : bool :=
  bool_decide (item_id item = productId).

(** The [map] and [filter(Boolean)] of [syncWithProfile]: the cart lines
    whose product is in the catalog, each with the line's quantity. *)
Definition project (profileCart : list CartItem) : list LocalItem :=
  omap (fun item =>
          (fun product => mkLocalItem product (quantity item))
            <$> BaseProfileManager.find_product catalog (product_id item))
       profileCart.

Definition syncWithProfile : P unit := fun s =>
  match firebaseManager with
  | Some profileManager =>
      match FirebaseManager.facade_currentProfile profileManager (page_world s) with
      | Some profile => (Returned tt, assign (project (cart_items profile)) s)
      | None => (Returned tt, s)
      end
  | None => (Returned tt, s)
  end.

Definition initialize : P unit := syncWithProfile.

Definition addToCart (productId : string) (quantity : Z) : P bool :=
  and_then
    (on_facade (fun pm => FirebaseManager.addToCart env pm productId quantity))
    (fun _ s =>
       match BaseProfileManager.find_product catalog productId with
       | None => (Returned false, s)
       | Some product =>
           let l :=
             match find (is_item productId) (localCart s) with
             | Some _ =>
                 update_first (is_item productId)
                   (fun item =>
                      mkLocalItem (item_product item) (item_quantity item + quantity))
                   (localCart s)
             | None => localCart s ++ [mkLocalItem product quantity]
             end in
           (Returned true, assign l s)
       end).

Definition removeFromCart (productId : string) : P unit :=
  and_then
    (on_facade (fun pm => FirebaseManager.removeFromCart env pm productId))
    (fun _ s =>
       (Returned tt,
        assign (filter (fun item => item_id item ≠ productId) (localCart s)) s)).

Definition updateQuantity (productId : string) (quantity : Z) : P unit :=
  and_then
    (on_facade (fun pm => FirebaseManager.updateCartQuantity env pm productId quantity))
    (fun _ s =>
       match find (is_item productId) (localCart s) with
       | Some _ =>
           if quantity <=? 0 then removeFromCart productId s
           else
             (Returned tt,
              assign
                (update_first (is_item productId)
                   (fun item => mkLocalItem (item_product item) quantity)
                   (localCart s))
                s)
       | None => (Returned tt, s)
       end).

(** [this.localCart = []; cart = []] *)
Definition clearCart : P unit :=
  and_then
    (on_facade (fun pm => FirebaseManager.clearCart env pm))
    (fun _ s => (Returned tt, assign [] s)).

Definition getCart (s : Page) : list LocalItem := localCart s.

Definition getCartCount (s : Page) : Z :=
  fold_left (fun sum item => sum + item_quantity item) (localCart s) 0.

Definition getCartTotal (s : Page) : float :=
  fold_left
    (fun sum item => (sum + item_price item * number (item_quantity item))%float)
    (localCart s) 0%float.

End Methods.
End ProfileAwareCartManager.

Module PC := ProfileAwareCartManager.

(** A cart mutation as the page issues it, and a sequence of them; a
    mutation that throws leaves the page as the throw left it. *)
Definition page_mutation (env : Env) (catalog : list Product)
    (firebaseManager : option (option Variant)) (mutation : CartMutation)
    (s : Page) : Page :=
  match mutation with
  | addToCart productId qty =>
      snd (PC.addToCart env catalog firebaseManager productId qty s)
  | removeFromCart productId =>
      snd (PC.removeFromCart env firebaseManager productId s)
  | updateCartQuantity productId qty =>
      snd (PC.updateQuantity env firebaseManager productId qty s)
  | clearCart => snd (PC.clearCart env firebaseManager s)
  end.

Definition page_mutations (env : Env) (catalog : list Product)
    (firebaseManager : option (option Variant)) (mutations : list CartMutation)
    (s : Page) : Page :=
  fold_left (fun s mutation => page_mutation env catalog firebaseManager mutation s)
    mutations s.

(** The local cart shows the profile's cart: it is the projection of the
    cart lines of the profile in memory, and the global [cart] is the local
    cart. *)
Definition mirrors (catalog : list Product) (s : Page) (p : Profile) : Prop :=
  currentProfile (page_world s) = Some p
  /\ localCart s = PC.project catalog (cart_items p)
  /\ page_cart s = localCart s.

(** ** More of the sample storefront *)

Module Scenario.

(** The sample storefront with every remote call rejected. *)
Definition unreachable : Env :=
  mkEnv (clock Sample.env) (fresh Sample.env) (fun _ => false) true
        (createUserWithEmailAndPassword Sample.env) (href Sample.env)
        (userAgent Sample.env) (device_info Sample.env) (products Sample.env).

Definition new_user : User := mkUser "uid-9" (JStr "ada@shop.example") JNull.

(** The identity provider accepts the sign-up. *)
Definition signup : Env :=
  mkEnv (clock Sample.env) (fresh Sample.env) (fun _ => true) true
        (fun _ _ => Some new_user) (href Sample.env)
        (userAgent Sample.env) (device_info Sample.env) (products Sample.env).

(** The sign-up is accepted, the first remote call resolves and the later
    ones are rejected. *)
Definition signup_cut_off : Env :=
  mkEnv (clock Sample.env) (fresh Sample.env) (fun k => Nat.eqb k 0) true
        (fun _ _ => Some new_user) (href Sample.env)
        (userAgent Sample.env) (device_info Sample.env) (products Sample.env).

Definition catalog : list Product := [mkProduct "sku-1" 9.99; mkProduct "sku-2" 25].

Definition form : UserInfo := mkUserInfo "ada@shop.example" (Some "Ada") None None.

Definition short_form : UserInfo := mkUserInfo "ada@shop.example" None None None.

Definition customer : User := Sample.customer.

(** A guest is browsing; nothing is cached and the Remote Store is empty. *)
Definition guest_world : World := Sample.world_with Sample.cached_profile.

(** A guest is browsing and the Remote Store holds the customer's profile. *)
Definition returning_world : World :=
  set_user_profiles <["uid-1" := Sample.registered_profile]> guest_world.

(** The page of the registered customer, before and after the cart manager
    has read the profile. *)
Definition fresh_page : Page :=
  mkPage (Sample.world_with Sample.registered_profile) [] [].

Definition synced_page : Page :=
  mkPage (Sample.world_with Sample.registered_profile)
         (PC.project catalog (cart_items Sample.registered_profile))
         (PC.project catalog (cart_items Sample.registered_profile)).

Definition clicks : list CartMutation :=
  [addToCart "sku-1" 2; updateCartQuantity "sku-2" 0; addToCart "sku-9" 1;
   removeFromCart "sku-3"].

End Scenario.
(** * Proofs *)


Ltac unfold_methods :=
  cbv [manager perform firebase offline
       pm_updateProfile pm_trackAction pm_trackPageView pm_trackProductView
       pm_addToCart pm_removeFromCart pm_updateCartQuantity pm_clearCart
       pm_addToWishlist pm_removeFromWishlist pm_addPurchase
       F.updateProfile F.trackAction F.trackPageView F.trackProductView
       F.addToCart F.removeFromCart F.updateCartQuantity F.clearCart
       F.addToWishlist F.removeFromWishlist F.addPurchase
       F.updateCartTotal F.batchUpdateProfile
       O.updateProfile O.trackAction O.trackPageView O.trackProductView
       O.addToCart O.removeFromCart O.updateCartQuantity O.clearCart
       O.addToWishlist O.removeFromWishlist O.addPurchase
       O.updateCartTotal O.saveProfile
       Firestore.update Firestore.call Firestore.set Firestore.get
       Firestore.delete Firestore.set_merge
       generateSessionId draw now mutate this_profile memory
       InMemory.step InMemory.retotal InMemory.remove_line InMemory.clear
       InMemory.is_line InMemory.is_wish
       set_currentProfile set_batchUpdateScheduled set_batchTimers set_localStorage
       set_sessionStorage set_user_profiles set_auth_currentUser set_date_reads
       set_ids_drawn set_remote_calls
       currentProfile batchUpdateScheduled batchTimers localStorage sessionStorage
       user_profiles auth_currentUser date_reads ids_drawn remote_calls
       exec result bind ret gets modify throw try_catch try_finally warn_on_error
       fmap option_fmap option_map fst snd].

Ltac compute_method :=
  unfold_methods;
  cbn -[find sum_cart filter keep_last update_first insert union base.delete lookup
        alter guest_profile_key String.append truthy default decide clock fresh
        remote_ok products href userAgent].

(** Reads of a field after an assignment to the profile. *)
Ltac unfold_fields :=
  unfold cart_product_ids, cart_items, cart_total, profile_events, profile_abandoned,
    set_updated_at, set_personal_info, set_preferences, set_shopping, set_browsing,
    set_analytics, set_metadata, set_cart, set_wishlist, set_purchase_history,
    set_abandoned_carts, set_items, set_total, set_cart_updated_at, set_events,
    set_page_views, set_product_views, set_last_active, set_visit_count in *;
  cbn [profile_id profile_type created_at updated_at session_id personal_info
       shopping browsing analytics preferences metadata converted_from_guest
       cart wishlist purchase_history abandoned_carts items total cart_updated_at
       events page_views product_views last_active visit_count] in *.

(** Case analysis on a test of the method that stands in the way: one whose
    own value does not wait for another test. *)
Ltac split_test :=
  match goal with
  | |- context [match ?c with _ => _ end] =>
      lazymatch c with
      | context [match _ with _ => _ end] => fail
      | _ => destruct c eqn:?
      end
  end.

(** Both managers change the profile in memory as [InMemory.step] says,
    whatever the stores hold and whether or not the remote calls resolve. *)
Lemma perform_memory env v call w p :
  currentProfile w = Some p ->
  memory (exec (perform (manager env v) call) w)
  = Some (InMemory.step env call (date_reads w, p)).
Proof.
  intros Hp.
  destruct w as [cp sched timers ls ss docs au dr ids rc].
  simpl in Hp; subst cp.
  destruct v, call; compute_method;
    repeat (split_test; compute_method); reflexivity.
Qed.

Lemma memory_inv w k p :
  memory w = Some (k, p) -> currentProfile w = Some p /\ date_reads w = k.
Proof.
  unfold memory. destruct (currentProfile w); simpl; [|discriminate].
  intros [= <- <-]. auto.
Qed.

Lemma memory_intro w p :
  currentProfile w = Some p -> memory w = Some (date_reads w, p).
Proof. unfold memory. intros ->. reflexivity. Qed.

Lemma run_cons pm call calls w :
  run pm (call :: calls) w = run pm calls (exec (perform pm call) w).
Proof. reflexivity. Qed.

Lemma steps_cons env call calls s :
  InMemory.steps env (call :: calls) s
  = InMemory.steps env calls (InMemory.step env call s).
Proof. reflexivity. Qed.

Lemma run_memory env v calls : forall w p,
  currentProfile w = Some p ->
  memory (run (manager env v) calls w)
  = Some (InMemory.steps env calls (date_reads w, p)).
Proof.
  induction calls as [|call calls IH]; intros w p Hp.
  - by apply memory_intro.
  - rewrite run_cons, steps_cons.
    pose proof (perform_memory env v call w p Hp) as Hstep.
    destruct (InMemory.step env call (date_reads w, p)) as [k' p'].
    apply memory_inv in Hstep as [Hp' Hk'].
    rewrite (IH _ p' Hp'), Hk'. reflexivity.
Qed.

(** With no current profile every call returns at its guard. *)
Lemma perform_null env v call w :
  currentProfile w = None ->
  perform (manager env v) call w = (Returned tt, w).
Proof.
  intros Hp.
  destruct w as [cp sched timers ls ss docs au dr ids rc].
  simpl in Hp; subst cp.
  destruct v, call; reflexivity.
Qed.

(** C9: called while [currentProfile] is [null], every mutating operation of
    either manager returns without throwing and leaves the whole state (the
    profile, both stores, the pending write) as it was; [updateProfile]
    returns [null]. *)
Theorem null_profile_calls_do_nothing env v w :
  currentProfile w = None ->
  (forall action data, pm_trackAction (manager env v) action data w = (Returned tt, w))
  /\ (forall pageName data, pm_trackPageView (manager env v) pageName data w = (Returned tt, w))
  /\ (forall productId productData,
        pm_trackProductView (manager env v) productId productData w = (Returned tt, w))
  /\ (forall productId qty, pm_addToCart (manager env v) productId qty w = (Returned tt, w))
  /\ (forall productId, pm_removeFromCart (manager env v) productId w = (Returned tt, w))
  /\ (forall productId qty,
        pm_updateCartQuantity (manager env v) productId qty w = (Returned tt, w))
  /\ pm_clearCart (manager env v) w = (Returned tt, w)
  /\ (forall productId productData,
        pm_addToWishlist (manager env v) productId productData w = (Returned tt, w))
  /\ (forall productId, pm_removeFromWishlist (manager env v) productId w = (Returned tt, w))
  /\ (forall orderData, pm_addPurchase (manager env v) orderData w = (Returned tt, w))
  /\ (forall updates, pm_updateProfile (manager env v) updates w = (Returned None, w)).
Proof.
  intros Hp.
  split; [intros action data;
          apply (perform_null env v (TrackAction action data) w Hp)|].
  split; [intros pageName data;
          apply (perform_null env v (TrackPageView pageName data) w Hp)|].
  split; [intros productId productData;
          apply (perform_null env v (TrackProductView productId productData) w Hp)|].
  split; [intros productId qty;
          apply (perform_null env v (AddToCart productId qty) w Hp)|].
  split; [intros productId;
          apply (perform_null env v (RemoveFromCart productId) w Hp)|].
  split; [intros productId qty;
          apply (perform_null env v (UpdateCartQuantity productId qty) w Hp)|].
  split; [apply (perform_null env v ClearCart w Hp)|].
  split; [intros productId productData;
          apply (perform_null env v (AddToWishlist productId productData) w Hp)|].
  split; [intros productId;
          apply (perform_null env v (RemoveFromWishlist productId) w Hp)|].
  split; [intros orderData;
          apply (perform_null env v (AddPurchase orderData) w Hp)|].
  intros updates.
  destruct w as [cp sched timers ls ss docs au dr ids rc].
  simpl in Hp; subst cp. destruct v; reflexivity.
Qed.

(** ** The two managers agree in memory *)

Lemma perform_agree env call w1 w2 :
  currentProfile w1 = currentProfile w2 ->
  date_reads w1 = date_reads w2 ->
  memory (exec (perform (firebase env) call) w1)
  = memory (exec (perform (offline env) call) w2).
Proof.
  intros Hp Hd.
  change (firebase env) with (manager env RemoteBacked).
  change (offline env) with (manager env Fallback).
  destruct (currentProfile w2) as [p|] eqn:Hp2.
  - rewrite (perform_memory env RemoteBacked call w1 p Hp).
    rewrite (perform_memory env Fallback call w2 p Hp2).
    by rewrite Hd.
  - pose proof (perform_null env RemoteBacked call w1 Hp) as H1.
    pose proof (perform_null env Fallback call w2 Hp2) as H2.
    unfold exec. rewrite H1, H2. simpl.
    unfold memory. by rewrite Hp, Hp2.
Qed.

Lemma memory_eq w1 w2 :
  memory w1 = memory w2 ->
  currentProfile w1 = currentProfile w2
  /\ (is_Some (currentProfile w1) -> date_reads w1 = date_reads w2).
Proof.
  unfold memory.
  destruct (currentProfile w1), (currentProfile w2); simpl; try discriminate.
  - intros [= -> ->]. auto.
  - intros _. split; [reflexivity|]. intros [? [=]].
Qed.

Lemma run_agree env calls : forall w1 w2,
  currentProfile w1 = currentProfile w2 ->
  date_reads w1 = date_reads w2 ->
  currentProfile (run (firebase env) calls w1)
  = currentProfile (run (offline env) calls w2).
Proof.
  intros w1 w2 Hp Hd.
  change (firebase env) with (manager env RemoteBacked).
  change (offline env) with (manager env Fallback).
  destruct (currentProfile w2) as [p|] eqn:Hp2.
  - pose proof (run_memory env RemoteBacked calls w1 p Hp) as H1.
    pose proof (run_memory env Fallback calls w2 p Hp2) as H2.
    rewrite Hd, <- H2 in H1.
    by apply memory_eq in H1 as [? _].
  - clear Hd. revert w1 w2 Hp Hp2.
    induction calls as [|call calls IH]; intros w1 w2 Hp Hp2.
    + simpl. congruence.
    + rewrite !run_cons.
      pose proof (perform_null env RemoteBacked call w1 Hp) as H1.
      pose proof (perform_null env Fallback call w2 Hp2) as H2.
      unfold exec. rewrite H1, H2. simpl. by apply IH.
Qed.

(** C8: for every shared mutation operation and arguments, the
    remote-backed manager and the fallback manager, started on the same
    profile in memory (at the same clock reading), leave the same profile in
    memory; so do whole sequences of calls.  Only the stores written to
    differ. *)
Theorem managers_agree_in_memory env w1 w2 :
  currentProfile w1 = currentProfile w2 ->
  date_reads w1 = date_reads w2 ->
  (forall call,
     currentProfile (exec (perform (firebase env) call) w1)
     = currentProfile (exec (perform (offline env) call) w2))
  /\ (forall calls,
        currentProfile (run (firebase env) calls w1)
        = currentProfile (run (offline env) calls w2)).
Proof.
  intros Hp Hd. split.
  - intros call.
    by destruct (memory_eq _ _ (perform_agree env call w1 w2 Hp Hd)) as [? _].
  - intros calls. by apply run_agree.
Qed.

(** ** Lists *)

Lemma update_first_split {A} (P : A -> bool) (f : A -> A) (l : list A) (x : A) :
  find P l = Some x ->
  exists before after,
    l = before ++ x :: after
    /\ Forall (fun y => P y = false) before
    /\ update_first P f l = before ++ f x :: after.
Proof.
  induction l as [|y l IH]; simpl; [discriminate|].
  destruct (P y) eqn:Hy.
  - intros [= ->]. exists [], l. auto.
  - intros Hfind. destruct (IH Hfind) as (before & after & -> & Hb & ->).
    exists (y :: before), after. repeat split; auto.
Qed.

Lemma update_first_fmap {A B} (g : A -> B) (P : A -> bool) (f : A -> A) (l : list A) :
  (forall x, g (f x) = g x) -> g <$> update_first P f l = g <$> l.
Proof.
  intros Hg. induction l as [|y l IH]; csimpl; [reflexivity|].
  destruct (P y); csimpl; [by rewrite Hg | by rewrite IH].
Qed.

Lemma update_first_length {A} (P : A -> bool) (f : A -> A) (l : list A) :
  length (update_first P f l) = length l.
Proof.
  induction l as [|y l IH]; simpl; [reflexivity|].
  destruct (P y); simpl; by rewrite ?IH.
Qed.

Lemma keep_last_drop {A} (n : nat) (l : list A) :
  keep_last n l = drop (length l - n) l.
Proof.
  unfold keep_last, slice_last.
  destruct (n <? length l)%nat eqn:Hn; [reflexivity|].
  apply Nat.ltb_ge in Hn.
  by replace (length l - n)%nat with 0%nat by lia.
Qed.

Lemma keep_last_length {A} (n : nat) (l : list A) :
  length (keep_last n l) = (length l `min` n)%nat.
Proof. rewrite keep_last_drop, length_drop. lia. Qed.

Lemma find_is_line_None productId (its : list CartItem) :
  find (InMemory.is_line productId) its = None <->
  productId ∉ (product_id <$> its).
Proof.
  induction its as [|item its IH]; simpl.
  - split; [intros _; apply not_elem_of_nil | done].
  - unfold InMemory.is_line at 1. case_bool_decide as Hid.
    + split; [discriminate|]. intros Hn. exfalso. apply Hn. rewrite Hid. left.
    + rewrite IH, not_elem_of_cons.
      split; [intros Hn; split; [congruence | done] | by intros [_ Hn]].
Qed.

Lemma find_is_line_Some productId (its : list CartItem) line :
  find (InMemory.is_line productId) its = Some line -> product_id line = productId.
Proof.
  intros Hf. apply find_some in Hf as [_ Hl].
  unfold InMemory.is_line in Hl. by apply bool_decide_eq_true in Hl.
Qed.

(** ** What a call leaves in memory *)

Lemma perform_profile env v call w p :
  currentProfile w = Some p ->
  currentProfile (exec (perform (manager env v) call) w)
  = Some (InMemory.step env call (date_reads w, p)).2.
Proof.
  intros Hp. pose proof (perform_memory env v call w p Hp) as Hm.
  destruct (InMemory.step env call (date_reads w, p)) as [k' p'].
  by apply memory_inv in Hm as [? _].
Qed.

Lemma retotal_items env k p :
  cart_items (InMemory.retotal env (k, p)).2 = cart_items p.
Proof. unfold InMemory.retotal. by destruct (products env). Qed.

Lemma addToCart_returns env v productId qty w :
  result (pm_addToCart (manager env v) productId qty) w = Returned tt.
Proof.
  destruct w as [cp sched timers ls ss docs au dr ids rc].
  destruct cp as [p|]; destruct v; compute_method;
    repeat (split_test; compute_method); reflexivity.
Qed.

(** C10: [addToCart] does not look at the sign of its quantity.  With a
    quantity of zero or less it returns normally and either appends a line
    carrying that quantity (no line for the product yet) or lowers the
    quantity of the existing line, which stays in the cart whatever the
    result; it never removes a line.  [updateCartQuantity] with the same
    quantity removes the line instead. *)
Theorem addToCart_takes_any_quantity env v productId qty w p :
  currentProfile w = Some p ->
  qty <= 0 ->
  let k := date_reads w in
  result (pm_addToCart (manager env v) productId qty) w = Returned tt
  /\ exists p',
       currentProfile (exec (pm_addToCart (manager env v) productId qty) w) = Some p'
       /\ (cart_line productId p = None ->
           cart_items p'
           = cart_items p ++ [mkCartItem productId qty (clock env k) (clock env (S k))])
       /\ (forall line, cart_line productId p = Some line ->
           exists before after,
             cart_items p = before ++ (line :: after)
             /\ cart_items p'
                = before
                  ++ (mkCartItem productId (quantity line + qty) (added_at line)
                        (clock env k)
                      :: after))
       /\ (length (cart_items p) <= length (cart_items p'))%nat
       /\ (forall line, cart_line productId p = Some line ->
           cart_items <$>
             currentProfile (exec (pm_updateCartQuantity (manager env v) productId qty) w)
           = Some (filter (fun item => product_id item ≠ productId) (cart_items p))).
Proof.
  intros Hp Hq k. split; [apply addToCart_returns|].
  pose proof (perform_profile env v (AddToCart productId qty) w p Hp) as Hadd.
  pose proof (perform_profile env v (UpdateCartQuantity productId qty) w p Hp) as Hupd.
  change (perform (manager env v) (AddToCart productId qty))
    with (pm_addToCart (manager env v) productId qty) in Hadd.
  change (perform (manager env v) (UpdateCartQuantity productId qty))
    with (pm_updateCartQuantity (manager env v) productId qty) in Hupd.
  eexists. split; [exact Hadd|].
  unfold cart_line. simpl.
  destruct (find (InMemory.is_line productId) (cart_items p)) as [found|] eqn:Hfind;
    rewrite retotal_items; simpl.
  - split; [discriminate|]. split; [|split].
    + intros line [= <-].
      destruct (update_first_split _
                  (fun item => mkCartItem (product_id item) (quantity item + qty)
                                 (added_at item) (clock env (date_reads w)))
                  _ _ Hfind)
        as (before & after & Hits & _ & Hupdated).
      exists before, after. split; [exact Hits|].
      unfold_fields. rewrite Hupdated.
      by rewrite (find_is_line_Some _ _ _ Hfind).
    + unfold_fields. by rewrite update_first_length.
    + intros line _. rewrite Hupd. simpl. rewrite Hfind.
      apply Z.leb_le in Hq. rewrite Hq. unfold InMemory.remove_line.
      by rewrite retotal_items.
  - split; [reflexivity|]. split; [discriminate|]. split; [|discriminate].
    unfold_fields. rewrite length_app. lia.
Qed.

(** ** A freshly created profile *)

Lemma createBaseProfile_returns env profileId profileType w :
  exists p w',
    createBaseProfile env profileId profileType w = (Returned p, w')
    /\ profile_id p = profileId
    /\ profile_type p = profileType
    /\ shopping p = empty_shopping
    /\ profile_events p = []
    /\ currentProfile w' = currentProfile w
    /\ localStorage w' = localStorage w
    /\ user_profiles w' = user_profiles w.
Proof.
  destruct w as [cp sched timers ls ss docs au dr ids rc].
  unfold createBaseProfile. compute_method.
  destruct (truthy ss); compute_method.
  all: eexists; eexists.
  all: split; [reflexivity|].
  all: repeat split.
Qed.

(** ** The cart total *)

Lemma sum_cart_from catalog (its : list CartItem) (start : float) :
  fold_left
    (fun total item =>
       match find_product catalog (product_id item) with
       | Some product => (total + price product * number (quantity item))%float
       | None => total
       end) its start
  = fold_left PrimFloat.add (omap (line_amount catalog) its) start.
Proof.
  revert start. induction its as [|item its IH]; intros start; [reflexivity|].
  csimpl. rewrite IH. unfold line_amount at 2.
  by destruct (find_product catalog (product_id item)).
Qed.

Lemma sum_cart_expected catalog its :
  sum_cart catalog its = expected_total catalog its.
Proof. unfold sum_cart, expected_total. apply sum_cart_from. Qed.

Lemma retotal_consistent env catalog k p :
  products env = Some catalog ->
  total_consistent catalog (InMemory.retotal env (k, p)).2.
Proof.
  intros Hc. unfold InMemory.retotal. rewrite Hc.
  unfold total_consistent, cart_total, cart_items. simpl.
  apply sum_cart_expected.
Qed.

Lemma clear_consistent env catalog s :
  total_consistent catalog (InMemory.clear env s).2.
Proof.
  destruct s as [k p]. unfold InMemory.clear.
  by destruct (0 <? length (cart_items p))%nat.
Qed.

Lemma step_recomputes env catalog call k p :
  products env = Some catalog ->
  recomputes call p ->
  total_consistent catalog (InMemory.step env call (k, p)).2.
Proof.
  intros Hc Hr. destruct call; simpl in Hr; try done; simpl.
  - destruct (find _ _); by apply retotal_consistent.
  - by apply retotal_consistent.
  - unfold cart_line in Hr. destruct Hr as [line ->].
    destruct (qty <=? 0); by apply retotal_consistent.
  - apply clear_consistent.
  - apply clear_consistent.
Qed.

Lemma step_keeps_cart env call k p :
  ~ recomputes call p ->
  cart (shopping (InMemory.step env call (k, p)).2) = cart (shopping p).
Proof.
  intros Hr. destruct call; simpl in Hr; try (by destruct Hr); simpl; try done.
  - unfold cart_line in Hr. destruct (find _ _); [|done].
    exfalso. apply Hr. by eexists.
  - by destruct (find _ _).
Qed.

Lemma recomputes_dec call p : recomputes call p \/ ~ recomputes call p.
Proof.
  destruct call; simpl; auto.
  destruct (cart_line productId p); [left; by eexists | right; by intros [? ?]].
Qed.

Lemma step_consistent env catalog call k p :
  products env = Some catalog ->
  total_consistent catalog p ->
  total_consistent catalog (InMemory.step env call (k, p)).2.
Proof.
  intros Hc Hp. destruct (recomputes_dec call p) as [Hr|Hr].
  - by apply step_recomputes.
  - unfold total_consistent, cart_total, cart_items.
    by rewrite (step_keeps_cart env call k p Hr).
Qed.

Lemma steps_consistent env catalog calls : forall k p,
  products env = Some catalog ->
  total_consistent catalog p ->
  total_consistent catalog (InMemory.steps env calls (k, p)).2.
Proof.
  induction calls as [|call calls IH]; intros k p Hc Hp; [done|].
  rewrite steps_cons.
  pose proof (step_consistent env catalog call k p Hc Hp) as Hstep.
  destruct (InMemory.step env call (k, p)) as [k' p']. by apply IH.
Qed.

Lemma run_profile env v calls w p :
  currentProfile w = Some p ->
  currentProfile (run (manager env v) calls w)
  = Some (InMemory.steps env calls (date_reads w, p)).2.
Proof.
  intros Hp. pose proof (run_memory env v calls w p Hp) as Hm.
  destruct (InMemory.steps env calls (date_reads w, p)) as [k' p'].
  by apply memory_inv in Hm as [? _].
Qed.

(** C3, as the code has it: with a fixed catalog the cart total is an
    invariant of the profile, in the arithmetic of the code.  The total is
    the double that results from starting at 0 and adding, in cart order,
    catalog price times quantity for each item whose product resolves in the
    catalog, every product and every addition rounded to a double; items
    whose product is not in the catalog add nothing.  A created profile
    satisfies it; every sequence of cart mutations, under either manager,
    leads from a profile that satisfies it to one that does; and a mutation
    that reaches the cart ([addToCart], [removeFromCart], [clearCart],
    [updateCartQuantity] of a product in the cart) recomputes the total
    whatever it was before. *)
Theorem cart_total_invariant env catalog :
  products env = Some catalog ->
  (forall profileId profileType w,
     exists p w',
       createBaseProfile env profileId profileType w = (Returned p, w')
       /\ total_consistent catalog p)
  /\ (forall v (mutations : list CartMutation) w p,
        currentProfile w = Some p ->
        total_consistent catalog p ->
        exists p',
          currentProfile (run (manager env v) (cart_call <$> mutations) w) = Some p'
          /\ cart_total p' = expected_total catalog (cart_items p'))
  /\ (forall v mutation w p,
        currentProfile w = Some p ->
        recomputes (cart_call mutation) p ->
        exists p',
          currentProfile (exec (perform (manager env v) (cart_call mutation)) w) = Some p'
          /\ cart_total p' = expected_total catalog (cart_items p')).
Proof.
  intros Hc. split; [|split].
  - intros profileId profileType w.
    destruct (createBaseProfile_returns env profileId profileType w)
      as (p & w' & Hrun & _ & _ & Hshop & _).
    exists p, w'. split; [exact Hrun|].
    unfold total_consistent, cart_total, cart_items. by rewrite Hshop.
  - intros v mutations w p Hp Hok.
    eexists. split; [by apply run_profile|].
    by apply steps_consistent.
  - intros v mutation w p Hp Hr.
    eexists. split; [by apply perform_profile|].
    by apply step_recomputes.
Qed.

(** C3, as stated, fails: the total is not the sum of price times quantity
    in exact arithmetic.  A new guest adds 7 of the fallback product, whose
    catalog price is 29.99: the cart has that one line, and the total the code
    stores is the double 209.92999999999998, which is neither the double
    nearest to 209.93 nor the exact product of the catalog price (the double
    nearest to 29.99) by 7, a number that no double holds. *)
Lemma total_is_not_the_exact_sum :
  let catalog := [mkProduct "fallback-1" 29.99] in
  let w0 := exec (F.initializeProfile Sample.outlet) Sample.blank in
  let w1 := exec (F.addToCart Sample.outlet "fallback-1" 7) w0 in
  products Sample.outlet = Some catalog
  /\ exists p,
       currentProfile w1 = Some p
       /\ (quantity <$> cart_items p) = [7]
       /\ cart_total p = 209.92999999999998%float
       /\ cart_total p <> 209.93%float
       /\ ~ holds_exactly (cart_total p) (exact_total catalog (cart_items p)).
Proof.
  intros catalog w0 w1. split; [reflexivity|].
  eexists. split; [vm_compute; reflexivity|].
  split; [reflexivity|]. split; [reflexivity|]. split.
  - intros H. apply (f_equal Prim2SF) in H. vm_compute in H. discriminate H.
  - unfold holds_exactly. vm_compute. intros H. discriminate H.
Qed.

(** ** One cart line per product *)

Lemma retotal_cart_ids env k p :
  cart_product_ids (InMemory.retotal env (k, p)).2 = cart_product_ids p.
Proof. unfold cart_product_ids. by rewrite retotal_items. Qed.

Lemma filter_ids_NoDup productId (its : list CartItem) :
  NoDup (product_id <$> its) ->
  NoDup (product_id <$> filter (fun item => product_id item ≠ productId) its).
Proof.
  intros Hits. apply (sublist_NoDup _ _ Hits).
  apply fmap_sublist, sublist_filter.
Qed.

Lemma clear_cart_ids env s : cart_product_ids (InMemory.clear env s).2 = [].
Proof.
  destruct s as [k p]. unfold InMemory.clear.
  by destruct (0 <? length (cart_items p))%nat.
Qed.

Lemma step_unique env call k p :
  NoDup (cart_product_ids p) ->
  NoDup (cart_product_ids (InMemory.step env call (k, p)).2).
Proof.
  intros Hp. destruct call; simpl; try done.
  - destruct (find _ _) eqn:Hfind; rewrite retotal_cart_ids;
      unfold cart_product_ids, cart_items; simpl.
    + by rewrite update_first_fmap.
    + rewrite fmap_app. simpl. apply NoDup_app. split; [done|]. split.
      * intros x Hx Hx'. apply list_elem_of_singleton in Hx'. subst x.
        by apply find_is_line_None in Hfind.
      * apply NoDup_singleton.
  - unfold InMemory.remove_line. rewrite retotal_cart_ids.
    by apply filter_ids_NoDup.
  - destruct (find _ _); [|done].
    destruct (qty <=? 0).
    + unfold InMemory.remove_line. rewrite retotal_cart_ids.
      by apply filter_ids_NoDup.
    + rewrite retotal_cart_ids. unfold cart_product_ids, cart_items. simpl.
      by rewrite update_first_fmap.
  - rewrite clear_cart_ids. apply NoDup_nil_2.
  - by destruct (find _ _).
  - rewrite clear_cart_ids. apply NoDup_nil_2.
Qed.

Lemma steps_unique env calls : forall k p,
  NoDup (cart_product_ids p) ->
  NoDup (cart_product_ids (InMemory.steps env calls (k, p)).2).
Proof.
  induction calls as [|call calls IH]; intros k p Hp; [done|].
  rewrite steps_cons.
  pose proof (step_unique env call k p Hp) as Hstep.
  destruct (InMemory.step env call (k, p)) as [k' p']. by apply IH.
Qed.

Lemma find_is_line_last productId (its : list CartItem) line :
  find (InMemory.is_line productId) its = None ->
  product_id line = productId ->
  find (InMemory.is_line productId) (its ++ [line]) = Some line
  /\ forall f, update_first (InMemory.is_line productId) f (its ++ [line])
               = its ++ [f line].
Proof.
  intros Hnone Hid. induction its as [|item its IH]; simpl in *.
  - unfold InMemory.is_line. rewrite bool_decide_eq_true_2; done.
  - destruct (InMemory.is_line productId item); [discriminate|].
    destruct (IH Hnone) as [Hf Hu]. split; [done|].
    intros f. by rewrite Hu.
Qed.

(** C4: [addToCart] raises the quantity of the line that the cart already
    has for the product and stamps it with the time of the call; with no such
    line it appends exactly one, created and updated at the time of the call.
    So the lines of a cart keep distinct product identifiers under every
    sequence of calls (a created profile starts with none), and adding a
    product twice by one gives one line of quantity two. *)
Theorem addToCart_aggregates env v productId qty w p :
  currentProfile w = Some p ->
  let k := date_reads w in
  (exists p',
     currentProfile (exec (pm_addToCart (manager env v) productId qty) w) = Some p'
     /\ (forall line, cart_line productId p = Some line ->
         exists before after,
           cart_items p = before ++ (line :: after)
           /\ (productId ∉ (product_id <$> before))
           /\ cart_items p'
              = before
                ++ (mkCartItem productId (quantity line + qty) (added_at line)
                      (clock env k)
                    :: after))
     /\ (cart_line productId p = None ->
         cart_items p'
         = cart_items p ++ [mkCartItem productId qty (clock env k) (clock env (S k))]))
  /\ (NoDup (cart_product_ids p) ->
      forall calls,
      exists p',
        currentProfile (run (manager env v) calls w) = Some p'
        /\ NoDup (cart_product_ids p'))
  /\ (forall profileId profileType w0,
      exists p0 w0',
        createBaseProfile env profileId profileType w0 = (Returned p0, w0')
        /\ cart_items p0 = [])
  /\ (cart_line productId p = None ->
      exists p' t,
        currentProfile
          (run (manager env v) [AddToCart productId 1; AddToCart productId 1] w) = Some p'
        /\ cart_items p' = cart_items p ++ [mkCartItem productId 2 (clock env k) t]).
Proof.
  intros Hp k. split; [|split; [|split]].
  - pose proof (perform_profile env v (AddToCart productId qty) w p Hp) as Hadd.
    change (perform (manager env v) (AddToCart productId qty))
      with (pm_addToCart (manager env v) productId qty) in Hadd.
    eexists. split; [exact Hadd|].
    unfold cart_line. simpl.
    destruct (find (InMemory.is_line productId) (cart_items p)) as [found|] eqn:Hfind;
      rewrite retotal_items; simpl.
    + split; [|discriminate]. intros line [= <-].
      destruct (update_first_split _
                  (fun item => mkCartItem (product_id item) (quantity item + qty)
                                 (added_at item) (clock env (date_reads w)))
                  _ _ Hfind)
        as (before & after & Hits & Hbefore & Hupdated).
      exists before, after. split; [exact Hits|]. split.
      * intros Hin. apply list_elem_of_fmap in Hin as (item & Hid & Hitem).
        rewrite Forall_forall in Hbefore. specialize (Hbefore item Hitem).
        unfold InMemory.is_line in Hbefore.
        apply bool_decide_eq_false in Hbefore. by apply Hbefore.
      * unfold_fields. rewrite Hupdated.
        by rewrite (find_is_line_Some _ _ _ Hfind).
    + split; [discriminate|]. reflexivity.
  - intros Hunique calls. eexists. split; [by apply run_profile|].
    by apply steps_unique.
  - intros profileId profileType w0.
    destruct (createBaseProfile_returns env profileId profileType w0)
      as (p0 & w0' & Hrun & _ & _ & Hshop & _).
    exists p0, w0'. split; [exact Hrun|]. unfold cart_items. by rewrite Hshop.
  - intros Hnone. unfold cart_line in Hnone.
    rewrite (run_profile env v _ w p Hp). simpl. rewrite Hnone.
    set (line := mkCartItem productId 1 (clock env (date_reads w))
                   (clock env (S (date_reads w)))).
    destruct (find_is_line_last productId (cart_items p) line Hnone eq_refl)
      as [Hfound Hupdated].
    destruct (InMemory.retotal env _) as [k1 p1] eqn:Hfirst.
    assert (cart_items p1 = cart_items p ++ [line]) as Hitems.
    { change p1 with (k1, p1).2. rewrite <- Hfirst. by rewrite retotal_items. }
    simpl. rewrite Hitems, Hfound. do 2 eexists. split; [reflexivity|].
    rewrite retotal_items. unfold cart_items at 1. simpl.
    fold (cart_items p1). rewrite Hitems, Hupdated. reflexivity.
Qed.

(** ** Abandoned carts *)

Lemma retotal_abandoned env k p :
  profile_abandoned (InMemory.retotal env (k, p)).2 = profile_abandoned p.
Proof. unfold InMemory.retotal. by destruct (products env). Qed.

Lemma clear_abandoned env k p :
  profile_abandoned (InMemory.clear env (k, p)).2
  = if (0 <? length (cart_items p))%nat
    then keep_last 10
           (profile_abandoned p ++ [mkAbandonedCart (cart (shopping p)) (clock env k)])
    else profile_abandoned p.
Proof.
  unfold InMemory.clear. by destruct (0 <? length (cart_items p))%nat.
Qed.

Lemma clear_cart env k p :
  cart_items (InMemory.clear env (k, p)).2 = []
  /\ cart_total (InMemory.clear env (k, p)).2 = 0%float.
Proof.
  unfold InMemory.clear. by destruct (0 <? length (cart_items p))%nat.
Qed.

Lemma clear_abandoned_bound env k p :
  (length (profile_abandoned p) <= 10)%nat ->
  (length (profile_abandoned (InMemory.clear env (k, p)).2) <= 10)%nat.
Proof.
  intros Hp. rewrite clear_abandoned.
  destruct (0 <? length (cart_items p))%nat; [|done].
  rewrite keep_last_length. lia.
Qed.

Lemma step_abandoned_bound env call k p :
  (length (profile_abandoned p) <= 10)%nat ->
  (length (profile_abandoned (InMemory.step env call (k, p)).2) <= 10)%nat.
Proof.
  intros Hp. destruct call; simpl; try done.
  - destruct (find _ _); by rewrite retotal_abandoned.
  - unfold InMemory.remove_line. by rewrite retotal_abandoned.
  - destruct (find _ _); [|done].
    destruct (qty <=? 0); [unfold InMemory.remove_line|]; by rewrite retotal_abandoned.
  - by apply clear_abandoned_bound.
  - by destruct (find _ _).
  - by apply clear_abandoned_bound.
Qed.

Lemma steps_abandoned_bound env calls : forall k p,
  (length (profile_abandoned p) <= 10)%nat ->
  (length (profile_abandoned (InMemory.steps env calls (k, p)).2) <= 10)%nat.
Proof.
  induction calls as [|call calls IH]; intros k p Hp; [done|].
  rewrite steps_cons.
  pose proof (step_abandoned_bound env call k p Hp) as Hstep.
  destruct (InMemory.step env call (k, p)) as [k' p']. by apply IH.
Qed.

(** C5: [clearCart] on a cart with at least one item pushes exactly one
    snapshot of it, stamped with the time of the call, onto
    [abandoned_carts] and keeps the last ten entries (the oldest ones go);
    on an empty cart it pushes nothing.  Either way the cart is empty with
    total 0 afterwards.  A created profile has no abandoned cart, and no
    sequence of calls, under either manager, takes the list beyond ten
    entries. *)
Theorem clearCart_abandons env v w p :
  currentProfile w = Some p ->
  let k := date_reads w in
  (exists p',
     currentProfile (exec (pm_clearCart (manager env v)) w) = Some p'
     /\ cart_items p' = []
     /\ cart_total p' = 0%float
     /\ ((1 <= length (cart_items p))%nat ->
         let pushed :=
           profile_abandoned p ++ [mkAbandonedCart (cart (shopping p)) (clock env k)] in
         profile_abandoned p' = drop (length pushed - 10) pushed
         /\ (length (profile_abandoned p') <= 10)%nat)
     /\ (cart_items p = [] -> profile_abandoned p' = profile_abandoned p))
  /\ ((length (profile_abandoned p) <= 10)%nat ->
      forall calls,
      exists p',
        currentProfile (run (manager env v) calls w) = Some p'
        /\ (length (profile_abandoned p') <= 10)%nat)
  /\ (forall profileId profileType w0,
      exists p0 w0',
        createBaseProfile env profileId profileType w0 = (Returned p0, w0')
        /\ profile_abandoned p0 = []).
Proof.
  intros Hp k. split; [|split].
  - pose proof (perform_profile env v ClearCart w p Hp) as Hclear.
    change (perform (manager env v) ClearCart) with (pm_clearCart (manager env v))
      in Hclear.
    eexists. split; [exact Hclear|].
    cbn [InMemory.step].
    destruct (clear_cart env (date_reads w) p) as [Hitems Htotal].
    split; [exact Hitems|]. split; [exact Htotal|].
    rewrite clear_abandoned. split.
    + intros Hlen. apply Nat.ltb_lt in Hlen. rewrite Hlen.
      cbv zeta. rewrite keep_last_drop. split; [reflexivity|].
      rewrite length_drop. lia.
    + intros Hempty. by rewrite Hempty.
  - intros Hbound calls. eexists. split; [by apply run_profile|].
    by apply steps_abandoned_bound.
  - intros profileId profileType w0.
    destruct (createBaseProfile_returns env profileId profileType w0)
      as (p0 & w0' & Hrun & _ & _ & Hshop & _).
    exists p0, w0'. split; [exact Hrun|]. unfold profile_abandoned. by rewrite Hshop.
Qed.

(** ** Tracked events *)

Lemma keep_last_app {A} (n : nat) (l t : list A) :
  keep_last n (keep_last n l ++ t) = keep_last n (l ++ t).
Proof.
  rewrite !keep_last_drop.
  destruct (decide (length l <= n)%nat) as [Hle|Hgt].
  - replace (length l - n)%nat with 0%nat by lia. by rewrite drop_0.
  - rewrite <- (drop_app_le l t (length l - n)) by lia.
    rewrite drop_drop. f_equal.
    rewrite length_drop, !length_app. lia.
Qed.

Lemma track_events env action data k p :
  profile_events (InMemory.step env (TrackAction action data) (k, p)).2
  = keep_last 1000
      (profile_events p ++ [mkEvent action data (clock env k) (href env) (userAgent env)]).
Proof. reflexivity. Qed.

Lemma track_reads env action data k p :
  (InMemory.step env (TrackAction action data) (k, p)).1 = S (S (S k)).
Proof. reflexivity. Qed.

Lemma tracked_events env calls : forall call k p,
  profile_events (InMemory.steps env (track_calls (call :: calls)) (k, p)).2
  = keep_last 1000 (profile_events p ++ tracked env k (call :: calls)).
Proof.
  induction calls as [|next calls IH]; intros [action data] k p.
  - reflexivity.
  - change (track_calls ((action, data) :: next :: calls))
      with (TrackAction action data :: track_calls (next :: calls)).
    rewrite steps_cons.
    pose proof (track_events env action data k p) as Hev.
    pose proof (track_reads env action data k p) as Hk.
    destruct (InMemory.step env (TrackAction action data) (k, p)) as [k1 p1].
    simpl in Hev, Hk. subst k1.
    rewrite IH, Hev, keep_last_app.
    change (tracked env k ((action, data) :: next :: calls))
      with (mkEvent action data (clock env k) (href env) (userAgent env)
            :: tracked env (S (S (S k))) (next :: calls)).
    by rewrite <- (assoc_L (++)).
Qed.

Lemma tracked_length env calls : forall k, length (tracked env k calls) = length calls.
Proof.
  induction calls as [|[action data] calls IH]; intros k; simpl; [done|].
  by rewrite IH.
Qed.

(** C7: a [trackAction] call appends one event and keeps the last 1000, so
    the list never holds more than 1000 entries after it, whatever it held
    before; after 1000 calls or more the list holds exactly 1000 entries,
    which are the last 1000 appended, in order. *)
Theorem events_bounded env v w p :
  currentProfile w = Some p ->
  let k := date_reads w in
  (forall action data,
     exists p',
       currentProfile (exec (pm_trackAction (manager env v) action data) w) = Some p'
       /\ (let appended :=
             profile_events p
             ++ [mkEvent action data (clock env k) (href env) (userAgent env)] in
           profile_events p' = drop (length appended - 1000) appended)
       /\ (length (profile_events p') <= 1000)%nat)
  /\ (forall calls : list (string * JsObj),
      (1000 <= length calls)%nat ->
      exists p',
        currentProfile (run (manager env v) (track_calls calls) w) = Some p'
        /\ length (profile_events p') = 1000%nat
        /\ profile_events p' = drop (length calls - 1000) (tracked env k calls)).
Proof.
  intros Hp k. split.
  - intros action data.
    pose proof (perform_profile env v (TrackAction action data) w p Hp) as Htrack.
    change (perform (manager env v) (TrackAction action data))
      with (pm_trackAction (manager env v) action data) in Htrack.
    eexists. split; [exact Htrack|].
    rewrite track_events. cbv zeta. rewrite keep_last_drop.
    split; [reflexivity|]. rewrite length_drop. lia.
  - intros calls Hlen. eexists. split; [by apply run_profile|].
    destruct calls as [|call calls]; [simpl in Hlen; lia|].
    rewrite tracked_events, keep_last_drop.
    pose proof (tracked_length env (call :: calls) (date_reads w)) as Htl.
    assert (profile_events p ++ tracked env (date_reads w) (call :: calls)
            = profile_events p ++ tracked env k (call :: calls)) as -> by reflexivity.
    rewrite drop_app_ge by (rewrite length_app; fold k in Htl; lia).
    rewrite length_app. fold k in Htl. rewrite Htl.
    replace (length (profile_events p) + length (call :: calls) - 1000
             - length (profile_events p))%nat
      with (length (call :: calls) - 1000)%nat by lia.
    split; [|reflexivity].
    rewrite length_drop, Htl. lia.
Qed.

(** ** Identity transitions *)

Lemma truthy_session suffix : truthy (Some ("session_" +:+ suffix)) = true.
Proof. reflexivity. Qed.

(** [generateSessionId] returns [session_of] and touches neither the profile
    nor the stores of profiles. *)
Lemma generateSessionId_returns env w :
  exists w',
    generateSessionId env w = (Returned (session_of env w), w')
    /\ currentProfile w' = currentProfile w
    /\ localStorage w' = localStorage w
    /\ user_profiles w' = user_profiles w
    /\ date_reads w' = date_reads w
    /\ remote_calls w' = remote_calls w
    /\ truthy (sessionStorage w') = true
    /\ session_of env w' = session_of env w.
Proof.
  destruct w as [cp sched timers ls ss docs au dr ids rc].
  unfold generateSessionId, session_of. compute_method.
  destruct (truthy ss) eqn:Hss; compute_method.
  - eexists. split; [reflexivity|]. cbv beta iota. by rewrite Hss.
  - eexists. split; [reflexivity|]. cbv beta iota. by rewrite truthy_session.
Qed.

(** C1: when the identity provider rejects the account creation,
    [convertGuestToRegistered] throws that error and the world is the one it
    started from: the current profile is still the guest profile (same type,
    identifier and cart), and neither the remote collection nor the Local
    Cache has been written. *)
Theorem conversion_is_atomic env userInfo password w p :
  currentProfile w = Some p ->
  profile_type p = guest ->
  createUserWithEmailAndPassword env (info_email userInfo) password = None ->
  F.convertGuestToRegistered env userInfo password w = (Thrown IdentityError, w)
  /\ currentProfile (exec (F.convertGuestToRegistered env userInfo password) w) = Some p
  /\ user_profiles (exec (F.convertGuestToRegistered env userInfo password) w)
     = user_profiles w
  /\ localStorage (exec (F.convertGuestToRegistered env userInfo password) w)
     = localStorage w.
Proof.
  intros Hp Hguest Hrejected.
  assert (F.convertGuestToRegistered env userInfo password w = (Thrown IdentityError, w))
    as Hthrown.
  { unfold F.convertGuestToRegistered.
    unfold bind at 1, gets at 1. rewrite Hp.
    destruct (decide (profile_type p = guest)) as [_|Hne]; [|by destruct Hne].
    unfold try_catch, bind at 1, F.createAccount. by rewrite Hrejected. }
  unfold exec. rewrite Hthrown. auto.
Qed.


(** The end of [mergeGuestData]: the cache entry goes, the remote write is
    attempted, and the merged profile is the result whether or not the write
    resolves. *)
Lemma merge_write_back env key (merged : Profile) w :
  exists w',
    (modify (set_localStorage (base.delete key));;
     warn_on_error
       (Firestore.update env (profile_id merged) (F.overwrite_doc merged));;
     ret merged) w = (Returned merged, w').
Proof.
  destruct w as [cp sched timers ls ss docs au dr ids rc]. compute_method.
  repeat (split_test; compute_method); eexists; reflexivity.
Qed.

Lemma shopping_set_metadata f p : shopping (set_metadata f p) = shopping p.
Proof. reflexivity. Qed.
Lemma shopping_set_analytics f p : shopping (set_analytics f p) = shopping p.
Proof. reflexivity. Qed.
Lemma shopping_set_browsing f p : shopping (set_browsing f p) = shopping p.
Proof. reflexivity. Qed.
Lemma shopping_set_shopping f p : shopping (set_shopping f p) = f (shopping p).
Proof. reflexivity. Qed.
Lemma cart_set_wishlist f s : cart (set_wishlist f s) = cart s.
Proof. reflexivity. Qed.
Lemma cart_set_cart f s : cart (set_cart f s) = f (cart s).
Proof. reflexivity. Qed.


(** C2: [mergeGuestData], given the guest profile cached for the session,
    returns the registered profile with the guest cart in place of its own
    when the guest cart has at least one item, and with its own cart when
    the guest cart is empty. *)
Theorem merge_cart_rule env registeredProfile guestProfile w :
  cached_guest env w = Some guestProfile ->
  exists merged w',
    F.mergeGuestData env registeredProfile w = (Returned merged, w')
    /\ ((1 <= length (cart_items guestProfile))%nat ->
        cart (shopping merged) = cart (shopping guestProfile))
    /\ (cart_items guestProfile = [] ->
        cart (shopping merged) = cart (shopping registeredProfile)).
Proof.
  intros Hcached.
  destruct (generateSessionId_returns env w)
    as (w1 & Hsession & _ & Hls & _).
  unfold cached_guest in Hcached. rewrite <- Hls in Hcached.
  unfold F.mergeGuestData, bind at 1. rewrite Hsession.
  unfold bind at 1, gets at 1. rewrite Hcached.
  set (merged :=
         set_metadata _ (set_analytics _ (set_browsing _ (set_browsing _ _)))).
  destruct (merge_write_back env (guest_profile_key (session_of env w)) merged w1)
    as [w' Hrun].
  exists merged, w'. split; [exact Hrun|].
  subst merged.
  rewrite shopping_set_metadata, shopping_set_analytics, !shopping_set_browsing.
  split.
  - intros Hlen. apply Nat.ltb_lt in Hlen. rewrite Hlen.
    destruct (0 <? length (wishlist (shopping guestProfile)))%nat;
      by rewrite ?shopping_set_shopping, ?cart_set_wishlist, ?cart_set_cart.
  - intros Hempty. rewrite Hempty.
    change (0 <? length (@nil CartItem))%nat with false. cbv iota.
    destruct (0 <? length (wishlist (shopping guestProfile)))%nat;
      by rewrite ?shopping_set_shopping, ?cart_set_wishlist.
Qed.

(** ** Sign-out *)




(** * The scenarios of the specification, evaluated *)

(** A guest adds product sku-1 (price 9.99) with quantity 2: one line, total
    19.98. *)
Example guest_adds_sku_1 :
  let w0 := exec (F.initializeProfile Sample.env) Sample.blank in
  let w1 := exec (F.addToCart Sample.env "sku-1" 2) w0 in
  (profile_type <$> currentProfile w1) = Some guest
  /\ ((fun p => quantity <$> cart_items p) <$> currentProfile w1) = Some [2]
  /\ (cart_total <$> currentProfile w1) = Some 19.98%float.
Proof. vm_compute. auto. Qed.

(** Wishlist union on merge: registered [A], guest [A; B] gives [A; B]. *)
Example wishlist_union :
  let wish := fun productId => mkWishlistItem productId ∅ "2024-12-31T10:00:00.000Z" in
  F.new_wishes [wish "A"] [wish "A"; wish "B"] = [wish "B"].
Proof. reflexivity. Qed.

(** Sign-out with nothing cached for the session: the registered profile
    with three cart lines gives way to a new guest profile with none. *)
Example signout_with_empty_cache :
  let w := exec (F.handleAuthChange Sample.env None)
                (Sample.world_with Sample.registered_profile) in
  (profile_type <$> currentProfile w) = Some guest
  /\ (cart_items <$> currentProfile w) = Some []
  /\ (profile_id <$> currentProfile w) = Some "guest_session_1".
Proof. vm_compute. auto. Qed.

(** Merge cart rule with the totals of the specification. *)
Example merge_totals :
  let registered := Sample.profile "uid-1" registered [Sample.line "sku-1" 1] 10 in
  let filled := Sample.profile "guest_session_1" guest [Sample.line "sku-2" 1] 25 in
  let emptied := Sample.profile "guest_session_1" guest [] 0 in
  let cached := fun g =>
    set_localStorage <["guest_profile_session_1" := g]> Sample.blank in
  (fun r => match r with Returned p => Some (cart_total p) | Thrown _ => None end)
    (result (F.mergeGuestData Sample.env registered) (cached filled)) = Some 25%float
  /\ (fun r => match r with Returned p => Some (cart_total p) | Thrown _ => None end)
       (result (F.mergeGuestData Sample.env registered) (cached emptied)) = Some 10%float.
Proof. vm_compute. auto. Qed.

(** The debounce flag: the first mutation schedules the write, the next
    ones ride on it, and the callback clears the flag. *)
Example one_pending_write :
  let w0 := Sample.world_with Sample.cached_profile in
  let w1 := exec (F.addToCart Sample.env "sku-1" 1) w0 in
  let w2 := exec (F.addToCart Sample.env "sku-2" 1) w1 in
  let w3 := exec (F.batchUpdateCallback Sample.env) w2 in
  (batchUpdateScheduled w1, batchTimers w1) = (true, 1%nat)
  /\ (batchUpdateScheduled w2, batchTimers w2) = (true, 1%nat)
  /\ batchUpdateScheduled w3 = false
  /\ localStorage w3 !! "guest_profile_session_1" = currentProfile w2
  /\ user_profiles w3 !! "guest_session_1" = currentProfile w2.
Proof. vm_compute. auto. Qed.

(** * The theorems at work on the sample storefront *)

(** A sign-up that the identity provider rejects leaves the guest's world as it was. *)
Lemma conversion_is_atomic_witness :
  let info := mkUserInfo "a@b.com" (Some "Ada") None None in
  let w := Sample.world_with Sample.cached_profile in
  currentProfile w = Some Sample.cached_profile
  /\ profile_type Sample.cached_profile = guest
  /\ createUserWithEmailAndPassword Sample.env (info_email info) "secret" = None
  /\ F.convertGuestToRegistered Sample.env info "secret" w = (Thrown IdentityError, w).
Proof.
  intros info w.
  split; [reflexivity|]. split; [reflexivity|]. split; [reflexivity|].
  exact (proj1 (conversion_is_atomic Sample.env info "secret" w Sample.cached_profile
                  eq_refl eq_refl eq_refl)).
Defined.

(** The cached guest cart (one line) replaces the registered cart (three lines). *)
Lemma merge_cart_rule_witness :
  cached_guest Sample.env Sample.signed_in = Some Sample.cached_profile
  /\ exists merged w',
       F.mergeGuestData Sample.env Sample.registered_profile Sample.signed_in
       = (Returned merged, w')
       /\ cart (shopping merged) = cart (shopping Sample.cached_profile).
Proof.
  split; [reflexivity|].
  destruct (merge_cart_rule Sample.env Sample.registered_profile Sample.cached_profile
              Sample.signed_in eq_refl) as (merged & w' & Hrun & Hfilled & _).
  exists merged, w'. split; [exact Hrun|]. apply Hfilled. simpl. lia.
Defined.

(** The total is right after a mixed sequence of cart mutations, one of them on a product that is not in the cart. *)
Lemma cart_total_invariant_witness :
  let catalog := [mkProduct "sku-1" 9.99; mkProduct "sku-2" 25] in
  let mutations :=
    [addToCart "sku-1" 2; updateCartQuantity "sku-9" 3; removeFromCart "sku-2";
     addToCart "sku-7" 1] in
  products Sample.env = Some catalog
  /\ total_consistent catalog Sample.registered_profile
  /\ exists p',
       currentProfile
         (run (manager Sample.env RemoteBacked) (cart_call <$> mutations)
              (Sample.world_with Sample.registered_profile)) = Some p'
       /\ cart_total p' = expected_total catalog (cart_items p').
Proof.
  intros catalog mutations.
  split; [reflexivity|]. split; [reflexivity|].
  exact (proj1 (proj2 (cart_total_invariant Sample.env catalog eq_refl))
           RemoteBacked mutations (Sample.world_with Sample.registered_profile)
           Sample.registered_profile eq_refl eq_refl).
Defined.

(** Adding sku-1 twice to a cart without it gives one line of quantity 2. *)
Lemma addToCart_aggregates_witness :
  let w := Sample.world_with Sample.cached_profile in
  currentProfile w = Some Sample.cached_profile
  /\ cart_line "sku-1" Sample.cached_profile = None
  /\ exists p' t,
       currentProfile
         (run (manager Sample.env Fallback) [AddToCart "sku-1" 1; AddToCart "sku-1" 1] w)
       = Some p'
       /\ cart_items p'
          = cart_items Sample.cached_profile
            ++ [mkCartItem "sku-1" 2 (clock Sample.env (date_reads w)) t].
Proof.
  intros w. split; [reflexivity|]. split; [reflexivity|].
  exact (proj2 (proj2 (proj2
           (addToCart_aggregates Sample.env Fallback "sku-1" 1 w Sample.cached_profile
              eq_refl))) eq_refl).
Defined.

(** Clearing a cart of three lines leaves one abandoned cart and an empty cart. *)
Lemma clearCart_abandons_witness :
  let w := Sample.world_with Sample.registered_profile in
  currentProfile w = Some Sample.registered_profile
  /\ exists p',
       currentProfile (exec (pm_clearCart (manager Sample.env RemoteBacked)) w) = Some p'
       /\ cart_items p' = []
       /\ cart_total p' = 0%float
       /\ length (profile_abandoned p') = 1%nat.
Proof.
  intros w. split; [reflexivity|].
  destruct (proj1 (clearCart_abandons Sample.env RemoteBacked w Sample.registered_profile
                     eq_refl))
    as (p' & Hrun & Hitems & Htotal & Hpushed & _).
  exists p'. split; [exact Hrun|]. split; [exact Hitems|]. split; [exact Htotal|].
  destruct Hpushed as [Hlist _]; [simpl; lia|].
  rewrite Hlist. reflexivity.
Defined.

(** One tracked action on the sample profile. *)
Lemma events_bounded_witness :
  let w := Sample.world_with Sample.cached_profile in
  currentProfile w = Some Sample.cached_profile
  /\ exists p',
       currentProfile
         (exec (pm_trackAction (manager Sample.env RemoteBacked) "page_loaded" ∅) w)
       = Some p'
       /\ (length (profile_events p') <= 1000)%nat.
Proof.
  intros w. split; [reflexivity|].
  destruct (proj1 (events_bounded Sample.env RemoteBacked w Sample.cached_profile eq_refl)
              "page_loaded" ∅) as (p' & Hrun & _ & Hbound).
  exists p'. split; [exact Hrun | exact Hbound].
Defined.

(** The same call on the same profile, with different store contents. *)
Lemma managers_agree_in_memory_witness :
  let w1 := Sample.world_with Sample.registered_profile in
  let w2 := Sample.signed_in in
  currentProfile w1 = currentProfile w2
  /\ date_reads w1 = date_reads w2
  /\ currentProfile (exec (perform (firebase Sample.env) (AddToCart "sku-2" 3)) w1)
     = currentProfile (exec (perform (offline Sample.env) (AddToCart "sku-2" 3)) w2).
Proof.
  intros w1 w2. split; [reflexivity|]. split; [reflexivity|].
  exact (proj1 (managers_agree_in_memory Sample.env w1 w2 eq_refl eq_refl)
           (AddToCart "sku-2" 3)).
Defined.

(** Before any profile is initialised. *)
Lemma null_profile_calls_do_nothing_witness :
  currentProfile Sample.blank = None
  /\ pm_clearCart (manager Sample.env RemoteBacked) Sample.blank
     = (Returned tt, Sample.blank)
  /\ pm_updateProfile (manager Sample.env Fallback) (mkUpdates None None) Sample.blank
     = (Returned None, Sample.blank).
Proof.
  split; [reflexivity|]. split.
  - exact (proj1 (proj2 (proj2 (proj2 (proj2 (proj2 (proj2
             (null_profile_calls_do_nothing Sample.env RemoteBacked Sample.blank
                eq_refl)))))))).
  - refine (proj2 (proj2 (proj2 (proj2 (proj2 (proj2 (proj2 (proj2 (proj2 (proj2
              (null_profile_calls_do_nothing Sample.env Fallback Sample.blank
                 eq_refl)))))))))) _).
Defined.

(** [addToCart('sku-1', -1)] on a cart without sku-1 appends a line of quantity -1. *)
Lemma addToCart_takes_any_quantity_witness :
  let w := Sample.world_with Sample.cached_profile in
  currentProfile w = Some Sample.cached_profile
  /\ -1 <= 0
  /\ result (pm_addToCart (manager Sample.env RemoteBacked) "sku-1" (-1)) w = Returned tt
  /\ exists p',
       currentProfile (exec (pm_addToCart (manager Sample.env RemoteBacked) "sku-1" (-1)) w)
       = Some p'
       /\ cart_items p'
          = cart_items Sample.cached_profile
            ++ [mkCartItem "sku-1" (-1) (clock Sample.env 0) (clock Sample.env 1)].
Proof.
  intros w. split; [reflexivity|]. split; [lia|].
  destruct (addToCart_takes_any_quantity Sample.env RemoteBacked "sku-1" (-1) w
              Sample.cached_profile eq_refl ltac:(lia))
    as (Hreturned & p' & Hrun & Hnew & _).
  split; [exact Hreturned|].
  exists p'. split; [exact Hrun|]. apply Hnew. reflexivity.
Defined.

(** * Further properties of the profile managers *)

(** ** The session identifier *)

(** X1: the session identifier is generated once: whatever the session
    storage holds, [generateSessionId] returns an identifier that the next
    call returns again without changing anything; with an identifier already
    stored the first call changes nothing either. *)
Theorem generateSessionId_is_stable env w :
  exists sessionId w1,
    generateSessionId env w = (Returned sessionId, w1)
    /\ generateSessionId env w1 = (Returned sessionId, w1)
    /\ sessionStorage w1 = Some sessionId
    /\ (truthy (sessionStorage w) = true ->
        w1 = w /\ sessionStorage w = Some sessionId).
Proof.
  destruct w as [cp sched timers ls ss docs au dr ids rc].
  unfold generateSessionId. compute_method.
  destruct (truthy ss) eqn:Hss; compute_method.
  - destruct ss as [s|]; [|discriminate].
    exists s. eexists. split; [reflexivity|]. compute_method. rewrite Hss.
    by repeat split.
  - do 2 eexists. split; [reflexivity|]. compute_method.
    rewrite truthy_session. by repeat split.
Qed.

(** ** Deferred persistence of the remote-backed manager *)

Lemma firebase_call_stores env call w :
  is_updateProfile call = false ->
  let w' := exec (perform (firebase env) call) w in
  localStorage w' = localStorage w
  /\ user_profiles w' = user_profiles w
  /\ remote_calls w' = remote_calls w
  /\ sessionStorage w' = sessionStorage w
  /\ auth_currentUser w' = auth_currentUser w.
Proof.
  intros Hcall.
  destruct w as [cp sched timers ls ss docs au dr ids rc].
  destruct call; try discriminate; destruct cp as [p|]; compute_method;
    repeat (split_test; compute_method); repeat split; reflexivity.
Qed.

Lemma firebase_call_timer env call w :
  let w' := exec (perform (firebase env) call) w in
  (batchUpdateScheduled w = true ->
   batchUpdateScheduled w' = true /\ batchTimers w' = batchTimers w)
  /\ (batchUpdateScheduled w = false ->
      batchTimers w' = if batchUpdateScheduled w' then S (batchTimers w) else batchTimers w).
Proof.
  destruct w as [cp sched timers ls ss docs au dr ids rc].
  destruct call; destruct cp as [p|]; compute_method;
    repeat (split_test; compute_method); split; intros; try discriminate;
    repeat split; reflexivity.
Qed.

Lemma run_snoc pm calls call w :
  run pm (calls ++ [call]) w = exec (perform pm call) (run pm calls w).
Proof. unfold run. by rewrite fold_left_app. Qed.

Lemma firebase_run_timer env calls : forall w,
  batchUpdateScheduled w = false ->
  batchTimers (run (firebase env) calls w)
  = if batchUpdateScheduled (run (firebase env) calls w)
    then S (batchTimers w) else batchTimers w.
Proof.
  induction calls as [|call calls IH] using rev_ind; intros w Hw.
  - simpl. by rewrite Hw.
  - rewrite run_snoc.
    pose proof (firebase_call_timer env call (run (firebase env) calls w)) as Hcall.
    cbv zeta in Hcall. destruct Hcall as [Hset Hclear].
    specialize (IH w Hw).
    destruct (batchUpdateScheduled (run (firebase env) calls w)) eqn:Hflag.
    + destruct (Hset eq_refl) as [-> ->]. exact IH.
    + rewrite (Hclear eq_refl), IH. reflexivity.
Qed.

(** X2: except for [updateProfile], a call of the remote-backed manager
    writes neither the Local Cache nor the remote collection and makes no
    remote call; it only raises the flag of the batched write.  However many
    calls follow one another, at most one timer is set while the flag is
    raised: starting with the flag down, the number of timers set goes up by
    one exactly when the flag ends up raised, and with the flag already
    raised no timer is added. *)
Theorem firebase_defers_persistence env w :
  (forall call,
     is_updateProfile call = false ->
     let w' := exec (perform (firebase env) call) w in
     localStorage w' = localStorage w
     /\ user_profiles w' = user_profiles w
     /\ remote_calls w' = remote_calls w)
  /\ (forall calls,
        batchUpdateScheduled w = false ->
        let w' := run (firebase env) calls w in
        batchTimers w' = if batchUpdateScheduled w' then S (batchTimers w) else batchTimers w)
  /\ (forall calls,
        batchUpdateScheduled w = true ->
        let w' := run (firebase env) calls w in
        batchUpdateScheduled w' = true /\ batchTimers w' = batchTimers w).
Proof.
  split; [|split].
  - intros call Hcall.
    pose proof (firebase_call_stores env call w Hcall) as Hstores.
    cbv zeta in Hstores. destruct Hstores as (? & ? & ? & _). auto.
  - intros calls Hw. by apply firebase_run_timer.
  - intros calls. cbv zeta.
    induction calls as [|call calls IH] using rev_ind; intros Hw.
    + by simpl.
    + rewrite run_snoc. destruct (IH Hw) as [Hflag Htimers].
      pose proof (firebase_call_timer env call (run (firebase env) calls w)) as Hcall.
      cbv zeta in Hcall. destruct Hcall as [Hset _].
      destruct (Hset Hflag) as [-> ->]. by rewrite Htimers.
Qed.

Ltac compute_callback :=
  cbv [F.batchUpdateCallback cached_guest session_of]; compute_method.

(** X3: when the timer fires and the remote write resolves, the callback
    lowers the flag, leaves the profile in memory alone and stores the
    profile that is current at that moment: the remote document gets its
    shopping, browsing and analytics data (and is the profile itself when
    there was no document), a guest profile is also written to the Local
    Cache under the session key, a registered one is not. *)
Theorem batchUpdateCallback_writes_latest env w p :
  currentProfile w = Some p ->
  db env = true ->
  remote_ok env (remote_calls w) = true ->
  let w' := exec (F.batchUpdateCallback env) w in
  result (F.batchUpdateCallback env) w = Returned tt
  /\ batchUpdateScheduled w' = false
  /\ currentProfile w' = Some p
  /\ (exists doc,
        user_profiles w' !! profile_id p = Some doc
        /\ shopping doc = shopping p
        /\ browsing doc = browsing p
        /\ analytics doc = analytics p
        /\ (user_profiles w !! profile_id p = None -> doc = p))
  /\ (profile_type p = guest -> cached_guest env w' = Some p)
  /\ (profile_type p = registered -> localStorage w' = localStorage w).
Proof.
  intros Hp Hdb Hok.
  destruct w as [cp sched timers ls ss docs au dr ids rc].
  simpl in Hp, Hok. subst cp.
  compute_callback. rewrite Hdb, Hok. compute_callback.
  destruct (decide (profile_type p = guest)) as [Hguest|Hother]; compute_callback.
  - destruct (truthy ss) eqn:Hss; compute_callback;
      rewrite ?Hss, ?truthy_session; compute_callback.
    all: split; [reflexivity|]; split; [reflexivity|]; split; [reflexivity|].
    all: split; [|split; [intros _; apply lookup_insert_eq | rewrite Hguest; discriminate]].
    all: rewrite lookup_insert_eq; eexists; split; [reflexivity|].
    all: destruct (docs !! profile_id p); repeat split; try reflexivity; discriminate.
  - split; [reflexivity|]. split; [reflexivity|]. split; [reflexivity|].
    split; [|split; [by intros ? | reflexivity]].
    rewrite lookup_insert_eq. eexists. split; [reflexivity|].
    destruct (docs !! profile_id p); repeat split; try reflexivity; discriminate.
Qed.

(** X4: when the remote write of the callback rejects, the error is
    swallowed and the flag lowered, but the Local Cache write that follows it
    in the [try] block is skipped as well: neither store changes, also for a
    guest profile. *)
Theorem batchUpdateCallback_failure_skips_cache env w p :
  currentProfile w = Some p ->
  db env = true ->
  remote_ok env (remote_calls w) = false ->
  let w' := exec (F.batchUpdateCallback env) w in
  result (F.batchUpdateCallback env) w = Returned tt
  /\ batchUpdateScheduled w' = false
  /\ currentProfile w' = Some p
  /\ localStorage w' = localStorage w
  /\ user_profiles w' = user_profiles w.
Proof.
  intros Hp Hdb Hok.
  destruct w as [cp sched timers ls ss docs au dr ids rc].
  simpl in Hp, Hok. subst cp.
  compute_callback. rewrite Hdb, Hok. compute_callback.
  repeat split; reflexivity.
Qed.

(** ** Cart lines *)

Lemma filter_keeps_line productId other (its : list CartItem) :
  other ≠ productId ->
  find (InMemory.is_line other) (filter (fun item => product_id item ≠ productId) its)
  = find (InMemory.is_line other) its.
Proof.
  intros Hother. induction its as [|item its IH]; [reflexivity|].
  rewrite filter_cons. destruct (decide (product_id item ≠ productId)) as [Hkeep|Hdrop].
  - simpl. by rewrite IH.
  - simpl. rewrite IH. unfold InMemory.is_line at 2.
    rewrite bool_decide_eq_false_2; [reflexivity|]. 
    intros Heq. apply Hdrop. congruence.
Qed.

Lemma filter_drops_line productId (its : list CartItem) :
  find (InMemory.is_line productId) (filter (fun item => product_id item ≠ productId) its)
  = None.
Proof.
  apply find_is_line_None. intros Hin.
  apply list_elem_of_fmap in Hin as (item & Hid & Hitem).
  apply list_elem_of_filter in Hitem as [Hne _]. by apply Hne.
Qed.

Lemma filter_absent_line productId (its : list CartItem) :
  find (InMemory.is_line productId) its = None ->
  filter (fun item => product_id item ≠ productId) its = its.
Proof.
  intros Hnone. apply find_is_line_None in Hnone.
  induction its as [|item its IH]; [reflexivity|].
  rewrite fmap_cons, not_elem_of_cons in Hnone. destruct Hnone as [Hne Hrest].
  rewrite filter_cons. destruct (decide (product_id item ≠ productId)) as [_|Hdrop].
  - by rewrite IH.
  - exfalso. apply Hdrop. congruence.
Qed.

(** X5: [removeFromCart] filters out every line of the product and nothing
    else: the product has no line afterwards, the lines of the other products
    are as before, and removing a product that is not in the cart leaves the
    lines as they are.  The total is recomputed for the lines that remain, in
    the arithmetic of the code: from 0, adding price times quantity of each
    resolving line in cart order, in doubles. *)
Theorem removeFromCart_removes_the_product env v productId w p :
  currentProfile w = Some p ->
  exists p',
    currentProfile (exec (pm_removeFromCart (manager env v) productId) w) = Some p'
    /\ cart_items p' = filter (fun item => product_id item ≠ productId) (cart_items p)
    /\ cart_line productId p' = None
    /\ (forall other, other ≠ productId -> cart_line other p' = cart_line other p)
    /\ (cart_line productId p = None -> cart_items p' = cart_items p)
    /\ (forall catalog, products env = Some catalog ->
        cart_total p' = expected_total catalog (cart_items p')).
Proof.
  intros Hp.
  pose proof (perform_profile env v (RemoveFromCart productId) w p Hp) as Hrun.
  change (perform (manager env v) (RemoveFromCart productId))
    with (pm_removeFromCart (manager env v) productId) in Hrun.
  eexists. split; [exact Hrun|].
  assert (cart_items (InMemory.step env (RemoveFromCart productId) (date_reads w, p)).2
          = filter (fun item => product_id item ≠ productId) (cart_items p)) as Hitems.
  { simpl. unfold InMemory.remove_line. by rewrite retotal_items. }
  split; [exact Hitems|]. unfold cart_line. rewrite Hitems.
  split; [apply filter_drops_line|].
  split; [intros other Hother; by apply filter_keeps_line|].
  split; [apply filter_absent_line|].
  intros catalog Hcatalog. rewrite <- Hitems.
  by apply (step_recomputes env catalog (RemoveFromCart productId)).
Qed.

Lemma updateCartQuantity_absent env v productId qty w p :
  currentProfile w = Some p ->
  cart_line productId p = None ->
  pm_updateCartQuantity (manager env v) productId qty w = (Returned tt, w).
Proof.
  intros Hp Hnone. unfold cart_line, InMemory.is_line in Hnone.
  destruct w as [cp sched timers ls ss docs au dr ids rc].
  simpl in Hp. subst cp.
  destruct v; compute_method; rewrite Hnone; reflexivity.
Qed.

(** X6: [updateCartQuantity] for a product with no cart line does nothing
    at all: no field changes, no clock read, no write scheduled.  With a
    positive quantity and a line in the cart it sets the quantity of the
    first such line, stamps it with the time of the call and keeps every
    other line where it is. *)
Theorem updateCartQuantity_sets_the_line env v productId qty w p :
  currentProfile w = Some p ->
  let k := date_reads w in
  (cart_line productId p = None ->
   pm_updateCartQuantity (manager env v) productId qty w = (Returned tt, w))
  /\ (forall line,
        cart_line productId p = Some line ->
        0 < qty ->
        exists p' before after,
          currentProfile (exec (pm_updateCartQuantity (manager env v) productId qty) w)
          = Some p'
          /\ cart_items p = before ++ (line :: after)
          /\ cart_items p'
             = before ++ (mkCartItem productId qty (added_at line) (clock env k) :: after)
          /\ (quantity <$> cart_line productId p') = Some qty).
Proof.
  intros Hp k. split; [by apply updateCartQuantity_absent|].
  intros line Hline Hqty.
  pose proof (perform_profile env v (UpdateCartQuantity productId qty) w p Hp) as Hrun.
  change (perform (manager env v) (UpdateCartQuantity productId qty))
    with (pm_updateCartQuantity (manager env v) productId qty) in Hrun.
  unfold cart_line in Hline.
  destruct (update_first_split _
              (fun item => mkCartItem (product_id item) qty (added_at item)
                             (clock env (date_reads w)))
              _ _ Hline)
    as (before & after & Hits & Hbefore & Hupdated).
  assert (cart_items (InMemory.step env (UpdateCartQuantity productId qty)
                        (date_reads w, p)).2
          = before ++ (mkCartItem productId qty (added_at line) (clock env k) :: after))
    as Hitems.
  { simpl. rewrite Hline. apply Z.leb_gt in Hqty. rewrite Hqty.
    rewrite retotal_items. unfold_fields. rewrite Hupdated.
    by rewrite (find_is_line_Some _ _ _ Hline). }
  eexists. exists before, after. split; [exact Hrun|]. split; [exact Hits|].
  split; [exact Hitems|].
  unfold cart_line. rewrite Hitems. clear -Hbefore.
  induction before as [|item before IH]; simpl.
  - unfold InMemory.is_line. simpl. by rewrite bool_decide_eq_true_2.
  - apply Forall_cons in Hbefore as [Hitem Hrest]. rewrite Hitem. by apply IH.
Qed.

(** ** The wishlist *)

Lemma find_is_wish_None productId (wishes : list WishlistItem) :
  find (InMemory.is_wish productId) wishes = None <->
  productId ∉ (wish_product_id <$> wishes).
Proof.
  induction wishes as [|item wishes IH]; simpl.
  - split; [intros _; apply not_elem_of_nil | done].
  - unfold InMemory.is_wish at 1. case_bool_decide as Hid.
    + split; [discriminate|]. intros Hn. exfalso. apply Hn. rewrite Hid. left.
    + rewrite IH, not_elem_of_cons.
      split; [intros Hn; split; [congruence | done] | by intros [_ Hn]].
Qed.

Lemma retotal_wishlist env k p :
  wishlist (shopping (InMemory.retotal env (k, p)).2) = wishlist (shopping p).
Proof. unfold InMemory.retotal. by destruct (products env). Qed.

Lemma clear_wishlist env k p :
  wishlist (shopping (InMemory.clear env (k, p)).2) = wishlist (shopping p).
Proof. unfold InMemory.clear. by destruct (0 <? length (cart_items p))%nat. Qed.

Lemma step_wishlist_unique env call k p :
  NoDup (wishlist_ids p) ->
  NoDup (wishlist_ids (InMemory.step env call (k, p)).2).
Proof.
  intros Hp. unfold wishlist_ids in *. destruct call; simpl; try done.
  - destruct (find _ _); by rewrite retotal_wishlist.
  - unfold InMemory.remove_line. by rewrite retotal_wishlist.
  - destruct (find _ _); [|done].
    destruct (qty <=? 0); [unfold InMemory.remove_line|]; by rewrite retotal_wishlist.
  - by rewrite clear_wishlist.
  - destruct (find _ _) eqn:Hfind; [done|]. simpl.
    rewrite fmap_app. apply NoDup_app. split; [done|]. split.
    + intros x Hx Hx'. apply list_elem_of_singleton in Hx'. subst x.
      by apply find_is_wish_None in Hfind.
    + apply NoDup_singleton.
  - apply (sublist_NoDup _ _ Hp). apply fmap_sublist, sublist_filter.
  - by rewrite clear_wishlist.
Qed.

Lemma steps_wishlist_unique env calls : forall k p,
  NoDup (wishlist_ids p) ->
  NoDup (wishlist_ids (InMemory.steps env calls (k, p)).2).
Proof.
  induction calls as [|call calls IH]; intros k p Hp; [done|].
  rewrite steps_cons.
  pose proof (step_wishlist_unique env call k p Hp) as Hstep.
  destruct (InMemory.step env call (k, p)) as [k' p']. by apply IH.
Qed.

Lemma addToWishlist_present env v productId productData w p found :
  currentProfile w = Some p ->
  find (InMemory.is_wish productId) (wishlist (shopping p)) = Some found ->
  pm_addToWishlist (manager env v) productId productData w = (Returned tt, w).
Proof.
  intros Hp Hfound. unfold InMemory.is_wish in Hfound.
  destruct w as [cp sched timers ls ss docs au dr ids rc].
  simpl in Hp. subst cp.
  destruct v; compute_method; rewrite Hfound; reflexivity.
Qed.

(** X7: the wishlist holds one entry per product.  [addToWishlist] for a
    product that is already there does nothing at all (no field changes, no
    write is scheduled); for a new product it appends one entry stamped with
    the time of the call.  [removeFromWishlist] filters the product out.
    Distinct product identifiers stay distinct under every sequence of
    calls. *)
Theorem wishlist_has_one_entry_per_product env v productId w p :
  currentProfile w = Some p ->
  let k := date_reads w in
  (forall productData,
     productId ∈ wishlist_ids p ->
     pm_addToWishlist (manager env v) productId productData w = (Returned tt, w))
  /\ (forall productData,
        productId ∉ wishlist_ids p ->
        exists p',
          currentProfile (exec (pm_addToWishlist (manager env v) productId productData) w)
          = Some p'
          /\ wishlist (shopping p')
             = wishlist (shopping p) ++ [mkWishlistItem productId productData (clock env k)])
  /\ (exists p',
        currentProfile (exec (pm_removeFromWishlist (manager env v) productId) w) = Some p'
        /\ wishlist (shopping p')
           = filter (fun item => wish_product_id item ≠ productId) (wishlist (shopping p))
        /\ productId ∉ wishlist_ids p')
  /\ (NoDup (wishlist_ids p) ->
      forall calls,
      exists p',
        currentProfile (run (manager env v) calls w) = Some p'
        /\ NoDup (wishlist_ids p')).
Proof.
  intros Hp k. split; [|split; [|split]].
  - intros productData Hin.
    destruct (find (InMemory.is_wish productId) (wishlist (shopping p))) as [found|]
      eqn:Hfind.
    + by apply (addToWishlist_present env v productId productData w p found).
    + apply find_is_wish_None in Hfind. by destruct Hfind.
  - intros productData Hnew. apply find_is_wish_None in Hnew.
    pose proof (perform_profile env v (AddToWishlist productId productData) w p Hp)
      as Hrun.
    change (perform (manager env v) (AddToWishlist productId productData))
      with (pm_addToWishlist (manager env v) productId productData) in Hrun.
    eexists. split; [exact Hrun|]. simpl. by rewrite Hnew.
  - pose proof (perform_profile env v (RemoveFromWishlist productId) w p Hp) as Hrun.
    change (perform (manager env v) (RemoveFromWishlist productId))
      with (pm_removeFromWishlist (manager env v) productId) in Hrun.
    eexists. split; [exact Hrun|]. split; [reflexivity|].
    unfold wishlist_ids. simpl. intros Hin.
    apply list_elem_of_fmap in Hin as (item & Hid & Hitem).
    apply list_elem_of_filter in Hitem as [Hne _]. by apply Hne.
  - intros Hunique calls. eexists. split; [by apply run_profile|].
    by apply steps_wishlist_unique.
Qed.

(** ** Browsing history *)

(** X8: [trackPageView] keeps the last 500 page views and
    [trackProductView] the last 100 product views: after the call the list is
    within its bound, whatever its length before, and the view just recorded
    is its last entry. *)
Theorem views_are_bounded env v w p :
  currentProfile w = Some p ->
  let k := date_reads w in
  (forall pageName data,
     exists p',
       currentProfile (exec (pm_trackPageView (manager env v) pageName data) w) = Some p'
       /\ (let pushed :=
             page_views (browsing p) ++ [mkPageView pageName data (clock env k) (href env)] in
           page_views (browsing p') = drop (length pushed - 500) pushed)
       /\ (length (page_views (browsing p')) <= 500)%nat
       /\ last (page_views (browsing p'))
          = Some (mkPageView pageName data (clock env k) (href env)))
  /\ (forall productId productData,
      exists p',
        currentProfile
          (exec (pm_trackProductView (manager env v) productId productData) w) = Some p'
        /\ (let pushed :=
              product_views (browsing p)
              ++ [mkProductView productId productData (clock env k)] in
            product_views (browsing p') = drop (length pushed - 100) pushed)
        /\ (length (product_views (browsing p')) <= 100)%nat
        /\ last (product_views (browsing p'))
           = Some (mkProductView productId productData (clock env k))).
Proof.
  intros Hp k.
  assert (forall A (n : nat) (l : list A) (x : A), (0 < n)%nat ->
          last (drop (length (l ++ [x]) - n) (l ++ [x])) = Some x) as Hlast.
  { intros A n l x Hn. rewrite length_app. simpl.
    destruct (decide (length l + 1 <= n)%nat) as [Hle|Hgt].
    - replace (length l + 1 - n)%nat with 0%nat by lia. rewrite drop_0. apply last_snoc.
    - rewrite drop_app_le by lia. apply last_snoc. }
  split.
  - intros pageName data.
    pose proof (perform_profile env v (TrackPageView pageName data) w p Hp) as Hrun.
    change (perform (manager env v) (TrackPageView pageName data))
      with (pm_trackPageView (manager env v) pageName data) in Hrun.
    eexists. split; [exact Hrun|]. simpl. rewrite keep_last_drop.
    split; [reflexivity|]. split; [rewrite length_drop; lia|].
    apply Hlast. lia.
  - intros productId productData.
    pose proof (perform_profile env v (TrackProductView productId productData) w p Hp)
      as Hrun.
    change (perform (manager env v) (TrackProductView productId productData))
      with (pm_trackProductView (manager env v) productId productData) in Hrun.
    eexists. split; [exact Hrun|]. simpl. rewrite keep_last_drop.
    split; [reflexivity|]. split; [rewrite length_drop; lia|].
    apply Hlast. lia.
Qed.

(** ** Purchases *)

(** X9: [addPurchase] appends one record to the purchase history, the order
    data with [purchased_at] set to the time of the call (overriding such a
    property of the order data), and empties the cart.  It does so through
    [clearCart]: a cart that held items is pushed onto [abandoned_carts],
    the purchased cart included. *)
Theorem addPurchase_records_and_empties env v orderData w p :
  currentProfile w = Some p ->
  let k := date_reads w in
  exists p',
    currentProfile (exec (pm_addPurchase (manager env v) orderData) w) = Some p'
    /\ purchase_history (shopping p')
       = purchase_history (shopping p) ++ [<["purchased_at" := JStr (clock env k)]> orderData]
    /\ cart_items p' = []
    /\ cart_total p' = 0%float
    /\ ((1 <= length (cart_items p))%nat ->
        let pushed :=
          profile_abandoned p ++ [mkAbandonedCart (cart (shopping p)) (clock env (S k))] in
        profile_abandoned p' = drop (length pushed - 10) pushed)
    /\ (cart_items p = [] -> profile_abandoned p' = profile_abandoned p).
Proof.
  intros Hp k.
  pose proof (perform_profile env v (AddPurchase orderData) w p Hp) as Hrun.
  change (perform (manager env v) (AddPurchase orderData))
    with (pm_addPurchase (manager env v) orderData) in Hrun.
  eexists. split; [exact Hrun|]. cbn [InMemory.step].
  set (recorded := set_shopping _ p).
  assert (cart (shopping recorded) = cart (shopping p)) as Hcart by reflexivity.
  assert (profile_abandoned recorded = profile_abandoned p) as Hab by reflexivity.
  assert (cart_items recorded = cart_items p) as Hitems by reflexivity.
  destruct (clear_cart env (S (date_reads w)) recorded) as [Hempty Htotal].
  split.
  { unfold InMemory.clear. by destruct (0 <? length (cart_items recorded))%nat. }
  split; [exact Hempty|]. split; [exact Htotal|].
  rewrite clear_abandoned, Hitems, Hab, Hcart. split.
  - intros Hlen. apply Nat.ltb_lt in Hlen. rewrite Hlen.
    cbv zeta. by rewrite keep_last_drop.
  - intros Hnone. by rewrite Hnone.
Qed.

(** ** Profile updates *)

(** [Object.assign(target, source)] read property by property. *)
Lemma assign_lookup (source : option JsObj) (target : JsObj) (key : string) :
  (default ∅ source ∪ target) !! key
  = match source ≫= (fun props => props !! key) with
    | Some value => Some value
    | None => target !! key
    end.
Proof.
  rewrite lookup_union. destruct source as [props|]; simpl.
  - by destruct (props !! key), (target !! key).
  - rewrite lookup_empty. by destruct (target !! key).
Qed.

(** X10: [updateProfile] merges property by property: a property that the
    update carries takes the update's value, every other property of
    [personal_info] and [preferences] keeps its own; [updated_at] becomes the
    time of the call; identifier, type, shopping, browsing, analytics and
    metadata are not touched.  Both managers agree on this. *)
Theorem updateProfile_merges_property_wise env v updates w p :
  currentProfile w = Some p ->
  exists p',
    currentProfile (exec (pm_updateProfile (manager env v) updates) w) = Some p'
    /\ (forall key,
          personal_info p' !! key
          = match upd_personal_info updates ≫= (fun props => props !! key) with
            | Some value => Some value
            | None => personal_info p !! key
            end)
    /\ (forall key,
          preferences p' !! key
          = match upd_preferences updates ≫= (fun props => props !! key) with
            | Some value => Some value
            | None => preferences p !! key
            end)
    /\ updated_at p' = clock env (date_reads w)
    /\ profile_id p' = profile_id p
    /\ profile_type p' = profile_type p
    /\ shopping p' = shopping p
    /\ browsing p' = browsing p
    /\ analytics p' = analytics p
    /\ metadata p' = metadata p.
Proof.
  intros Hp.
  pose proof (perform_profile env v (UpdateProfile updates) w p Hp) as Hrun.
  assert (exec (perform (manager env v) (UpdateProfile updates)) w
          = exec (pm_updateProfile (manager env v) updates) w) as Hexec.
  { unfold exec, perform, bind.
    by destruct (pm_updateProfile (manager env v) updates w) as [[r|e] w']. }
  rewrite Hexec in Hrun.
  eexists. split; [exact Hrun|]. simpl.
  split; [intros key; apply assign_lookup|].
  split; [intros key; apply assign_lookup|].
  repeat split.
Qed.

Ltac compute_update := cbv [cached_guest session_of]; compute_method.

(** X11: what [updateProfile] of the remote-backed manager persists.  When
    the remote update resolves on an existing document, the document gets
    the merged [personal_info], [preferences] and [updated_at], the updated
    profile is returned, and a guest profile is written to the Local Cache
    at once (a registered one is not).  When the remote update rejects, or
    there is no document to update, the call throws: the profile in memory
    has already been changed, but neither store has. *)
Theorem updateProfile_remote_outcome env updates w p :
  currentProfile w = Some p ->
  db env = true ->
  let p' := (InMemory.step env (UpdateProfile updates) (date_reads w, p)).2 in
  let w' := exec (F.updateProfile env updates) w in
  (remote_ok env (remote_calls w) = true ->
   is_Some (user_profiles w !! profile_id p) ->
   result (F.updateProfile env updates) w = Returned (Some p')
   /\ (exists doc,
         user_profiles w' !! profile_id p = Some doc
         /\ personal_info doc = personal_info p'
         /\ preferences doc = preferences p'
         /\ updated_at doc = updated_at p')
   /\ (profile_type p = guest -> cached_guest env w' = Some p')
   /\ (profile_type p = registered -> localStorage w' = localStorage w))
  /\ (remote_ok env (remote_calls w) = false \/ user_profiles w !! profile_id p = None ->
      result (F.updateProfile env updates) w = Thrown RemoteError
      /\ currentProfile w' = Some p'
      /\ localStorage w' = localStorage w
      /\ user_profiles w' = user_profiles w).
Proof.
  intros Hp Hdb.
  destruct w as [cp sched timers ls ss docs au dr ids rc].
  simpl in Hp. subst cp. cbv zeta.
  split.
  - intros Hok [doc Hdoc]. simpl in Hok, Hdoc.
    compute_update. rewrite Hdb, Hok. compute_update. rewrite Hdoc.
    compute_update.
    destruct (decide (profile_type p = guest)) as [Hguest|Hother]; compute_update.
    + destruct (truthy ss) eqn:Hss; compute_update;
        rewrite ?Hss, ?truthy_session; compute_update.
      all: split; [reflexivity|].
      all: split; [rewrite lookup_alter_eq, Hdoc; eexists; by repeat split|].
      all: split; [intros _; apply lookup_insert_eq | rewrite Hguest; discriminate].
    + split; [reflexivity|].
      split; [rewrite lookup_alter_eq, Hdoc; eexists; by repeat split|].
      split; [by intros ? | reflexivity].
  - intros [Hfail|Hmissing]; simpl in *.
    + compute_update. rewrite Hdb, Hfail. compute_update. by repeat split.
    + compute_update. rewrite Hdb. destruct (remote_ok env rc); compute_update.
      * rewrite Hmissing. compute_update. by repeat split.
      * by repeat split.
Qed.

(** ** The fallback profile *)


Ltac use_tests :=
  repeat match goal with
         | H : truthy ?s = _ |- context [truthy ?s] => rewrite H
         | H : ?m !! ?k = _ |- context [?m !! ?k] => rewrite H
         | |- context [truthy (Some ("session_" +:+ ?s))] => rewrite (truthy_session s)
         | |- context [<[?k := ?x]> ?m !! ?k] => rewrite (lookup_insert_eq m k x)
         end.

(** ** Merging guest data *)

Lemma merge_write_back_stores env key (merged : Profile) w :
  exists w',
    (modify (set_localStorage (base.delete key));;
     warn_on_error
       (Firestore.update env (profile_id merged) (F.overwrite_doc merged));;
     ret merged) w = (Returned merged, w')
    /\ localStorage w' = base.delete key (localStorage w)
    /\ sessionStorage w' = sessionStorage w
    /\ ids_drawn w' = ids_drawn w
    /\ currentProfile w' = currentProfile w.
Proof.
  destruct w as [cp sched timers ls ss docs au dr ids rc]. compute_method.
  repeat (split_test; compute_method); eexists; by repeat split.
Qed.

Lemma mergeGuestData_with_guest env registeredProfile guestProfile w :
  cached_guest env w = Some guestProfile ->
  exists merged w',
    F.mergeGuestData env registeredProfile w = (Returned merged, w')
    /\ cached_guest env w' = None
    /\ currentProfile w' = currentProfile w
    /\ wishlist (shopping merged)
       = wishlist (shopping registeredProfile)
         ++ F.new_wishes (wishlist (shopping registeredProfile))
              (wishlist (shopping guestProfile))
    /\ page_views (browsing merged)
       = page_views (browsing registeredProfile) ++ page_views (browsing guestProfile)
    /\ product_views (browsing merged)
       = product_views (browsing registeredProfile)
         ++ product_views (browsing guestProfile)
    /\ profile_events merged
       = profile_events registeredProfile ++ profile_events guestProfile
    /\ visit_count (metadata merged)
       = visit_count (metadata registeredProfile) + visit_count (metadata guestProfile)
    /\ profile_id merged = profile_id registeredProfile
    /\ profile_type merged = profile_type registeredProfile
    /\ personal_info merged = personal_info registeredProfile
    /\ purchase_history (shopping merged) = purchase_history (shopping registeredProfile)
    /\ abandoned_carts (shopping merged) = abandoned_carts (shopping registeredProfile).
Proof.
  intros Hcached.
  destruct (generateSessionId_returns env w)
    as (w1 & Hsession & Hcurrent & Hls & _ & _ & _ & Htruthy & Hsame).
  unfold cached_guest in Hcached. rewrite <- Hls in Hcached.
  unfold F.mergeGuestData, bind at 1. rewrite Hsession.
  unfold bind at 1, gets at 1. rewrite Hcached.
  set (merged :=
         set_metadata _ (set_analytics _ (set_browsing _ (set_browsing _ _)))).
  destruct (merge_write_back_stores env (guest_profile_key (session_of env w)) merged w1)
    as (w' & Hrun & Hls' & Hss' & Hids' & Hcurrent').
  exists merged, w'. split; [exact Hrun|].
  split.
  { unfold cached_guest.
    assert (session_of env w' = session_of env w) as ->.
    { rewrite <- Hsame. unfold session_of. by rewrite Hss', Hids'. }
    rewrite Hls'. apply lookup_delete_eq. }
  split; [congruence|].
  subst merged.
  destruct (0 <? length (cart_items guestProfile))%nat;
    destruct (0 <? length (wishlist (shopping guestProfile)))%nat eqn:Hwishes;
    repeat split; try reflexivity.
  all: apply Nat.ltb_ge in Hwishes.
  all: destruct (wishlist (shopping guestProfile)); [|simpl in Hwishes; lia].
  all: simpl; by rewrite app_nil_r.
Qed.

Lemma mergeGuestData_without_guest env registeredProfile w :
  cached_guest env w = None ->
  exists w',
    F.mergeGuestData env registeredProfile w = (Returned registeredProfile, w')
    /\ localStorage w' = localStorage w
    /\ user_profiles w' = user_profiles w
    /\ remote_calls w' = remote_calls w
    /\ currentProfile w' = currentProfile w
    /\ cached_guest env w' = None.
Proof.
  intros Hcached.
  destruct (generateSessionId_returns env w)
    as (w1 & Hsession & Hcurrent & Hls & Hdocs & _ & Hrc & Htruthy & Hsame).
  exists w1. split.
  - unfold cached_guest in Hcached. rewrite <- Hls in Hcached.
    unfold F.mergeGuestData, bind at 1. rewrite Hsession.
    unfold bind at 1, gets at 1. by rewrite Hcached.
  - repeat split; try done. unfold cached_guest. by rewrite Hsame, Hls.
Qed.

(** X15: with no guest profile cached for the session, [mergeGuestData]
    returns the profile it was given unchanged and touches nothing: no store
    is written and no remote call is made. *)
Theorem merge_without_cached_guest_changes_nothing env registeredProfile w :
  cached_guest env w = None ->
  exists w',
    F.mergeGuestData env registeredProfile w = (Returned registeredProfile, w')
    /\ localStorage w' = localStorage w
    /\ user_profiles w' = user_profiles w
    /\ remote_calls w' = remote_calls w
    /\ currentProfile w' = currentProfile w.
Proof.
  intros Hcached.
  destruct (mergeGuestData_without_guest env registeredProfile w Hcached)
    as (w' & ? & ? & ? & ? & ? & _).
  by exists w'.
Qed.

Lemma elem_of_new_wishes (registered guests : list WishlistItem) item :
  item ∈ F.new_wishes registered guests
  <-> item ∈ guests /\ wish_product_id item ∉ (wish_product_id <$> registered).
Proof.
  unfold F.new_wishes. rewrite list_elem_of_In, filter_In, <- list_elem_of_In.
  rewrite negb_true_iff, bool_decide_eq_false.
  rewrite <- find_is_wish_None.
  change (fun existing => bool_decide (wish_product_id existing = wish_product_id item))
    with (InMemory.is_wish (wish_product_id item)).
  rewrite <- eq_None_not_Some. reflexivity.
Qed.

Lemma new_wishes_sublist (registered guests : list WishlistItem) :
  F.new_wishes registered guests `sublist_of` guests.
Proof.
  unfold F.new_wishes. induction guests as [|item guests IH]; simpl; [constructor|].
  destruct (negb _); by constructor.
Qed.

(** X16: [mergeGuestData] unites the wishlists by product: the registered
    entries stay in front as they are, and the guest entries whose product is
    not in the registered wishlist are appended in their order.  So a product
    is in the merged wishlist exactly when it is in one of the two, and when
    each wishlist has distinct products the merged one has too. *)
Theorem merge_unites_the_wishlists env registeredProfile guestProfile w :
  cached_guest env w = Some guestProfile ->
  exists merged w' added,
    F.mergeGuestData env registeredProfile w = (Returned merged, w')
    /\ wishlist (shopping merged) = wishlist (shopping registeredProfile) ++ added
    /\ (forall item,
          item ∈ added
          <-> item ∈ wishlist (shopping guestProfile)
              /\ wish_product_id item ∉ wishlist_ids registeredProfile)
    /\ (forall productId,
          productId ∈ wishlist_ids merged
          <-> productId ∈ wishlist_ids registeredProfile
              \/ productId ∈ wishlist_ids guestProfile)
    /\ (NoDup (wishlist_ids registeredProfile) ->
        NoDup (wishlist_ids guestProfile) ->
        NoDup (wishlist_ids merged)).
Proof.
  intros Hcached.
  destruct (mergeGuestData_with_guest env registeredProfile guestProfile w Hcached)
    as (merged & w' & Hrun & _ & _ & Hwishes & _).
  exists merged, w',
    (F.new_wishes (wishlist (shopping registeredProfile))
       (wishlist (shopping guestProfile))).
  split; [exact Hrun|]. split; [exact Hwishes|].
  split; [intros item; apply elem_of_new_wishes|].
  unfold wishlist_ids. rewrite Hwishes, fmap_app. split.
  - intros productId. rewrite elem_of_app. split.
    + intros [Hreg|Hnew]; [by left|]. right.
      apply list_elem_of_fmap in Hnew as (item & -> & Hitem).
      apply elem_of_new_wishes in Hitem as [Hitem _].
      apply list_elem_of_fmap. by exists item.
    + intros [Hreg|Hguest]; [by left|].
      destruct (decide (productId ∈ wish_product_id <$> wishlist (shopping registeredProfile)))
        as [Hin|Hout]; [by left|]. right.
      apply list_elem_of_fmap in Hguest as (item & -> & Hitem).
      apply list_elem_of_fmap. exists item. split; [reflexivity|].
      by apply elem_of_new_wishes.
  - intros Hreg Hguest. apply NoDup_app. split; [exact Hreg|]. split.
    + intros productId Hin Hnew.
      apply list_elem_of_fmap in Hnew as (item & -> & Hitem).
      apply elem_of_new_wishes in Hitem as [_ Hout]. by apply Hout.
    + apply (sublist_NoDup _ _ Hguest). apply fmap_sublist, new_wishes_sublist.
Qed.

(** X17: [mergeGuestData] appends the guest's page views, product views
    and events to the registered ones, without truncating to the bounds of
    these lists, and adds the visit counts; identifier and type stay those of
    the registered profile.  It removes the cache entry, so merging a second
    time changes nothing. *)
Theorem merge_appends_the_guest_history env registeredProfile guestProfile w :
  cached_guest env w = Some guestProfile ->
  exists merged w' w'',
    F.mergeGuestData env registeredProfile w = (Returned merged, w')
    /\ page_views (browsing merged)
       = page_views (browsing registeredProfile) ++ page_views (browsing guestProfile)
    /\ product_views (browsing merged)
       = product_views (browsing registeredProfile)
         ++ product_views (browsing guestProfile)
    /\ profile_events merged
       = profile_events registeredProfile ++ profile_events guestProfile
    /\ visit_count (metadata merged)
       = visit_count (metadata registeredProfile) + visit_count (metadata guestProfile)
    /\ profile_id merged = profile_id registeredProfile
    /\ profile_type merged = profile_type registeredProfile
    /\ cached_guest env w' = None
    /\ F.mergeGuestData env merged w' = (Returned merged, w'').
Proof.
  intros Hcached.
  destruct (mergeGuestData_with_guest env registeredProfile guestProfile w Hcached)
    as (merged & w' & Hrun & Hgone & _ & _ & Hpages & Hviews & Hevents & Hvisits
        & Hid & Htype & _).
  destruct (mergeGuestData_without_guest env merged w' Hgone) as (w'' & Hagain & _).
  by exists merged, w', w''.
Qed.

(** ** Conversion of a guest *)

(** X18: convertGuestToRegistered refuses to run unless the profile in
    memory is a guest profile: with no profile, or with a registered one, it
    throws before anything is touched, so no account is created and neither
    the Local Cache nor the Remote Store changes. *)
Theorem conversion_needs_a_guest env userInfo password w :
  (forall p, currentProfile w = Some p -> profile_type p = registered) ->
  F.convertGuestToRegistered env userInfo password w = (Thrown NoGuestProfile, w).
Proof.
  intros Hcurrent. unfold F.convertGuestToRegistered, bind at 1, gets at 1.
  destruct (currentProfile w) as [p|]; [|reflexivity].
  rewrite (Hcurrent p eq_refl). reflexivity.
Qed.

Lemma registered_copy_email guestProfile user userInfo sessionId updated converted :
  personal_info
    (F.registered_copy guestProfile user userInfo sessionId updated converted)
  !! "email"
  = Some (JStr (info_email userInfo)).
Proof.
  unfold F.registered_copy. simpl.
  rewrite lookup_insert_ne by done. rewrite lookup_insert_ne by done.
  apply lookup_insert_eq.
Qed.

Ltac compute_convert :=
  cbv [F.convertGuestToRegistered F.createAccount F.setDisplayName F.trackAction
       F.batchUpdateProfile cached_guest session_of];
  compute_method.

(** X19: when the account can be created and every remote call resolves,
    convertGuestToRegistered returns a registered profile under the new
    account's uid that is also the profile in memory.  It keeps the guest's
    shopping data, records the guest it came from, carries the e-mail address
    of the form and one more event, [guest_converted_to_registered]; the
    cached guest profile of the session is removed, the new account is the
    signed-in one, the Remote Store holds the registered profile under the
    uid and no document under the old guest id. *)
Theorem conversion_carries_the_guest_over env userInfo password user w p :
  currentProfile w = Some p ->
  profile_type p = guest ->
  createUserWithEmailAndPassword env (info_email userInfo) password = Some user ->
  db env = true ->
  (forall k, remote_ok env k = true) ->
  exists r w' converted event,
    F.convertGuestToRegistered env userInfo password w = (Returned r, w')
    /\ currentProfile w' = Some r
    /\ profile_id r = uid user
    /\ profile_type r = registered
    /\ shopping r = shopping p
    /\ converted_from_guest r
       = Some (mkConvertedFromGuest (profile_id p) converted (session_of env w))
    /\ personal_info r !! "email" = Some (JStr (info_email userInfo))
    /\ profile_events r = keep_last 1000 (profile_events p ++ [event])
    /\ action event = "guest_converted_to_registered"
    /\ cached_guest env w' = None
    /\ (uid <$> auth_currentUser w') = Some (uid user)
    /\ (exists doc,
          user_profiles w' !! uid user = Some doc
          /\ profile_type doc = registered
          /\ shopping doc = shopping p)
    /\ (uid user ≠ profile_id p -> user_profiles w' !! profile_id p = None).
Proof.
  intros Hp Hguest Hcreate Hdb Hok.
  destruct w as [cp sched timers ls ss docs au dr ids rc].
  simpl in Hp. subst cp.
  compute_convert.
  destruct (decide (profile_type p = guest)) as [_|Hne]; [|by destruct Hne].
  compute_convert. rewrite Hcreate. compute_convert.
  destruct (truthy (info_name userInfo)); compute_convert;
    rewrite ?Hok, ?Hdb; compute_convert.
  all: destruct (truthy ss) eqn:Hss; compute_convert;
    rewrite ?Hok, ?Hdb; compute_convert.
  all: destruct sched; compute_convert.
  all: do 4 eexists; split; [reflexivity|].
  all: compute_convert; cbn [default from_option id]; use_tests.
  all: split; [reflexivity|]; split; [reflexivity|]; split; [reflexivity|].
  all: split; [reflexivity|]; split; [reflexivity|].
  all: split; [exact (registered_copy_email p user userInfo "" "" "")|].
  all: split; [reflexivity|]; split; [reflexivity|].
  all: split; [apply lookup_delete_eq|].
  all: split; [reflexivity|].
  all: split; [eexists; split; [first [reflexivity|apply lookup_insert_eq]|by split]|].
  all: intros Hother; rewrite lookup_insert_ne by done; apply lookup_delete_eq.
Qed.

(** X20: a conversion is not undone when it fails half-way.  If the account
    is created, the guest's remote document is deleted and the write of the
    registered profile is then rejected, convertGuestToRegistered throws the
    remote error: the profile in memory is still the guest profile and the
    Local Cache is untouched, but the new account stays signed in and the
    guest's document is gone from the Remote Store. *)
Theorem conversion_failure_is_not_undone env userInfo password user w p k :
  currentProfile w = Some p -> profile_type p = guest ->
  createUserWithEmailAndPassword env (info_email userInfo) password = Some user ->
  db env = true ->
  (truthy (info_name userInfo) = true -> remote_ok env (remote_calls w) = true) ->
  k = (if truthy (info_name userInfo) then S (remote_calls w) else remote_calls w) ->
  remote_ok env k = true -> remote_ok env (S k) = false ->
  exists w',
    F.convertGuestToRegistered env userInfo password w = (Thrown RemoteError, w')
    /\ currentProfile w' = Some p
    /\ localStorage w' = localStorage w
    /\ (uid <$> auth_currentUser w') = Some (uid user)
    /\ user_profiles w' = base.delete (profile_id p) (user_profiles w).
Proof.
  intros Hp Hguest Hcreate Hdb Hname -> Hdelete Hset.
  destruct w as [cp sched timers ls ss docs au dr ids rc]. simpl in *. subst cp.
  compute_convert.
  destruct (decide (profile_type p = guest)) as [_|Hne]; [|by destruct Hne].
  compute_convert. rewrite Hcreate. compute_convert.
  destruct (truthy (info_name userInfo)); compute_convert;
    rewrite ?Hname, ?Hdb by done; compute_convert.
  all: destruct (truthy ss) eqn:Hss; compute_convert;
    rewrite ?Hdb, ?Hdelete; compute_convert; rewrite ?Hdb, ?Hset; compute_convert.
  all: eexists; split; [reflexivity|]; by repeat split.
Qed.
(** ** Sign-in *)

Ltac compute_signin :=
  cbv [F.handleAuthChange F.loadRegisteredProfile F.createRegisteredProfile
       F.mergeGuestData F.updateLastActive createBaseProfile];
  compute_method.

Lemma loadRegisteredProfile_frame env user current w :
  F.loadRegisteredProfile env user (set_currentProfile current w)
  = (let '(r, w') := F.loadRegisteredProfile env user w in
     (r, set_currentProfile current w')).
Proof.
  destruct w as [cp sched timers ls ss docs au dr ids rc].
  compute_signin. repeat (split_test; compute_signin); reflexivity.
Qed.

(** X21: signing in does not look at the guest profile in memory.  Whatever
    guest profile is current when [handleAuthChange] is called with a user,
    the outcome and the resulting state are the same: what is loaded comes
    from the Remote Store and the Local Cache only, so cart lines that were
    added in memory and not yet written to the cache are lost.  When loading
    throws, the guest profile that was current stays current. *)
Theorem sign_in_ignores_the_guest_in_memory env user w p1 p2 :
  profile_type p1 = guest ->
  profile_type p2 = guest ->
  exists o w1 w2,
    F.handleAuthChange env (Some user) (set_currentProfile (Some p1) w) = (o, w1)
    /\ F.handleAuthChange env (Some user) (set_currentProfile (Some p2) w) = (o, w2)
    /\ (o = Returned tt -> w1 = w2)
    /\ (forall e, o = Thrown e ->
        currentProfile w1 = Some p1 /\ currentProfile w2 = Some p2
        /\ set_currentProfile None w1 = set_currentProfile None w2).
Proof.
  intros Hp1 Hp2. unfold F.handleAuthChange.
  unfold bind at 1 3, gets at 1 2.
  replace (currentProfile (set_currentProfile (Some p1) w)) with (Some p1)
    by by destruct w.
  replace (currentProfile (set_currentProfile (Some p2) w)) with (Some p2)
    by by destruct w.
  cbn [fmap option_fmap option_map]. rewrite Hp1, Hp2.
  unfold bind. rewrite !loadRegisteredProfile_frame.
  destruct (F.loadRegisteredProfile env user w) as [[r|e] w'];
    destruct w' as [cp sched timers ls ss docs au dr ids rc];
    do 3 eexists; (split; [reflexivity|]); (split; [reflexivity|]);
    split; try done; intros ? [= <-]; by repeat split.
Qed.

(** X22: the first sign-in of a user creates the profile.  With a guest
    profile current, no remote document for the user and no guest profile
    cached for the session, [handleAuthChange] makes a new registered profile
    current: its id is the user's uid, its shopping data is empty, it carries
    the user's e-mail address and display name, and it is the document the
    Remote Store holds for the uid afterwards.  The Local Cache is not
    written. *)
Theorem first_sign_in_creates_a_profile env user w p :
  currentProfile w = Some p ->
  profile_type p = guest ->
  db env = true ->
  remote_ok env (remote_calls w) = true ->
  remote_ok env (S (remote_calls w)) = true ->
  user_profiles w !! uid user = None ->
  cached_guest env w = None ->
  exists r w',
    F.handleAuthChange env (Some user) w = (Returned tt, w')
    /\ currentProfile w' = Some r
    /\ profile_id r = uid user
    /\ profile_type r = registered
    /\ shopping r = empty_shopping
    /\ personal_info r !! "email" = Some (user_email user)
    /\ personal_info r !! "name" = Some (displayName user)
    /\ user_profiles w' = <[uid user := r]> (user_profiles w)
    /\ localStorage w' = localStorage w.
Proof.
  intros Hp Hguest Hdb Hget Hset Hdoc Hcached.
  destruct w as [cp sched timers ls ss docs au dr ids rc]. simpl in *. subst cp.
  unfold cached_guest, session_of in Hcached. simpl in Hcached.
  compute_signin. rewrite Hguest. compute_signin.
  rewrite Hdb, Hget. compute_signin. rewrite Hdoc. compute_signin.
  destruct (truthy ss) eqn:Hss; compute_signin; cbn [default from_option id] in *;
    use_tests; compute_signin.
  all: rewrite Hset; compute_signin.
  all: do 2 eexists; split; [reflexivity|].
  all: do 4 (split; [reflexivity|]).
  all: unfold set_personal_info; cbn [personal_info].
  all: split; [rewrite lookup_insert_ne by done; apply lookup_insert_eq|].
  all: split; [apply lookup_insert_eq|]; by split.
Qed.

Lemma alter_present {A} (f : A -> A) (m : gmap string A) key x :
  m !! key = Some x -> alter f key m = <[key := f x]> m.
Proof.
  intros Hx. apply map_eq. intros i. destruct (decide (i = key)) as [->|Hne].
  - by rewrite lookup_alter_eq, lookup_insert_eq, Hx.
  - by rewrite lookup_alter_ne, lookup_insert_ne.
Qed.

(** X23: a returning user gets the remote document.  With a guest profile
    current, a remote document for the user and no guest profile cached for
    the session, [handleAuthChange] makes that document, as read, the current
    profile.  The visit it counts goes to the Remote Store only: when the
    update resolves the stored document has one more visit than the profile
    in memory, when it rejects the store is unchanged and sign-in still
    succeeds. *)
Theorem returning_sign_in_loads_the_remote_profile env user w p doc :
  currentProfile w = Some p ->
  profile_type p = guest ->
  db env = true ->
  remote_ok env (remote_calls w) = true ->
  user_profiles w !! uid user = Some doc ->
  cached_guest env w = None ->
  exists w',
    F.handleAuthChange env (Some user) w = (Returned tt, w')
    /\ currentProfile w' = Some doc
    /\ localStorage w' = localStorage w
    /\ (if remote_ok env (S (remote_calls w))
        then exists stored,
               user_profiles w' = <[uid user := stored]> (user_profiles w)
               /\ visit_count (metadata stored) = visit_count (metadata doc) + 1
               /\ shopping stored = shopping doc
               /\ profile_id stored = profile_id doc
        else user_profiles w' = user_profiles w).
Proof.
  intros Hp Hguest Hdb Hget Hdoc Hcached.
  destruct w as [cp sched timers ls ss docs au dr ids rc]. simpl in *. subst cp.
  unfold cached_guest, session_of in Hcached. simpl in Hcached.
  compute_signin. rewrite Hguest. compute_signin.
  rewrite Hdb, Hget. compute_signin. rewrite Hdoc. compute_signin.
  destruct (truthy ss) eqn:Hss; compute_signin; cbn [default from_option id] in *;
    use_tests; compute_signin.
  all: rewrite ?Hdb; compute_signin.
  all: destruct (remote_ok env (S rc)); compute_signin; use_tests; compute_signin.
  all: eexists; split; [reflexivity|]; split; [reflexivity|]; split; [reflexivity|].
  all: try reflexivity.
  all: eexists; split; [by apply alter_present|]; by repeat split.
Qed.

(** X24: a change of identity that does not cross between guest and
    registered is ignored.  Signing in while a registered profile is current
    (whoever owns it), signing out while a guest profile is current, and any
    change while there is no profile leave the whole state as it was: no
    profile is loaded and no store is read or written. *)
Theorem auth_change_without_transition env user w :
  match currentProfile w, user with
  | Some p, Some _ => profile_type p = registered
  | Some p, None => profile_type p = guest
  | None, _ => True
  end ->
  F.handleAuthChange env user w = (Returned tt, w).
Proof.
  unfold F.handleAuthChange, bind at 1, gets at 1.
  destruct (currentProfile w) as [p|], user as [u|]; simpl; try done.
  all: by intros ->.
Qed.
(** ** The page's cart *)

Lemma cart_call_returns env v mutation w :
  result (perform (manager env v) (cart_call mutation)) w = Returned tt.
Proof.
  destruct w as [cp sched timers ls ss docs au dr ids rc].
  destruct cp as [p|]; destruct v, mutation; compute_method;
    repeat (split_test; compute_method); reflexivity.
Qed.

Lemma cart_call_runs env v mutation w p :
  currentProfile w = Some p ->
  exists w',
    perform (manager env v) (cart_call mutation) w = (Returned tt, w')
    /\ currentProfile w'
       = Some (InMemory.step env (cart_call mutation) (date_reads w, p)).2.
Proof.
  intros Hp.
  pose proof (cart_call_returns env v mutation w) as Hr.
  pose proof (perform_profile env v (cart_call mutation) w p Hp) as Hs.
  unfold result in Hr. unfold exec in Hs.
  destruct (perform (manager env v) (cart_call mutation) w) as [o w'].
  simpl in *. subst o. by exists w'.
Qed.

Lemma find_product_id catalog productId product :
  BaseProfileManager.find_product catalog productId = Some product ->
  prod_id product = productId.
Proof.
  unfold BaseProfileManager.find_product. intros Hf.
  apply find_some in Hf as [_ Hid]. by apply bool_decide_eq_true in Hid.
Qed.

Lemma project_cons catalog item its :
  PC.project catalog (item :: its)
  = match BaseProfileManager.find_product catalog (product_id item) with
    | Some product => mkLocalItem product (quantity item) :: PC.project catalog its
    | None => PC.project catalog its
    end.
Proof.
  unfold PC.project. simpl.
  by destruct (BaseProfileManager.find_product catalog (product_id item)).
Qed.

Lemma project_app catalog its more :
  PC.project catalog (its ++ more) = PC.project catalog its ++ PC.project catalog more.
Proof. apply omap_app. Qed.

Lemma project_filter catalog productId its :
  PC.project catalog (filter (fun item => product_id item ≠ productId) its)
  = filter (fun item => item_id item ≠ productId) (PC.project catalog its).
Proof.
  induction its as [|item its IH]; [reflexivity|].
  rewrite filter_cons. destruct (decide (product_id item ≠ productId)) as [Hne|He].
  - rewrite !project_cons.
    destruct (BaseProfileManager.find_product catalog (product_id item)) as [product|] eqn:Hf;
      [|done].
    rewrite filter_cons_True, IH; [done|].
    unfold item_id. simpl. by rewrite (find_product_id _ _ _ Hf).
  - rewrite project_cons.
    destruct (BaseProfileManager.find_product catalog (product_id item)) as [product|] eqn:Hf;
      [|done].
    rewrite filter_cons_False; [done|].
    unfold item_id. simpl. by rewrite (find_product_id _ _ _ Hf).
Qed.

Lemma project_find catalog productId its :
  find (PC.is_item productId) (PC.project catalog its)
  = match BaseProfileManager.find_product catalog productId with
    | Some product =>
        (fun item => mkLocalItem product (quantity item))
          <$> find (InMemory.is_line productId) its
    | None => None
    end.
Proof.
  induction its as [|item its IH].
  - simpl. by destruct (BaseProfileManager.find_product catalog productId).
  - rewrite project_cons. simpl find at 2. unfold InMemory.is_line at 1.
    destruct (BaseProfileManager.find_product catalog (product_id item)) as [product|] eqn:Hf.
    + simpl find at 1. unfold PC.is_item at 1, item_id. simpl.
      rewrite (find_product_id _ _ _ Hf).
      case_bool_decide as Hid.
      * subst productId. by rewrite Hf.
      * exact IH.
    + case_bool_decide as Hid.
      * subst productId. rewrite Hf in IH |- *. exact IH.
      * exact IH.
Qed.

Lemma project_update_first catalog productId product f g its :
  BaseProfileManager.find_product catalog productId = Some product ->
  (forall item, product_id (f item) = product_id item) ->
  (forall item prod,
      g (mkLocalItem prod (quantity item)) = mkLocalItem prod (quantity (f item))) ->
  PC.project catalog (update_first (InMemory.is_line productId) f its)
  = update_first (PC.is_item productId) g (PC.project catalog its).
Proof.
  intros Hproduct Hf Hg.
  induction its as [|item its IH]; [reflexivity|].
  simpl update_first. unfold InMemory.is_line at 1. case_bool_decide as Hid.
  - rewrite !project_cons, Hf, Hid, Hproduct. simpl.
    unfold PC.is_item at 1, item_id. simpl.
    rewrite (find_product_id _ _ _ Hproduct), bool_decide_eq_true_2 by done.
    by rewrite Hg.
  - rewrite !project_cons.
    destruct (BaseProfileManager.find_product catalog (product_id item)) as [other|] eqn:Ho;
      [|exact IH].
    simpl. unfold PC.is_item at 1, item_id. simpl.
    rewrite (find_product_id _ _ _ Ho), bool_decide_eq_false_2 by done.
    by rewrite IH.
Qed.

Lemma project_update_unknown catalog productId f its :
  BaseProfileManager.find_product catalog productId = None ->
  (forall item, product_id (f item) = product_id item) ->
  PC.project catalog (update_first (InMemory.is_line productId) f its)
  = PC.project catalog its.
Proof.
  intros Hproduct Hf.
  induction its as [|item its IH]; [reflexivity|].
  simpl update_first. unfold InMemory.is_line at 1. case_bool_decide as Hid.
  - rewrite !project_cons, Hf, Hid, Hproduct. done.
  - rewrite !project_cons. by rewrite IH.
Qed.

Lemma cart_call_memory env v mutation w p :
  currentProfile w = Some p ->
  exists w',
    perform (manager env v) (cart_call mutation) w = (Returned tt, w')
    /\ memory w' = Some (InMemory.step env (cart_call mutation) (date_reads w, p)).
Proof.
  intros Hp.
  pose proof (cart_call_returns env v mutation w) as Hr.
  pose proof (perform_memory env v (cart_call mutation) w p Hp) as Hs.
  unfold result in Hr. unfold exec in Hs.
  destruct (perform (manager env v) (cart_call mutation) w) as [o w'].
  simpl in *. subst o. by exists w'.
Qed.

Lemma remove_line_items env productId k p :
  cart_items (InMemory.remove_line env productId (k, p)).2
  = filter (fun item => product_id item ≠ productId) (cart_items p).
Proof. unfold InMemory.remove_line. by rewrite retotal_items. Qed.

Lemma cart_items_set_items f p :
  cart_items (set_shopping (set_cart (set_items f)) p) = f (cart_items p).
Proof. reflexivity. Qed.

Lemma clear_items env k p : cart_items (InMemory.clear env (k, p)).2 = [].
Proof.
  unfold InMemory.clear. by destruct (0 <? length (cart_items p))%nat.
Qed.

Lemma project_unknown_line catalog productId qty added updated :
  BaseProfileManager.find_product catalog productId = None ->
  PC.project catalog [mkCartItem productId qty added updated] = [].
Proof. intros Hproduct. rewrite project_cons. simpl. by rewrite Hproduct. Qed.

Lemma project_filter_unknown catalog productId its :
  BaseProfileManager.find_product catalog productId = None ->
  PC.project catalog (filter (fun item => product_id item ≠ productId) its)
  = PC.project catalog its.
Proof.
  intros Hproduct. induction its as [|item its IH]; [reflexivity|].
  rewrite filter_cons. destruct (decide (product_id item ≠ productId)) as [Hne|He].
  - rewrite !project_cons. by rewrite IH.
  - apply dec_stable in He. rewrite project_cons, He, Hproduct. exact IH.
Qed.

Lemma project_known_line catalog productId product qty added updated :
  BaseProfileManager.find_product catalog productId = Some product ->
  PC.project catalog [mkCartItem productId qty added updated]
  = [mkLocalItem product qty].
Proof. intros Hproduct. rewrite project_cons. simpl. by rewrite Hproduct. Qed.

(** The projection of the cart after a step of the profile manager, from
    the projection before. *)
Lemma project_addToCart env catalog productId qty k p :
  PC.project catalog
    (cart_items (InMemory.step env (AddToCart productId qty) (k, p)).2)
  = match BaseProfileManager.find_product catalog productId with
    | None => PC.project catalog (cart_items p)
    | Some product =>
        match find (PC.is_item productId) (PC.project catalog (cart_items p)) with
        | Some _ =>
            update_first (PC.is_item productId)
              (fun item =>
                 mkLocalItem (item_product item) (item_quantity item + qty))
              (PC.project catalog (cart_items p))
        | None => PC.project catalog (cart_items p) ++ [mkLocalItem product qty]
        end
    end.
Proof.
  rewrite project_find. simpl.
  destruct (BaseProfileManager.find_product catalog productId) as [product|] eqn:Hproduct;
    destruct (find (InMemory.is_line productId) (cart_items p)) as [line|] eqn:Hline;
    rewrite retotal_items, cart_items_set_items.
  - by apply (project_update_first _ _ product).
  - by rewrite project_app, (project_known_line _ _ product).
  - by apply project_update_unknown.
  - by rewrite project_app, project_unknown_line, app_nil_r.
Qed.

Lemma project_updateCartQuantity env catalog productId qty k p :
  PC.project catalog
    (cart_items (InMemory.step env (UpdateCartQuantity productId qty) (k, p)).2)
  = match find (PC.is_item productId) (PC.project catalog (cart_items p)) with
    | Some _ =>
        if qty <=? 0
        then filter (fun item => item_id item ≠ productId)
               (PC.project catalog (cart_items p))
        else update_first (PC.is_item productId)
               (fun item => mkLocalItem (item_product item) qty)
               (PC.project catalog (cart_items p))
    | None => PC.project catalog (cart_items p)
    end.
Proof.
  rewrite project_find. simpl.
  destruct (BaseProfileManager.find_product catalog productId) as [product|] eqn:Hproduct;
    destruct (find (InMemory.is_line productId) (cart_items p)) as [line|] eqn:Hline;
    simpl; try done; destruct (qty <=? 0).
  - by rewrite remove_line_items, project_filter.
  - rewrite retotal_items, cart_items_set_items.
    by apply (project_update_first _ _ product).
  - by rewrite remove_line_items, project_filter_unknown.
  - rewrite retotal_items, cart_items_set_items. by apply project_update_unknown.
Qed.

Lemma filter_twice {A} (P : A -> Prop) `{forall x, Decision (P x)} (l : list A) :
  filter P (filter P l) = filter P l.
Proof.
  induction l as [|x l IH]; [reflexivity|].
  rewrite filter_cons. destruct (decide (P x)); [|exact IH].
  by rewrite filter_cons_True, IH.
Qed.

Ltac one_step Hmem Hstep :=
  rewrite Hmem; unfold InMemory.steps; cbn [fold_left]; by rewrite Hstep.

Ltac unfold_page :=
  unfold page_mutation, PC.addToCart, PC.removeFromCart, PC.updateQuantity,
    PC.clearCart, PC.and_then, PC.on_facade, PC.assign,
    FirebaseManager.addToCart, FirebaseManager.removeFromCart,
    FirebaseManager.updateCartQuantity, FirebaseManager.clearCart;
  cbn [page_world localCart page_cart snd fst].

(** One mutation of the page keeps the local cart the projection of the
    profile's cart; the profile has moved by the calls the page made. *)
Lemma page_mutation_mirrors env catalog v mutation s p :
  mirrors catalog s p ->
  exists p' calls,
    mirrors catalog (page_mutation env catalog (Some (Some v)) mutation s) p'
    /\ memory (page_world (page_mutation env catalog (Some (Some v)) mutation s))
       = Some (InMemory.steps env calls (date_reads (page_world s), p)).
Proof.
  destruct s as [w l c]. intros (Hp & Hl & Hc). cbn [page_world localCart page_cart] in *.
  subst c.
  destruct (cart_call_memory env v mutation w p Hp) as (w' & Hrun & Hmem).
  destruct (InMemory.step env (cart_call mutation) (date_reads w, p)) as [k' p'] eqn:Hstep.
  pose proof Hmem as Hmem'. apply memory_inv in Hmem' as [Hp' Hk'].
  destruct mutation as [productId qty|productId|productId qty|];
    cbn [cart_call perform] in Hrun, Hstep; unfold_page; rewrite Hrun;
    cbn [page_world localCart page_cart snd fst].
  - pose proof (project_addToCart env catalog productId qty (date_reads w) p) as Hproject.
    rewrite Hstep in Hproject. cbn [snd] in Hproject. rewrite <- Hl in Hproject.
    destruct (BaseProfileManager.find_product catalog productId) as [product|];
      cbn [page_world localCart page_cart snd fst];
      exists p', [AddToCart productId qty];
      (split; [by repeat split|one_step Hmem Hstep]).
  - exists p', [RemoveFromCart productId]. split; [|one_step Hmem Hstep].
    repeat split; [done|]. cbn [localCart].
    replace p' with (InMemory.step env (RemoveFromCart productId) (date_reads w, p)).2
      by by rewrite Hstep.
    cbn [InMemory.step]. by rewrite remove_line_items, project_filter, Hl.
  - pose proof (project_updateCartQuantity env catalog productId qty (date_reads w) p)
      as Hproject.
    rewrite Hstep in Hproject. cbn [snd] in Hproject. rewrite <- Hl in Hproject.
    destruct (find (PC.is_item productId) l) as [item|] eqn:Hitem;
      [destruct (qty <=? 0) eqn:Hqty|].
    + destruct (cart_call_memory env v (removeFromCart productId) w' p' Hp')
        as (w'' & Hrun' & Hmem'').
      cbn [cart_call perform] in Hrun'. unfold_page. rewrite Hrun'.
      cbn [page_world localCart page_cart snd fst].
      destruct (InMemory.step env (cart_call (removeFromCart productId)) (date_reads w', p'))
        as [k'' p''] eqn:Hstep'.
      cbn [cart_call] in Hstep'.
      pose proof Hmem'' as Hinv. apply memory_inv in Hinv as [Hp'' Hk''].
      exists p'', [UpdateCartQuantity productId qty; RemoveFromCart productId].
      split.
      * repeat split; [done|]. cbn [localCart].
        replace p'' with
          (InMemory.step env (RemoveFromCart productId) (date_reads w', p')).2
          by by rewrite Hstep'.
        cbn [InMemory.step].
        by rewrite remove_line_items, project_filter, Hproject, filter_twice.
      * rewrite Hmem''. unfold InMemory.steps. cbn [fold_left].
        by rewrite Hstep, <- Hk', Hstep'.
    + cbn [page_world localCart page_cart snd fst].
      exists p', [UpdateCartQuantity productId qty].
      split; [|one_step Hmem Hstep]. by repeat split.
    + cbn [page_world localCart page_cart snd fst].
      exists p', [UpdateCartQuantity productId qty].
      split; [|one_step Hmem Hstep]. by repeat split.
  - exists p', [ClearCart]. split; [|one_step Hmem Hstep].
    repeat split; [done|]. cbn [localCart].
    replace p' with (InMemory.step env ClearCart (date_reads w, p)).2
      by by rewrite Hstep.
    cbn [InMemory.step]. by rewrite clear_items.
Qed.

Lemma page_mutations_cons env catalog fm mutation mutations s :
  page_mutations env catalog fm (mutation :: mutations) s
  = page_mutations env catalog fm mutations (page_mutation env catalog fm mutation s).
Proof. reflexivity. Qed.

Lemma page_mutations_mirrors env catalog v mutations : forall s p,
  mirrors catalog s p ->
  exists p' calls,
    mirrors catalog (page_mutations env catalog (Some (Some v)) mutations s) p'
    /\ memory (page_world (page_mutations env catalog (Some (Some v)) mutations s))
       = Some (InMemory.steps env calls (date_reads (page_world s), p)).
Proof.
  induction mutations as [|mutation mutations IH]; intros s p Hs.
  - exists p, []. split; [done|]. apply memory_intro. by destruct Hs.
  - rewrite page_mutations_cons.
    destruct (page_mutation_mirrors env catalog v mutation s p Hs)
      as (p1 & calls1 & Hs1 & Hmem1).
    destruct (IH _ p1 Hs1) as (p' & calls2 & Hs' & Hmem').
    exists p', (calls1 ++ calls2). split; [done|].
    rewrite Hmem'. unfold InMemory.steps at 2. rewrite fold_left_app.
    fold (InMemory.steps env calls1 (date_reads (page_world s), p)).
    destruct (InMemory.steps env calls1 (date_reads (page_world s), p)) as [k1 q1].
    apply memory_inv in Hmem1 as [Hq1 Hk1]. destruct Hs1 as (Hp1 & _).
    rewrite Hp1 in Hq1. injection Hq1 as ->. by rewrite Hk1.
Qed.

Lemma total_of_projection catalog its start :
  fold_left
    (fun sum item => (sum + item_price item * number (item_quantity item))%float)
    (PC.project catalog its) start
  = fold_left PrimFloat.add (omap (line_amount catalog) its) start.
Proof.
  revert start. induction its as [|item its IH]; intros start; [reflexivity|].
  rewrite project_cons. csimpl. unfold line_amount at 1.
  destruct (BaseProfileManager.find_product catalog (product_id item)); csimpl;
    by rewrite IH.
Qed.

Lemma getCartTotal_mirrors catalog s p :
  mirrors catalog s p -> PC.getCartTotal s = expected_total catalog (cart_items p).
Proof.
  intros (_ & Hl & _). unfold PC.getCartTotal, expected_total. rewrite Hl.
  apply total_of_projection.
Qed.

(** X25: the page's cart shows the profile's cart.  [syncWithProfile] makes
    [localCart] (and the global [cart]) the projection of the cart lines of
    the profile in memory: the lines whose product is in the catalog, with
    their quantities, in order.  Every later sequence of [addToCart],
    [removeFromCart], [updateQuantity] and [clearCart] on the cart manager
    keeps it so, under either profile manager, although the cart manager
    updates its list by itself and never reads the profile back. *)
Theorem local_cart_mirrors_the_profile env catalog v s p :
  currentProfile (page_world s) = Some p ->
  mirrors catalog (PC.syncWithProfile catalog (Some (Some v)) s).2 p
  /\ forall mutations,
       exists p',
         mirrors catalog
           (page_mutations env catalog (Some (Some v)) mutations
              (PC.syncWithProfile catalog (Some (Some v)) s).2)
           p'.
Proof.
  intros Hp.
  assert (mirrors catalog (PC.syncWithProfile catalog (Some (Some v)) s).2 p) as Hs.
  { unfold PC.syncWithProfile, FirebaseManager.facade_currentProfile. rewrite Hp.
    by repeat split. }
  split; [done|]. intros mutations.
  destruct (page_mutations_mirrors env catalog v mutations _ p Hs) as (p' & _ & Hs' & _).
  by exists p'.
Qed.

(** X26: the total the page shows is the total the profile stores.  While
    the local cart mirrors the profile's cart, [getCartTotal] is the sum of
    catalog price times quantity over the profile's cart lines whose product
    is in the catalog; so with the catalog that [updateCartTotal] reads and a
    profile whose stored total is consistent, [getCartTotal] equals
    [shopping.cart.total], before and after any sequence of cart mutations
    made through the cart manager. *)
Theorem page_total_is_the_profile_total env catalog v mutations s p :
  products env = Some catalog ->
  mirrors catalog s p ->
  total_consistent catalog p ->
  PC.getCartTotal s = cart_total p
  /\ exists p',
       currentProfile
         (page_world (page_mutations env catalog (Some (Some v)) mutations s))
       = Some p'
       /\ PC.getCartTotal (page_mutations env catalog (Some (Some v)) mutations s)
          = cart_total p'.
Proof.
  intros Hcatalog Hs Hp. split.
  - by rewrite (getCartTotal_mirrors catalog s p Hs), Hp.
  - destruct (page_mutations_mirrors env catalog v mutations s p Hs)
      as (p' & calls & Hs' & Hmem).
    exists p'. split; [by destruct Hs'|].
    rewrite (getCartTotal_mirrors catalog _ p' Hs').
    pose proof (steps_consistent env catalog calls (date_reads (page_world s)) p
                  Hcatalog Hp) as Hsteps.
    destruct (InMemory.steps env calls (date_reads (page_world s), p)) as [k q].
    apply memory_inv in Hmem as [Hq _]. destruct Hs' as (Hp' & _).
    rewrite Hp' in Hq. injection Hq as ->. symmetry. exact Hsteps.
Qed.

(** X27: a product that is not in the catalog reaches the profile but not
    the page.  [addToCart] of the cart manager first hands the call to the
    profile manager and only then looks the product up: for an unknown
    product it returns [false] and leaves [localCart] and [cart] as they
    were, while the profile in memory now has a cart line for the product.
    The line does not show in the projection, so the page still mirrors the
    profile. *)
Theorem unknown_product_reaches_the_profile_only env catalog v productId qty s p :
  currentProfile (page_world s) = Some p ->
  BaseProfileManager.find_product catalog productId = None ->
  exists s' p',
    PC.addToCart env catalog (Some (Some v)) productId qty s = (Returned false, s')
    /\ localCart s' = localCart s
    /\ page_cart s' = page_cart s
    /\ currentProfile (page_world s') = Some p'
    /\ productId ∈ cart_product_ids p'
    /\ PC.project catalog (cart_items p') = PC.project catalog (cart_items p).
Proof.
  intros Hp Hproduct. destruct s as [w l c]. cbn [page_world localCart page_cart] in *.
  destruct (cart_call_memory env v (addToCart productId qty) w p Hp) as (w' & Hrun & Hmem).
  cbn [cart_call perform] in Hrun, Hmem.
  pose proof (project_addToCart env catalog productId qty (date_reads w) p) as Hproject.
  rewrite Hproduct in Hproject.
  assert (productId
          ∈ cart_product_ids (InMemory.step env (AddToCart productId qty) (date_reads w, p)).2)
    as Hin.
  { cbn [InMemory.step].
    destruct (find (InMemory.is_line productId) (cart_items p)) as [line|] eqn:Hline;
      rewrite retotal_cart_ids; unfold cart_product_ids; rewrite cart_items_set_items.
    - rewrite update_first_fmap by done.
      destruct (decide (productId ∈ (product_id <$> cart_items p))) as [|Hout]; [done|].
      apply find_is_line_None in Hout. congruence.
    - rewrite fmap_app. apply elem_of_app. right. apply list_elem_of_singleton.
      reflexivity. }
  destruct (InMemory.step env (AddToCart productId qty) (date_reads w, p)) as [k' p'].
  apply memory_inv in Hmem as [Hp' _].
  unfold PC.addToCart, PC.and_then, PC.on_facade, FirebaseManager.addToCart.
  cbn [page_world localCart page_cart]. rewrite Hrun, Hproduct.
  exists (mkPage w' l c), p'. by repeat split.
Qed.

Lemma facade_cart_call_returns env profileManager mutation w :
  exists w',
    match mutation with
    | addToCart productId qty =>
        FirebaseManager.addToCart env profileManager productId qty
    | removeFromCart productId =>
        FirebaseManager.removeFromCart env profileManager productId
    | updateCartQuantity productId qty =>
        FirebaseManager.updateCartQuantity env profileManager productId qty
    | clearCart => FirebaseManager.clearCart env profileManager
    end w = (Returned tt, w')
    /\ (profileManager = None -> w' = w).
Proof.
  destruct profileManager as [v|].
  - pose proof (cart_call_returns env v mutation w) as Hr. unfold result in Hr.
    destruct mutation; cbn [cart_call perform] in Hr;
      unfold FirebaseManager.addToCart, FirebaseManager.removeFromCart,
        FirebaseManager.updateCartQuantity, FirebaseManager.clearCart;
      match goal with
      | H : fst (?m w) = _ |- _ => destruct (m w) as [o w']; cbn [fst] in H; subst o
      end; by exists w'.
  - exists w. by destruct mutation.
Qed.

Lemma on_facade_returns env fm mutation s :
  exists w',
    PC.on_facade fm
      (fun pm =>
         match mutation with
         | addToCart productId qty => FirebaseManager.addToCart env pm productId qty
         | removeFromCart productId => FirebaseManager.removeFromCart env pm productId
         | updateCartQuantity productId qty =>
             FirebaseManager.updateCartQuantity env pm productId qty
         | clearCart => FirebaseManager.clearCart env pm
         end) s
    = (Returned tt, mkPage w' (localCart s) (page_cart s))
    /\ (fm = None \/ fm = Some None -> w' = page_world s).
Proof.
  unfold PC.on_facade. destruct fm as [pm|].
  - destruct (facade_cart_call_returns env pm mutation (page_world s)) as (w' & Hrun & Hw).
    exists w'. rewrite Hrun. split; [done|]. intros [|[= ->]]; [done|]. by apply Hw.
  - exists (page_world s). split; [by destruct s|done].
Qed.

Ltac run_facade env fm mutation s :=
  let w' := fresh "w" in
  let Hrun := fresh "Hrun" in
  let Hw := fresh "Hw" in
  destruct (on_facade_returns env fm mutation s) as (w' & Hrun & Hw);
  cbv beta iota in Hrun; rewrite Hrun; clear Hrun;
  cbn [page_world localCart page_cart snd fst].

Ltac unfold_cart :=
  unfold page_mutation, PC.addToCart, PC.removeFromCart, PC.updateQuantity,
    PC.clearCart, PC.and_then, PC.assign.

Lemma page_mutation_local env1 env2 catalog fm1 fm2 mutation s1 s2 :
  localCart s1 = localCart s2 ->
  localCart (page_mutation env1 catalog fm1 mutation s1)
  = localCart (page_mutation env2 catalog fm2 mutation s2).
Proof.
  intros Hl.
  destruct mutation as [productId qty|productId|productId qty|]; unfold_cart.
  - run_facade env1 fm1 (addToCart productId qty) s1.
    run_facade env2 fm2 (addToCart productId qty) s2.
    rewrite Hl. by destruct (BaseProfileManager.find_product catalog productId).
  - run_facade env1 fm1 (removeFromCart productId) s1.
    run_facade env2 fm2 (removeFromCart productId) s2.
    by rewrite Hl.
  - run_facade env1 fm1 (updateCartQuantity productId qty) s1.
    run_facade env2 fm2 (updateCartQuantity productId qty) s2.
    rewrite Hl.
    destruct (find (PC.is_item productId) (localCart s2)); [|done].
    destruct (qty <=? 0); [|done].
    unfold_cart.
    match goal with
    | |- context [PC.on_facade fm1 _ ?s] =>
        run_facade env1 fm1 (removeFromCart productId) s
    end.
    match goal with
    | |- context [PC.on_facade fm2 _ ?s] =>
        run_facade env2 fm2 (removeFromCart productId) s
    end.
    reflexivity.
  - run_facade env1 fm1 clearCart s1. run_facade env2 fm2 clearCart s2.
    reflexivity.
Qed.

Lemma page_mutation_world env catalog fm mutation s :
  fm = None \/ fm = Some None ->
  page_world (page_mutation env catalog fm mutation s) = page_world s.
Proof.
  intros Hfm.
  destruct mutation as [productId qty|productId|productId qty|]; unfold_cart.
  - run_facade env fm (addToCart productId qty) s.
    rewrite (Hw Hfm). by destruct (BaseProfileManager.find_product catalog productId).
  - run_facade env fm (removeFromCart productId) s. by rewrite (Hw Hfm).
  - run_facade env fm (updateCartQuantity productId qty) s. rewrite (Hw Hfm).
    destruct (find (PC.is_item productId) (localCart s)); [|done].
    destruct (qty <=? 0); [|done].
    unfold_cart.
    match goal with
    | |- context [PC.on_facade fm _ ?s] =>
        run_facade env fm (removeFromCart productId) s
    end.
    match goal with H : _ -> ?w = page_world _ |- ?w = _ => by rewrite (H Hfm) end.
  - run_facade env fm clearCart s. by rewrite (Hw Hfm).
Qed.

(** X28: what the page shows does not depend on the profile manager.  The
    cart manager updates [localCart] from the catalog and the list it
    already has; the same mutations from the same list give the same list
    whether the facade holds the remote-backed manager, the fallback, or
    none, and whatever the state behind it.  Without a profile manager (or
    without a facade) the state behind the facade is not touched at all. *)
Theorem local_cart_ignores_the_manager env1 env2 catalog fm1 fm2 mutations :
  forall s1 s2,
  localCart s1 = localCart s2 ->
  localCart (page_mutations env1 catalog fm1 mutations s1)
  = localCart (page_mutations env2 catalog fm2 mutations s2)
  /\ (fm1 = None \/ fm1 = Some None ->
      page_world (page_mutations env1 catalog fm1 mutations s1) = page_world s1).
Proof.
  induction mutations as [|mutation mutations IH]; intros s1 s2 Hl; [done|].
  rewrite !page_mutations_cons.
  destruct (IH (page_mutation env1 catalog fm1 mutation s1)
               (page_mutation env2 catalog fm2 mutation s2)) as [Hlocal Hworld];
    [by apply page_mutation_local|].
  split; [done|]. intros Hfm. rewrite (Hworld Hfm). by apply page_mutation_world.
Qed.

Lemma find_is_item_None productId (l : list LocalItem) :
  find (PC.is_item productId) l = None -> productId ∉ (item_id <$> l).
Proof.
  induction l as [|item l IH]; simpl; [intros _; apply not_elem_of_nil|].
  unfold PC.is_item at 1. case_bool_decide as Hid; [discriminate|].
  intros Hf. rewrite not_elem_of_cons. split; [congruence|by apply IH].
Qed.

Lemma page_mutation_unique env catalog fm mutation s :
  NoDup (item_id <$> localCart s) ->
  NoDup (item_id <$> localCart (page_mutation env catalog fm mutation s)).
Proof.
  intros Hs.
  rewrite (page_mutation_local env env catalog fm None mutation s s eq_refl).
  destruct mutation as [productId qty|productId|productId qty|];
    unfold_cart; unfold PC.on_facade; cbn [page_world localCart page_cart snd fst].
  - destruct (BaseProfileManager.find_product catalog productId) as [product|] eqn:Hproduct;
      [|done].
    cbn [page_world localCart page_cart snd fst].
    destruct (find (PC.is_item productId) (localCart s)) eqn:Hitem.
    + by rewrite update_first_fmap.
    + rewrite fmap_app. apply NoDup_app. split; [done|]. split.
      * intros x Hx Hx'. apply list_elem_of_singleton in Hx'. subst x.
        unfold item_id at 1 in Hx. cbn [item_product] in Hx.
        rewrite (find_product_id _ _ _ Hproduct) in Hx.
        by apply find_is_item_None in Hitem.
      * apply NoDup_singleton.
  - apply (sublist_NoDup _ _ Hs). apply fmap_sublist, sublist_filter.
  - destruct (find (PC.is_item productId) (localCart s)); [|done].
    destruct (qty <=? 0); unfold_cart; unfold PC.on_facade;
      cbn [page_world localCart page_cart snd fst].
    + apply (sublist_NoDup _ _ Hs). apply fmap_sublist, sublist_filter.
    + by rewrite update_first_fmap.
  - apply NoDup_nil_2.
Qed.

(** X29: the page's cart has one line per product.  Whatever the facade
    holds, a sequence of cart mutations leads from a local cart whose lines
    have pairwise distinct product ids to one that has; the empty cart the
    cart manager starts with is such a cart. *)
Theorem local_cart_has_one_line_per_product env catalog fm mutations : forall s,
  NoDup (item_id <$> localCart s) ->
  NoDup (item_id <$> localCart (page_mutations env catalog fm mutations s)).
Proof.
  induction mutations as [|mutation mutations IH]; intros s Hs; [done|].
  rewrite page_mutations_cons. apply IH. by apply page_mutation_unique.
Qed.

(** * Sign-out

    Which states the storefront can be in when the customer signs out: the
    code caches a guest profile only while a guest profile is current, and
    removes the cached one before it makes a registered profile current. *)
























(** * The further properties at work on the sample storefront *)

(** With a session id in the session storage, [generateSessionId] returns it and changes nothing. *)
Lemma generateSessionId_is_stable_witness :
  truthy (sessionStorage Sample.blank) = true
  /\ generateSessionId Sample.env Sample.blank = (Returned "session_1", Sample.blank).
Proof.
  split; [reflexivity|].
  destruct (generateSessionId_is_stable Sample.env Sample.blank)
    as (sessionId & w1 & Hrun & _ & _ & Hkept).
  destruct (Hkept eq_refl) as [Hw Hid].
  rewrite Hrun, Hw. injection Hid as <-. reflexivity.
Defined.

(** Adding to the cart under the remote-backed manager writes to no store. *)
Lemma firebase_defers_persistence_witness :
  let call := AddToCart "sku-1" 1 in
  is_updateProfile call = false
  /\ localStorage (exec (perform (firebase Sample.env) call) Scenario.guest_world)
     = localStorage Scenario.guest_world
  /\ user_profiles (exec (perform (firebase Sample.env) call) Scenario.guest_world)
     = user_profiles Scenario.guest_world.
Proof.
  intros call. split; [reflexivity|].
  pose proof (proj1 (firebase_defers_persistence Sample.env Scenario.guest_world)
                call eq_refl) as Hkept.
  cbv zeta in Hkept. destruct Hkept as (Hcache & Hremote & _). by split.
Defined.

(** The timer fires for a guest: the profile is written to the Local Cache. *)
Lemma batchUpdateCallback_writes_latest_witness :
  currentProfile Scenario.guest_world = Some Sample.cached_profile
  /\ db Sample.env = true
  /\ remote_ok Sample.env (remote_calls Scenario.guest_world) = true
  /\ cached_guest Sample.env (exec (F.batchUpdateCallback Sample.env) Scenario.guest_world)
     = Some Sample.cached_profile.
Proof.
  split; [reflexivity|]. split; [reflexivity|]. split; [reflexivity|].
  pose proof (batchUpdateCallback_writes_latest Sample.env Scenario.guest_world
                Sample.cached_profile eq_refl eq_refl eq_refl) as Hrun.
  cbv zeta in Hrun. destruct Hrun as (_ & _ & _ & _ & Hguest & _).
  exact (Hguest eq_refl).
Defined.

(** The timer fires while the Remote Store is unreachable: no store changes. *)
Lemma batchUpdateCallback_failure_skips_cache_witness :
  currentProfile Scenario.guest_world = Some Sample.cached_profile
  /\ db Scenario.unreachable = true
  /\ remote_ok Scenario.unreachable (remote_calls Scenario.guest_world) = false
  /\ result (F.batchUpdateCallback Scenario.unreachable) Scenario.guest_world = Returned tt
  /\ localStorage (exec (F.batchUpdateCallback Scenario.unreachable) Scenario.guest_world)
     = localStorage Scenario.guest_world.
Proof.
  split; [reflexivity|]. split; [reflexivity|]. split; [reflexivity|].
  pose proof (batchUpdateCallback_failure_skips_cache Scenario.unreachable
                Scenario.guest_world Sample.cached_profile eq_refl eq_refl eq_refl) as Hrun.
  cbv zeta in Hrun. destruct Hrun as (Hreturned & _ & _ & Hcache & _). by split.
Defined.

(** Removing sku-2 from the customer's cart. *)
Lemma removeFromCart_removes_the_product_witness :
  let w := Sample.world_with Sample.registered_profile in
  currentProfile w = Some Sample.registered_profile
  /\ exists p',
       currentProfile (exec (pm_removeFromCart (manager Sample.env Fallback) "sku-2") w)
       = Some p'
       /\ cart_line "sku-2" p' = None.
Proof.
  intros w. split; [reflexivity|].
  destruct (removeFromCart_removes_the_product Sample.env Fallback "sku-2" w
              Sample.registered_profile eq_refl) as (p' & Hrun & _ & Hgone & _).
  by exists p'.
Defined.

(** Setting the quantity of sku-2 to 5. *)
Lemma updateCartQuantity_sets_the_line_witness :
  let w := Sample.world_with Sample.registered_profile in
  currentProfile w = Some Sample.registered_profile
  /\ cart_line "sku-2" Sample.registered_profile = Some (Sample.line "sku-2" 1)
  /\ 0 < 5
  /\ exists p',
       currentProfile
         (exec (pm_updateCartQuantity (manager Sample.env RemoteBacked) "sku-2" 5) w)
       = Some p'
       /\ (quantity <$> cart_line "sku-2" p') = Some 5.
Proof.
  intros w. split; [reflexivity|]. split; [reflexivity|]. split; [lia|].
  pose proof (updateCartQuantity_sets_the_line Sample.env RemoteBacked "sku-2" 5 w
                Sample.registered_profile eq_refl) as Hset.
  cbv zeta in Hset. destruct Hset as [_ Hpresent].
  destruct (Hpresent (Sample.line "sku-2" 1) eq_refl ltac:(lia))
    as (p' & before & after & Hrun & _ & _ & Hqty).
  by exists p'.
Defined.

(** A product that is not in the wishlist is appended to it. *)
Lemma wishlist_has_one_entry_per_product_witness :
  currentProfile Scenario.guest_world = Some Sample.cached_profile
  /\ ("sku-1" ∉ wishlist_ids Sample.cached_profile)
  /\ exists p',
       currentProfile
         (exec (pm_addToWishlist (manager Sample.env Fallback) "sku-1" ∅)
               Scenario.guest_world)
       = Some p'
       /\ wishlist_ids p' = ["sku-1"].
Proof.
  split; [reflexivity|]. split; [apply not_elem_of_nil|].
  pose proof (wishlist_has_one_entry_per_product Sample.env Fallback "sku-1"
                Scenario.guest_world Sample.cached_profile eq_refl) as Hwish.
  cbv zeta in Hwish. destruct Hwish as (_ & Hadd & _).
  destruct (Hadd ∅ (not_elem_of_nil _)) as (p' & Hrun & Hlist).
  exists p'. split; [exact Hrun|]. unfold wishlist_ids. rewrite Hlist. reflexivity.
Defined.

(** One page view on the sample profile. *)
Lemma views_are_bounded_witness :
  currentProfile Scenario.guest_world = Some Sample.cached_profile
  /\ exists p',
       currentProfile
         (exec (pm_trackPageView (manager Sample.env RemoteBacked) "home" ∅)
               Scenario.guest_world)
       = Some p'
       /\ (length (page_views (browsing p')) <= 500)%nat.
Proof.
  split; [reflexivity|].
  pose proof (views_are_bounded Sample.env RemoteBacked Scenario.guest_world
                Sample.cached_profile eq_refl) as Hviews.
  cbv zeta in Hviews. destruct Hviews as [Hpages _].
  destruct (Hpages "home" ∅) as (p' & Hrun & _ & Hbound & _).
  by exists p'.
Defined.

(** A purchase empties the customer's cart. *)
Lemma addPurchase_records_and_empties_witness :
  let w := Sample.world_with Sample.registered_profile in
  currentProfile w = Some Sample.registered_profile
  /\ exists p',
       currentProfile (exec (pm_addPurchase (manager Sample.env RemoteBacked) ∅) w)
       = Some p'
       /\ cart_items p' = []
       /\ cart_total p' = 0%float
       /\ length (purchase_history (shopping p')) = 1%nat.
Proof.
  intros w. split; [reflexivity|].
  pose proof (addPurchase_records_and_empties Sample.env RemoteBacked ∅ w
                Sample.registered_profile eq_refl) as Hbuy.
  cbv zeta in Hbuy. destruct Hbuy as (p' & Hrun & Hhistory & Hitems & Htotal & _).
  exists p'. repeat split; try done. rewrite Hhistory. reflexivity.
Defined.

(** An update of the e-mail address keeps the cart. *)
Lemma updateProfile_merges_property_wise_witness :
  let updates := mkUpdates (Some {["email" := JStr "bob@shop.example"]}) None in
  currentProfile Scenario.guest_world = Some Sample.cached_profile
  /\ exists p',
       currentProfile
         (exec (pm_updateProfile (manager Sample.env Fallback) updates)
               Scenario.guest_world)
       = Some p'
       /\ personal_info p' !! "email" = Some (JStr "bob@shop.example")
       /\ shopping p' = shopping Sample.cached_profile.
Proof.
  intros updates. split; [reflexivity|].
  destruct (updateProfile_merges_property_wise Sample.env Fallback updates
              Scenario.guest_world Sample.cached_profile eq_refl)
    as (p' & Hrun & Hinfo & _ & _ & _ & _ & Hshopping & _).
  exists p'. split; [exact Hrun|]. split; [|exact Hshopping].
  rewrite Hinfo. reflexivity.
Defined.

(** With no remote document for the guest, [updateProfile] throws and leaves the stores alone. *)
Lemma updateProfile_remote_outcome_witness :
  let updates := mkUpdates (Some {["email" := JStr "bob@shop.example"]}) None in
  currentProfile Scenario.guest_world = Some Sample.cached_profile
  /\ db Sample.env = true
  /\ user_profiles Scenario.guest_world !! profile_id Sample.cached_profile = None
  /\ result (F.updateProfile Sample.env updates) Scenario.guest_world = Thrown RemoteError
  /\ localStorage (exec (F.updateProfile Sample.env updates) Scenario.guest_world)
     = localStorage Scenario.guest_world.
Proof.
  intros updates. split; [reflexivity|]. split; [reflexivity|]. split; [reflexivity|].
  pose proof (updateProfile_remote_outcome Sample.env updates Scenario.guest_world
                Sample.cached_profile eq_refl eq_refl) as Hout.
  cbv zeta in Hout. destruct Hout as [_ Hfails].
  destruct (Hfails (or_intror eq_refl)) as (Hthrown & _ & Hcache & _). by split.
Defined.

(** With nothing cached, the merge returns the customer's profile as it is. *)
Lemma merge_without_cached_guest_changes_nothing_witness :
  let w := Sample.world_with Sample.registered_profile in
  cached_guest Sample.env w = None
  /\ exists w',
       F.mergeGuestData Sample.env Sample.registered_profile w
       = (Returned Sample.registered_profile, w')
       /\ user_profiles w' = user_profiles w.
Proof.
  intros w. split; [reflexivity|].
  destruct (merge_without_cached_guest_changes_nothing Sample.env
              Sample.registered_profile w eq_refl) as (w' & Hrun & _ & Hremote & _).
  by exists w'.
Defined.

(** The merge of the cached guest profile keeps the wishlist free of duplicates. *)
Lemma merge_unites_the_wishlists_witness :
  cached_guest Sample.env Sample.signed_in = Some Sample.cached_profile
  /\ exists merged w',
       F.mergeGuestData Sample.env Sample.registered_profile Sample.signed_in
       = (Returned merged, w')
       /\ NoDup (wishlist_ids merged).
Proof.
  split; [reflexivity|].
  destruct (merge_unites_the_wishlists Sample.env Sample.registered_profile
              Sample.cached_profile Sample.signed_in eq_refl)
    as (merged & w' & added & Hrun & _ & _ & _ & Hunique).
  exists merged, w'. split; [exact Hrun|].
  apply Hunique; apply NoDup_nil_2.
Defined.

(** The merge of the cached guest profile adds its visit to the customer's. *)
Lemma merge_appends_the_guest_history_witness :
  cached_guest Sample.env Sample.signed_in = Some Sample.cached_profile
  /\ exists merged w',
       F.mergeGuestData Sample.env Sample.registered_profile Sample.signed_in
       = (Returned merged, w')
       /\ visit_count (metadata merged) = 2
       /\ cached_guest Sample.env w' = None.
Proof.
  split; [reflexivity|].
  destruct (merge_appends_the_guest_history Sample.env Sample.registered_profile
              Sample.cached_profile Sample.signed_in eq_refl)
    as (merged & w' & w'' & Hrun & _ & _ & _ & Hvisits & _ & _ & Hgone & _).
  exists merged, w'. split; [exact Hrun|]. split; [|exact Hgone].
  rewrite Hvisits. reflexivity.
Defined.

(** A registered customer cannot be converted: nothing happens. *)
Lemma conversion_needs_a_guest_witness :
  let w := Sample.world_with Sample.registered_profile in
  currentProfile w = Some Sample.registered_profile
  /\ profile_type Sample.registered_profile = registered
  /\ F.convertGuestToRegistered Scenario.signup Scenario.form "secret" w
     = (Thrown NoGuestProfile, w).
Proof.
  intros w. split; [reflexivity|]. split; [reflexivity|].
  apply (conversion_needs_a_guest Scenario.signup Scenario.form "secret" w).
  intros p Hp. injection Hp as <-. reflexivity.
Defined.

(** The guest signs up: the registered profile keeps the guest's cart. *)
Lemma conversion_carries_the_guest_over_witness :
  currentProfile Scenario.guest_world = Some Sample.cached_profile
  /\ profile_type Sample.cached_profile = guest
  /\ createUserWithEmailAndPassword Scenario.signup (info_email Scenario.form) "secret"
     = Some Scenario.new_user
  /\ db Scenario.signup = true
  /\ remote_ok Scenario.signup 0 = true
  /\ exists r w',
       F.convertGuestToRegistered Scenario.signup Scenario.form "secret"
         Scenario.guest_world = (Returned r, w')
       /\ profile_id r = "uid-9"
       /\ profile_type r = registered
       /\ cart_items r = [Sample.line "sku-2" 2]
       /\ cached_guest Scenario.signup w' = None.
Proof.
  split; [reflexivity|]. split; [reflexivity|]. split; [reflexivity|].
  split; [reflexivity|]. split; [reflexivity|].
  destruct (conversion_carries_the_guest_over Scenario.signup Scenario.form "secret"
              Scenario.new_user Scenario.guest_world Sample.cached_profile
              eq_refl eq_refl eq_refl eq_refl (fun _ => eq_refl))
    as (r & w' & converted & event & Hrun & _ & Hid & Htype & Hshopping & _ & _ & _ & _
        & Hgone & _).
  exists r, w'. split; [exact Hrun|]. split; [exact Hid|]. split; [exact Htype|].
  split; [|exact Hgone]. unfold cart_items. rewrite Hshopping. reflexivity.
Defined.

(** The write of the registered profile is rejected after the account was made. *)
Lemma conversion_failure_is_not_undone_witness :
  currentProfile Scenario.guest_world = Some Sample.cached_profile
  /\ profile_type Sample.cached_profile = guest
  /\ createUserWithEmailAndPassword Scenario.signup_cut_off
       (info_email Scenario.short_form) "secret" = Some Scenario.new_user
  /\ remote_ok Scenario.signup_cut_off 0 = true
  /\ remote_ok Scenario.signup_cut_off 1 = false
  /\ exists w',
       F.convertGuestToRegistered Scenario.signup_cut_off Scenario.short_form "secret"
         Scenario.guest_world = (Thrown RemoteError, w')
       /\ currentProfile w' = Some Sample.cached_profile
       /\ (uid <$> auth_currentUser w') = Some "uid-9".
Proof.
  split; [reflexivity|]. split; [reflexivity|]. split; [reflexivity|].
  split; [reflexivity|]. split; [reflexivity|].
  assert (truthy (info_name Scenario.short_form) = true ->
          remote_ok Scenario.signup_cut_off (remote_calls Scenario.guest_world) = true)
    as Hname by (intros _; reflexivity).
  destruct (conversion_failure_is_not_undone Scenario.signup_cut_off Scenario.short_form
              "secret" Scenario.new_user Scenario.guest_world Sample.cached_profile 0%nat
              eq_refl eq_refl eq_refl eq_refl Hname eq_refl eq_refl eq_refl)
    as (w' & Hrun & Hcurrent & _ & Hauth & _).
  by exists w'.
Defined.

(** Two guests with different carts sign in as the same customer. *)
Lemma sign_in_ignores_the_guest_in_memory_witness :
  let other := Sample.profile "guest_session_1" guest [] 0 in
  profile_type Sample.cached_profile = guest
  /\ profile_type other = guest
  /\ exists o w1 w2,
       F.handleAuthChange Sample.env (Some Scenario.customer)
         (set_currentProfile (Some Sample.cached_profile) Sample.blank) = (o, w1)
       /\ F.handleAuthChange Sample.env (Some Scenario.customer)
            (set_currentProfile (Some other) Sample.blank) = (o, w2)
       /\ (o = Returned tt -> w1 = w2).
Proof.
  intros other. split; [reflexivity|]. split; [reflexivity|].
  destruct (sign_in_ignores_the_guest_in_memory Sample.env Scenario.customer
              Sample.blank Sample.cached_profile other eq_refl eq_refl)
    as (o & w1 & w2 & Hrun1 & Hrun2 & Hsame & _).
  by exists o, w1, w2.
Defined.

(** The customer signs in for the first time. *)
Lemma first_sign_in_creates_a_profile_witness :
  currentProfile Scenario.guest_world = Some Sample.cached_profile
  /\ profile_type Sample.cached_profile = guest
  /\ db Sample.env = true
  /\ remote_ok Sample.env 0 = true
  /\ remote_ok Sample.env 1 = true
  /\ user_profiles Scenario.guest_world !! uid Scenario.customer = None
  /\ cached_guest Sample.env Scenario.guest_world = None
  /\ exists r w',
       F.handleAuthChange Sample.env (Some Scenario.customer) Scenario.guest_world
       = (Returned tt, w')
       /\ currentProfile w' = Some r
       /\ profile_id r = "uid-1"
       /\ cart_items r = []
       /\ user_profiles w' !! "uid-1" = Some r.
Proof.
  do 7 (split; [reflexivity|]).
  destruct (first_sign_in_creates_a_profile Sample.env Scenario.customer
              Scenario.guest_world Sample.cached_profile
              eq_refl eq_refl eq_refl eq_refl eq_refl eq_refl eq_refl)
    as (r & w' & Hrun & Hcurrent & Hid & _ & Hshopping & _ & _ & Hremote & _).
  exists r, w'. split; [exact Hrun|]. split; [exact Hcurrent|]. split; [exact Hid|].
  split.
  - unfold cart_items. rewrite Hshopping. reflexivity.
  - rewrite Hremote. apply lookup_insert_eq.
Defined.

(** The customer signs in again: the remote document becomes the profile. *)
Lemma returning_sign_in_loads_the_remote_profile_witness :
  currentProfile Scenario.returning_world = Some Sample.cached_profile
  /\ profile_type Sample.cached_profile = guest
  /\ db Sample.env = true
  /\ remote_ok Sample.env 0 = true
  /\ user_profiles Scenario.returning_world !! uid Scenario.customer
     = Some Sample.registered_profile
  /\ cached_guest Sample.env Scenario.returning_world = None
  /\ exists w',
       F.handleAuthChange Sample.env (Some Scenario.customer) Scenario.returning_world
       = (Returned tt, w')
       /\ currentProfile w' = Some Sample.registered_profile.
Proof.
  do 6 (split; [reflexivity|]).
  destruct (returning_sign_in_loads_the_remote_profile Sample.env Scenario.customer
              Scenario.returning_world Sample.cached_profile Sample.registered_profile
              eq_refl eq_refl eq_refl eq_refl eq_refl eq_refl)
    as (w' & Hrun & Hcurrent & _).
  by exists w'.
Defined.

(** Another user signs in while the customer's profile is current. *)
Lemma auth_change_without_transition_witness :
  let w := Sample.world_with Sample.registered_profile in
  currentProfile w = Some Sample.registered_profile
  /\ profile_type Sample.registered_profile = registered
  /\ uid Scenario.new_user ≠ profile_id Sample.registered_profile
  /\ F.handleAuthChange Sample.env (Some Scenario.new_user) w = (Returned tt, w).
Proof.
  intros w. split; [reflexivity|]. split; [reflexivity|]. split; [discriminate|].
  exact (auth_change_without_transition Sample.env (Some Scenario.new_user) w eq_refl).
Defined.

(** The cart manager reads the customer's cart: the line of the unknown product is not shown. *)
Lemma local_cart_mirrors_the_profile_witness :
  currentProfile (page_world Scenario.fresh_page) = Some Sample.registered_profile
  /\ localCart
       (PC.syncWithProfile Scenario.catalog (Some (Some RemoteBacked)) Scenario.fresh_page).2
     = [mkLocalItem (mkProduct "sku-1" 9.99) 1; mkLocalItem (mkProduct "sku-2" 25) 1]
  /\ exists p',
       mirrors Scenario.catalog
         (page_mutations Sample.env Scenario.catalog (Some (Some RemoteBacked))
            Scenario.clicks
            (PC.syncWithProfile Scenario.catalog (Some (Some RemoteBacked))
               Scenario.fresh_page).2)
         p'.
Proof.
  split; [reflexivity|].
  destruct (local_cart_mirrors_the_profile Sample.env Scenario.catalog RemoteBacked
              Scenario.fresh_page Sample.registered_profile eq_refl)
    as [(_ & Hlocal & _) Hkept].
  split; [rewrite Hlocal; reflexivity|]. apply Hkept.
Defined.

(** The page shows the total the customer's profile stores. *)
Lemma page_total_is_the_profile_total_witness :
  products Sample.env = Some Scenario.catalog
  /\ mirrors Scenario.catalog Scenario.synced_page Sample.registered_profile
  /\ total_consistent Scenario.catalog Sample.registered_profile
  /\ PC.getCartTotal Scenario.synced_page = 34.990000000000002%float
  /\ exists p',
       currentProfile
         (page_world
            (page_mutations Sample.env Scenario.catalog (Some (Some Fallback))
               Scenario.clicks Scenario.synced_page)) = Some p'
       /\ PC.getCartTotal
            (page_mutations Sample.env Scenario.catalog (Some (Some Fallback))
               Scenario.clicks Scenario.synced_page)
          = cart_total p'.
Proof.
  assert (mirrors Scenario.catalog Scenario.synced_page Sample.registered_profile)
    as Hmirrors by (repeat split; reflexivity).
  split; [reflexivity|]. split; [exact Hmirrors|]. split; [reflexivity|].
  destruct (page_total_is_the_profile_total Sample.env Scenario.catalog Fallback
              Scenario.clicks Scenario.synced_page Sample.registered_profile
              eq_refl Hmirrors eq_refl) as [Hnow Hlater].
  split; [rewrite Hnow; reflexivity|exact Hlater].
Defined.

(** A product that is not in the catalog is added: the page refuses, the profile records it. *)
Lemma unknown_product_reaches_the_profile_only_witness :
  currentProfile (page_world Scenario.synced_page) = Some Sample.registered_profile
  /\ BaseProfileManager.find_product Scenario.catalog "sku-9" = None
  /\ exists s' p',
       PC.addToCart Sample.env Scenario.catalog (Some (Some RemoteBacked)) "sku-9" 1
         Scenario.synced_page = (Returned false, s')
       /\ localCart s' = localCart Scenario.synced_page
       /\ currentProfile (page_world s') = Some p'
       /\ "sku-9" ∈ cart_product_ids p'.
Proof.
  split; [reflexivity|]. split; [reflexivity|].
  destruct (unknown_product_reaches_the_profile_only Sample.env Scenario.catalog
              RemoteBacked "sku-9" 1 Scenario.synced_page Sample.registered_profile
              eq_refl eq_refl)
    as (s' & p' & Hrun & Hlocal & _ & Hcurrent & Hin & _).
  by exists s', p'.
Defined.

(** The same clicks with the remote-backed manager and with no facade at all. *)
Lemma local_cart_ignores_the_manager_witness :
  localCart Scenario.synced_page = localCart Scenario.synced_page
  /\ localCart
       (page_mutations Sample.env Scenario.catalog (Some (Some RemoteBacked))
          Scenario.clicks Scenario.synced_page)
     = localCart
         (page_mutations Scenario.unreachable Scenario.catalog None
            Scenario.clicks Scenario.synced_page)
  /\ page_world
       (page_mutations Scenario.unreachable Scenario.catalog None
          Scenario.clicks Scenario.synced_page)
     = page_world Scenario.synced_page.
Proof.
  split; [reflexivity|]. split.
  - exact (proj1 (local_cart_ignores_the_manager Sample.env Scenario.unreachable
                    Scenario.catalog (Some (Some RemoteBacked)) None Scenario.clicks
                    Scenario.synced_page Scenario.synced_page eq_refl)).
  - exact (proj2 (local_cart_ignores_the_manager Scenario.unreachable Sample.env
                    Scenario.catalog None None Scenario.clicks
                    Scenario.synced_page Scenario.synced_page eq_refl)
             (or_introl eq_refl)).
Defined.

(** The clicks on the page that starts with an empty cart. *)
Lemma local_cart_has_one_line_per_product_witness :
  NoDup (item_id <$> localCart Scenario.fresh_page)
  /\ NoDup
       (item_id
          <$> localCart
                (page_mutations Sample.env Scenario.catalog (Some (Some Fallback))
                   Scenario.clicks Scenario.fresh_page)).
Proof.
  split; [apply NoDup_nil_2|].
  apply (local_cart_has_one_line_per_product Sample.env Scenario.catalog
           (Some (Some Fallback)) Scenario.clicks Scenario.fresh_page).
  apply NoDup_nil_2.
Defined.
